(** * NetTopology: reconfiguration, warm-up and build of the cache topology

    A shallow embedding of [src/net/topology.py] (class [NetTopology]).

    The Python object is a record of its attributes, methods are
    computations in a state-and-exception monad over the instance and the
    outside world (files, open handles, random generator, console, call
    log).  Values read from the JSON configuration keep Python's dynamic
    typing: a missing key is a [KeyError], the wrong kind of value a
    [TypeError] or [AttributeError], exactly where the interpreter raises
    them.  Integers are unbounded; floats are IEEE 754 doubles, with the
    rounding, the infinities and the exceptions of Python's arithmetic. *)

From Stdlib Require Import String Ascii List ZArith QArith Bool Lia.
From Stdlib Require Import SpecFloat.
From Stdlib Require Import DecimalString DecimalZ.
Import ListNotations.

#[local] Set Warnings "-register-all".

Local Open Scope string_scope.
Local Open Scope list_scope.

(** ** Python values *)

Module Py.

(** *** Floats

    Python's [float] is an IEEE 754 double: the operations of [SpecFloat]
    at precision 53 with exponent bound 1024, rounding to nearest, ties
    to even.  Overflow gives an infinity, not an exception. *)
Definition float : Type := spec_float.

(** [x * y] and [x / y] on floats ([y] not zero). *)
Definition fmul (x y : float) : float := SFmul 53 1024 x y.
Definition fdiv (x y : float) : float := SFdiv 53 1024 x y.

(** The double nearest to an integer; an infinity when the integer is
    beyond the doubles. *)
Definition float_of_Z (z : Z) : float := binary_normalize 53 1024 z 0 false.

(** [1.0] *)
Definition float_one : float := float_of_Z 1.

(** The double nearest to the quotient of two integers: Python's [/] on
    integers rounds the exact quotient once, whatever the size of the
    operands. *)
Definition int_quotient (neg : bool) (n d : positive) : float :=
  fdiv (S754_finite neg n 0) (S754_finite false d 0).

(** A float that a value holds: a zero, an infinity, or
    [(-1)^neg * m * 2^e].  The doubles are the triples in canonical form
    ([valid_binary] at 53 and 1024), which is how the sample values below
    are written.  NaN is left out: it is equal to no value, not even to
    itself, so that a dictionary finds a NaN key by the identity of the
    object only, and values have no identity here. *)
Inductive float_value : Type :=
| Zero (neg : bool)
| Inf (neg : bool)
| Finite (neg : bool) (m : positive) (e : Z).

Definition to_float (x : float_value) : float :=
  match x with
  | Zero s => S754_zero s
  | Inf s => S754_infinity s
  | Finite s m e => S754_finite s m e
  end.

(** What [json.load] produces: dictionaries have string keys; a number
    written without fraction or exponent is an [int], any other number a
    [float]. *)
Inductive value : Type :=
| VNone
| VBool (b : bool)
| VInt (z : Z)
| VFloat (x : float_value)
| VStr (s : string)
| VList (l : list value)
| VDict (d : list (string * value)).

Inductive exn : Type :=
| KeyError (k : value)
| IndexError
| TypeError
| ValueError
| AttributeError (name : string)
| UnboundLocalError (name : string)
| ZeroDivisionError
| OverflowError
| OSError
| External (what : string).

Definition res (A : Type) : Type := (exn + A)%type.

Definition ok {A} (a : A) : res A := inr a.
Definition raise {A} (e : exn) : res A := inl e.

(** The exact value of a number.  Python compares integers and floats
    by their exact values. *)
Inductive number : Type :=
| Rational (q : Q)
| Infinite (neg : bool).

Definition number_eqb (x y : number) : bool :=
  match x, y with
  | Rational p, Rational q => Qeq_bool p q
  | Infinite a, Infinite b => Bool.eqb a b
  | _, _ => false
  end.

(** [True == 1] and [False == 0] in Python; [-0.0 == 0]. *)
Definition as_number (v : value) : option number :=
  match v with
  | VInt z => Some (Rational (inject_Z z))
  | VFloat (Zero _) => Some (Rational 0)
  | VFloat (Inf s) => Some (Infinite s)
  | VFloat (Finite s m e) =>
      Some (Rational (inject_Z (if s then Zneg m else Zpos m) * 2 ^ e))
  | VBool true => Some (Rational 1)
  | VBool false => Some (Rational 0)
  | _ => None
  end.

(** [v == "literal"] *)
Definition eq_str (v : value) (s : string) : bool :=
  match v with
  | VStr t => String.eqb t s
  | _ => false
  end.

(** [v != None] *)
Definition is_not_none (v : value) : bool :=
  match v with
  | VNone => false
  | _ => true
  end.

(** Truth value of [if v:]. *)
Definition truthy (v : value) : bool :=
  match v with
  | VNone => false
  | VBool b => b
  | VInt z => negb (Z.eqb z 0)
  | VFloat x => match x with Zero _ => false | _ => true end
  | VStr s => negb (String.eqb s "")
  | VList l => match l with [] => false | _ => true end
  | VDict d => match d with [] => false | _ => true end
  end.

(** Lists and dictionaries cannot be dictionary keys or graph nodes. *)
Definition hashable (v : value) : bool :=
  match v with
  | VList _ | VDict _ => false
  | _ => true
  end.

(** Equality of hashable values, as dictionary lookup sees it. *)
Definition key_eqb (a b : value) : bool :=
  match a, b with
  | VNone, VNone => true
  | VStr s, VStr t => String.eqb s t
  | _, _ =>
      match as_number a, as_number b with
      | Some p, Some q => number_eqb p q
      | _, _ => false
      end
  end.

(** *** Strings *)

Fixpoint is_prefix (p s : string) : bool :=
  match p, s with
  | EmptyString, _ => true
  | String a p', String b s' => Ascii.eqb a b && is_prefix p' s'
  | String _ _, EmptyString => false
  end.

(** [sub in s] *)
Fixpoint is_substring (sub s : string) : bool :=
  is_prefix sub s ||
  match s with
  | EmptyString => false
  | String _ s' => is_substring sub s'
  end.

(** [s.replace(old, new)] for a non-empty [old]: occurrences are replaced
    from the left and do not overlap.  [skip] counts the characters of a
    match that are still to be dropped. *)
Fixpoint replace_from (old new : string) (skip : nat) (s : string) : string :=
  match s with
  | EmptyString => EmptyString
  | String c s' =>
      match skip with
      | S k => replace_from old new k s'
      | O =>
          if is_prefix old s
          then new ++ replace_from old new (String.length old - 1) s'
          else String c (replace_from old new 0 s')
      end
  end.

Definition str_replace (old new s : string) : string :=
  replace_from old new 0 s.

(** [s.split(sep)] for a one-character separator. *)
Fixpoint str_split (sep : ascii) (s : string) : list string :=
  match s with
  | EmptyString => [EmptyString]
  | String c s' =>
      if Ascii.eqb c sep then EmptyString :: str_split sep s'
      else match str_split sep s' with
           | h :: t => String c h :: t
           | [] => [String c EmptyString]
           end
  end.

(** [os.path.join(dir, name)] on POSIX, for a relative [name]. *)
Fixpoint ends_with_slash (s : string) : bool :=
  match s with
  | EmptyString => false
  | String c EmptyString => Ascii.eqb c "/"
  | String _ s' => ends_with_slash s'
  end.

Definition path_join (dir name : string) : string :=
  match dir with
  | EmptyString => name
  | _ => if ends_with_slash dir then dir ++ name else dir ++ "/" ++ name
  end.

(** *** Subscripts, membership, iteration *)

Fixpoint assoc {A} (k : string) (d : list (string * A)) : option A :=
  match d with
  | [] => None
  | (k', v) :: d' => if String.eqb k' k then Some v else assoc k d'
  end.

(** [v[k]] for a string [k]. *)
Definition getitem (v : value) (k : string) : res value :=
  match v with
  | VDict d =>
      match assoc k d with
      | Some x => ok x
      | None => raise (KeyError (VStr k))
      end
  | _ => raise TypeError
  end.

(** [v[i]] for a non-negative integer [i]. *)
Definition index (v : value) (i : nat) : res value :=
  match v with
  | VList l =>
      match nth_error l i with
      | Some x => ok x
      | None => raise IndexError
      end
  | VStr s =>
      match String.get i s with
      | Some c => ok (VStr (String c EmptyString))
      | None => raise IndexError
      end
  | VDict _ => raise (KeyError (VInt (Z.of_nat i)))
  | _ => raise TypeError
  end.

(** [k in v] for a string [k]. *)
Definition contains (k : string) (v : value) : res bool :=
  match v with
  | VDict d => ok (match assoc k d with Some _ => true | None => false end)
  | VList l => ok (existsb (fun x => eq_str x k) l)
  | VStr s => ok (is_substring k s)
  | _ => raise TypeError
  end.

Fixpoint chars (s : string) : list value :=
  match s with
  | EmptyString => []
  | String c s' => VStr (String c EmptyString) :: chars s'
  end.

(** The elements [for x in v] runs over. *)
Definition iter (v : value) : res (list value) :=
  match v with
  | VList l => ok l
  | VDict d => ok (map (fun kv => VStr (fst kv)) d)
  | VStr s => ok (chars s)
  | _ => raise TypeError
  end.

(** [1 / v]: true division, whose result is a float.  An integer
    divisor gives the double nearest to the exact quotient; a float
    divisor the IEEE quotient of [1.0] by it. *)
Definition one_over (v : value) : res float :=
  match v with
  | VBool true => ok float_one
  | VBool false => raise ZeroDivisionError
  | VInt Z0 => raise ZeroDivisionError
  | VInt (Zpos d) => ok (int_quotient false 1 d)
  | VInt (Zneg d) => ok (int_quotient true 1 d)
  | VFloat (Zero _) => raise ZeroDivisionError
  | VFloat x => ok (fdiv float_one (to_float x))
  | _ => raise TypeError
  end.

(** [v.split("/")] unpacked into two names. *)
Definition split_pair (v : value) : res (string * string) :=
  match v with
  | VStr s =>
      match str_split "/" s with
      | [a; b] => ok (a, b)
      | _ => raise ValueError
      end
  | _ => raise (AttributeError "split")
  end.

(** [v.replace(old, new)] *)
Definition replace (v : value) (old new : string) : res value :=
  match v with
  | VStr s => ok (VStr (str_replace old new s))
  | _ => raise (AttributeError "replace")
  end.

(** *** Dictionaries keyed by hashable values, in insertion order *)

Section Dict.
Context {V : Type}.

Definition dict : Type := list (value * V).

Fixpoint dict_get (k : value) (d : dict) : option V :=
  match d with
  | [] => None
  | (k', v) :: d' => if key_eqb k' k then Some v else dict_get k d'
  end.

(** [d[k] = v]: an existing key keeps its place. *)
Fixpoint dict_set (k : value) (v : V) (d : dict) : dict :=
  match d with
  | [] => [(k, v)]
  | (k', v') :: d' =>
      if key_eqb k' k then (k', v) :: d' else (k', v') :: dict_set k v d'
  end.

Definition dict_keys (d : dict) : list value := map fst d.
End Dict.

Arguments dict V : clear implicits.

End Py.

(** ** The graph library (networkx [Graph]): a simple undirected graph *)

Module Nx.
Import Py.

(** Node attributes set by [add_node(n, ip=..)] and
    [add_node(n, ip=.., gw=..)]. *)
Record NodeData : Type := mkNode { ip : option value; gw : option value }.

(** The six keyword attributes both [add_edge] calls of [build] pass. *)
Record EdgeData : Type := mkEdge {
  interface_1 : string;
  interface_2 : string;
  id_1 : string;
  ip_1 : value;
  ip_2 : value;
  weight : float
}.

Record Graph : Type := mkGraph {
  nodes : dict NodeData;
  edges : list ((value * value) * EdgeData)
}.

Definition empty : Graph := mkGraph [] [].

(** An undirected edge is found from either end. *)
Definition same_edge (a b u v : value) : bool :=
  (key_eqb a u && key_eqb b v) || (key_eqb a v && key_eqb b u).

Fixpoint find_edge (u v : value) (es : list ((value * value) * EdgeData))
  : option EdgeData :=
  match es with
  | [] => None
  | ((a, b), d) :: es' => if same_edge a b u v then Some d else find_edge u v es'
  end.

Definition get_edge (g : Graph) (u v : value) : option EdgeData :=
  find_edge u v (edges g).

(** An edge that exists has its attributes overwritten; there are no
    parallel edges. *)
Fixpoint put_edge (u v : value) (d : EdgeData)
  (es : list ((value * value) * EdgeData)) : list ((value * value) * EdgeData) :=
  match es with
  | [] => [((u, v), d)]
  | ((a, b), d') :: es' =>
      if same_edge a b u v then ((a, b), d) :: es'
      else ((a, b), d') :: put_edge u v d es'
  end.

(** The test [n not in self._node] hashes [n]; [None] is refused as a
    node. *)
Definition check_node (n : value) : res unit :=
  if negb (hashable n) then raise TypeError
  else match n with
       | VNone => raise ValueError
       | _ => ok tt
       end.

(** [add_node(n, **attr)]: a new node is appended, an existing one has
    its attributes updated. *)
Definition add_node (n : value) (upd : NodeData -> NodeData) (g : Graph)
  : res Graph :=
  match check_node n with
  | inl e => raise e
  | inr _ =>
      let old := match dict_get n (nodes g) with
                 | Some d => d
                 | None => mkNode None None
                 end in
      ok (mkGraph (dict_set n (upd old) (nodes g)) (edges g))
  end.

(** The first half of [add_edge]: an endpoint that is not yet a node
    becomes one, without attributes. *)
Definition touch_node (n : value) (g : Graph) : res Graph :=
  add_node n (fun d => d) g.

Definition link (u v : value) (d : EdgeData) (g : Graph) : Graph :=
  mkGraph (nodes g) (put_edge u v d (edges g)).

(** [n in g] *)
Definition has_node (g : Graph) (n : value) : bool :=
  match dict_get n (nodes g) with
  | Some _ => true
  | None => false
  end.

End Nx.

(** ** The content model (module [src.util.gen_files], [src.util.sampling]) *)

Module Content.
Import Py.

(** Modelled from the spec: the class [ReservoirSampling] is constructed
    in [build] but not defined in this file; the object is represented by
    its constructor argument. *)
Inductive Sampler : Type :=
| ReservoirSampling (sampleRate : value).

(** Modelled from the spec: the classes [GammaDistribution] and
    [ZipfDistribution] ("a closed-form distribution, Zipf with skewness
    parameter or Gamma with shape/scale, over a fixed content universe of
    given cardinality, optionally wrapped by a reservoir sampler"); the
    objects are represented by their constructor arguments. *)
Inductive Distribution : Type :=
| GammaDistribution (K theta length : value) (sampleGen : option Sampler)
| ZipfDistribution (skewness length : value) (sampleGen : option Sampler).

(** Modelled from the spec: the class [ContentGenerator] ("either a
    closed-form distribution or an empirical table loaded from trace
    data").  [dist] and [custom_data] are the two attributes [warmUp]
    reads; the other fields record the constructor's keyword arguments. *)
Record ContentGenerator : Type := mkGen {
  dist : option Distribution;
  fixedContentSize : value;
  data_path : option value;
  gen_sampleGen : option Sampler;
  gen_alpha : option float;
  custom_data : value
}.

(** The sampler a content model carries: the one given to its
    distribution, or, for trace data, to the generator itself. *)
Definition sampler_of (g : ContentGenerator) : option Sampler :=
  match dist g with
  | Some (GammaDistribution _ _ _ s) => s
  | Some (ZipfDistribution _ _ s) => s
  | None => gen_sampleGen g
  end.

End Content.

(** ** The outside world *)

Module Os.
Import Py.

(** What the operating system does with the next file that is opened for
    writing. *)
Inductive io_outcome : Type :=
| IoOk
| IoOpenFails
| IoWriteFails (written : nat).

(** Calls that leave the class, in the order they happen. *)
Inductive event : Type :=
| EvPrint (line : string)
| EvRandomGen (client n : value)
| EvRoute (clients : list value)
| EvColoring
| EvSetServerColor (server color : value)
| EvOpen (path : string)
| EvDump (path : string)
| EvClose (path : string).

Fixpoint set_file (path : string) (content : list Byte.byte)
  (fs : list (string * list Byte.byte)) : list (string * list Byte.byte) :=
  match fs with
  | [] => [(path, content)]
  | (p, c) :: fs' =>
      if String.eqb p path then (p, content) :: fs'
      else (p, c) :: set_file path content fs'
  end.

Fixpoint close_handle (path : string) (hs : list string) : list string :=
  match hs with
  | [] => []
  | h :: hs' => if String.eqb h path then hs' else h :: close_handle path hs'
  end.

End Os.

(** ** The class [NetTopology] *)

Module Topology.
Import Py Nx Content Os.

(** Modelled from the spec: the modules [src.util.utils],
    [src.algorithm.cache], [src.util.gen_files], [src.util.coloring] and
    [src.util.sampling], which [topology.py] imports with
    [from ... import *] and which are not part of this development.  The
    class depends on them through this interface only.  Each function is
    a function of its arguments and of the random generators' state
    ("reseedable" request generation, ties "broken by lowest node
    identifier for determinism"); what it does to the objects it is
    handed is returned as their new value. *)
Class Collaborators : Type := {
  (** The cache classes of [src.algorithm.cache]: one constructor per
      policy, and the colour setter [warmUp] calls on a store. *)
  Store : Type;
  LRUCache : float -> Store;
  LFUCache : float -> Store;
  FIFOCache : float -> Store;
  ColorCache : value -> value -> float -> Store;
  setServerColor : Store -> value -> res Store;
  (** [float("...")] on a string; [None] is a [ValueError]. *)
  str_to_float : string -> option float;
  (** The state of the random generators, and the functions of
      [src.util] that draw from it. *)
  Rng : Type;
  randomGen :
    ContentGenerator -> value -> Rng -> res value * ContentGenerator * Rng;
  warmUpCacheShortestPath :
    Graph -> dict Store -> value -> value -> dict value -> list value -> Rng ->
    option exn * dict Store * Rng;
  (** [getColoringInfo] of [src.util.coloring] and its routing table. *)
  RouteInfo : Type;
  getColoringInfo : Graph -> value -> Rng -> res (RouteInfo * dict value) * Rng;
  (** [pickle.dump] of the two snapshots, and the trace file the content
      generator loads. *)
  pickle_cache : dict Store -> list Byte.byte;
  pickle_routes : RouteInfo -> list Byte.byte;
  load_trace : value -> res value
}.

Section Instance.
Context {ext : Collaborators}.

Record World : Type := mkWorld {
  files : list (string * list Byte.byte);
  handles : list string;
  rng : Rng;
  disk : list io_outcome;
  log : list event
}.

(** The attributes of an instance.  Those [__init__] does not create are
    absent ([None] here) until [build] or [warmUp] assigns them. *)
Record NetTopology : Type := mkTopo {
  networkInfo : value;
  configDirPath : string;
  graph : Graph;
  warmUpReqNums : value;
  parallel_idx : Z;
  colorList : value;
  serverToColorMap : dict value;
  mode : value;
  cacheMemoryDict : dict Store;
  fileSize : value;
  alpha : option float;
  clientIds : option (list value);
  routerIds : option (list value);
  tempClientIds : option (list value);
  contentGenerator : option ContentGenerator;
  colorRouteInfo : option RouteInfo
}.

Definition __init__ (config : value) (configDirPath : string) (mode : value)
  (warmUpReqNums fileSize colorList : value) : NetTopology :=
  mkTopo config configDirPath Nx.empty warmUpReqNums 0%Z colorList [] mode []
         fileSize None None None None None None.

Definition set_graph (g : Graph) (t : NetTopology) : NetTopology :=
  mkTopo (networkInfo t) (configDirPath t) g (warmUpReqNums t) (parallel_idx t)
         (colorList t) (serverToColorMap t) (mode t) (cacheMemoryDict t)
         (fileSize t) (alpha t) (clientIds t) (routerIds t) (tempClientIds t)
         (contentGenerator t) (colorRouteInfo t).

Definition set_parallel_idx (i : Z) (t : NetTopology) : NetTopology :=
  mkTopo (networkInfo t) (configDirPath t) (graph t) (warmUpReqNums t) i
         (colorList t) (serverToColorMap t) (mode t) (cacheMemoryDict t)
         (fileSize t) (alpha t) (clientIds t) (routerIds t) (tempClientIds t)
         (contentGenerator t) (colorRouteInfo t).

Definition set_serverToColorMap (m : dict value) (t : NetTopology) : NetTopology :=
  mkTopo (networkInfo t) (configDirPath t) (graph t) (warmUpReqNums t)
         (parallel_idx t) (colorList t) m (mode t) (cacheMemoryDict t)
         (fileSize t) (alpha t) (clientIds t) (routerIds t) (tempClientIds t)
         (contentGenerator t) (colorRouteInfo t).

Definition set_cacheMemoryDict (d : dict Store) (t : NetTopology) : NetTopology :=
  mkTopo (networkInfo t) (configDirPath t) (graph t) (warmUpReqNums t)
         (parallel_idx t) (colorList t) (serverToColorMap t) (mode t) d
         (fileSize t) (alpha t) (clientIds t) (routerIds t) (tempClientIds t)
         (contentGenerator t) (colorRouteInfo t).

Definition set_alpha (a : float) (t : NetTopology) : NetTopology :=
  mkTopo (networkInfo t) (configDirPath t) (graph t) (warmUpReqNums t)
         (parallel_idx t) (colorList t) (serverToColorMap t) (mode t)
         (cacheMemoryDict t) (fileSize t) (Some a) (clientIds t) (routerIds t)
         (tempClientIds t) (contentGenerator t) (colorRouteInfo t).

Definition set_clientIds (l : list value) (t : NetTopology) : NetTopology :=
  mkTopo (networkInfo t) (configDirPath t) (graph t) (warmUpReqNums t)
         (parallel_idx t) (colorList t) (serverToColorMap t) (mode t)
         (cacheMemoryDict t) (fileSize t) (alpha t) (Some l) (routerIds t)
         (tempClientIds t) (contentGenerator t) (colorRouteInfo t).

Definition set_routerIds (l : list value) (t : NetTopology) : NetTopology :=
  mkTopo (networkInfo t) (configDirPath t) (graph t) (warmUpReqNums t)
         (parallel_idx t) (colorList t) (serverToColorMap t) (mode t)
         (cacheMemoryDict t) (fileSize t) (alpha t) (clientIds t) (Some l)
         (tempClientIds t) (contentGenerator t) (colorRouteInfo t).

Definition set_tempClientIds (l : list value) (t : NetTopology) : NetTopology :=
  mkTopo (networkInfo t) (configDirPath t) (graph t) (warmUpReqNums t)
         (parallel_idx t) (colorList t) (serverToColorMap t) (mode t)
         (cacheMemoryDict t) (fileSize t) (alpha t) (clientIds t) (routerIds t)
         (Some l) (contentGenerator t) (colorRouteInfo t).

Definition set_contentGenerator (c : ContentGenerator) (t : NetTopology)
  : NetTopology :=
  mkTopo (networkInfo t) (configDirPath t) (graph t) (warmUpReqNums t)
         (parallel_idx t) (colorList t) (serverToColorMap t) (mode t)
         (cacheMemoryDict t) (fileSize t) (alpha t) (clientIds t) (routerIds t)
         (tempClientIds t) (Some c) (colorRouteInfo t).

Definition set_colorRouteInfo (r : RouteInfo) (t : NetTopology) : NetTopology :=
  mkTopo (networkInfo t) (configDirPath t) (graph t) (warmUpReqNums t)
         (parallel_idx t) (colorList t) (serverToColorMap t) (mode t)
         (cacheMemoryDict t) (fileSize t) (alpha t) (clientIds t) (routerIds t)
         (tempClientIds t) (contentGenerator t) (Some r).

Definition set_files (f : list (string * list Byte.byte)) (w : World) : World :=
  mkWorld f (handles w) (rng w) (disk w) (log w).
Definition set_handles (h : list string) (w : World) : World :=
  mkWorld (files w) h (rng w) (disk w) (log w).
Definition set_rng (r : Rng) (w : World) : World :=
  mkWorld (files w) (handles w) r (disk w) (log w).
Definition set_disk (d : list io_outcome) (w : World) : World :=
  mkWorld (files w) (handles w) (rng w) d (log w).
Definition set_log (l : list event) (w : World) : World :=
  mkWorld (files w) (handles w) (rng w) (disk w) l.

(** *** Methods as computations *)

(** A method runs on the instance and the world, changes both, and
    either returns or raises; what it changed before raising stays
    changed. *)
Definition M (A : Type) : Type :=
  NetTopology -> World -> res A * NetTopology * World.

Definition result {A} (o : res A * NetTopology * World) : res A := fst (fst o).
Definition self_after {A} (o : res A * NetTopology * World) : NetTopology :=
  snd (fst o).
Definition world_after {A} (o : res A * NetTopology * World) : World := snd o.

Definition ret {A} (a : A) : M A := fun t w => (ok a, t, w).

Definition throw {A} (e : exn) : M A := fun t w => (raise e, t, w).

Definition bind {A B} (m : M A) (k : A -> M B) : M B :=
  fun t w =>
    match m t w with
    | (inr a, t', w') => k a t' w'
    | (inl e, t', w') => (inl e, t', w')
    end.

Definition lift {A} (r : res A) : M A := fun t w => (r, t, w).

Definition gets {A} (f : NetTopology -> A) : M A := fun t w => (ok (f t), t, w).

Definition modify (f : NetTopology -> NetTopology) : M unit :=
  fun t w => (ok tt, f t, w).

Definition world_gets {A} (f : World -> A) : M A := fun t w => (ok (f w), t, w).

Definition world_modify (f : World -> World) : M unit :=
  fun t w => (ok tt, t, f w).

(** Reading an attribute that may not exist yet. *)
Definition attr {A} (f : NetTopology -> option A) (name : string) : M A :=
  fun t w =>
    match f t with
    | Some a => (ok a, t, w)
    | None => (raise (AttributeError name), t, w)
    end.

Definition emit (e : event) : M unit :=
  world_modify (fun w => set_log (log w ++ [e]) w).

(** [try: body finally: cleanup] *)
Definition finally {A} (body : M A) (cleanup : M unit) : M A :=
  fun t w =>
    match body t w with
    | (r, t', w') =>
        match cleanup t' w' with
        | (inr _, t'', w'') => (r, t'', w'')
        | (inl e, t'', w'') => (inl e, t'', w'')
        end
    end.

End Instance.

Notation "x <- m ;; k" := (bind m (fun x => k))
  (at level 61, m at next level, right associativity).
Notation "m ;;; k" := (bind m (fun _ => k))
  (at level 61, right associativity).

Section Loops.
Context {ext : Collaborators}.

(** A [for] loop that carries local variables from one round to the
    next. *)
Fixpoint foldM {A B} (f : B -> A -> M B) (b : B) (l : list A) : M B :=
  match l with
  | [] => ret b
  | x :: l' => b' <- f b x ;; foldM f b' l'
  end.

Definition forM {A} (f : A -> M unit) (l : list A) : M unit :=
  foldM (fun _ x => f x) tt l.

(** A computation keeps an attribute [f] when the instance has the same
    [f] afterwards, whether it returns or raises. *)
Definition keeps {X A} (f : NetTopology -> X) (m : M A) : Prop :=
  forall t w, f (self_after (m t w)) = f t.

(** The same for a part [f] of the world. *)
Definition leaves {X A} (f : World -> X) (m : M A) : Prop :=
  forall t w, f (world_after (m t w)) = f w.

End Loops.
Section Methods.
Context {ext : Collaborators}.

(** [float(v)].  An integer is rounded to the nearest double, and is
    an [OverflowError] when it is beyond the doubles. *)
Definition py_float (v : value) : res float :=
  match v with
  | VInt z =>
      match float_of_Z z with
      | S754_infinity _ => raise OverflowError
      | f => ok f
      end
  | VFloat x => ok (to_float x)
  | VBool b => ok (if b then float_one else S754_zero false)
  | VStr s =>
      match str_to_float s with
      | Some q => ok q
      | None => raise ValueError
      end
  | _ => raise TypeError
  end.

(** [str(i)] for an integer. *)
Definition str_of_int (i : Z) : string := NilEmpty.string_of_int (Z.to_int i).

(** [with open(path, "wb") as f: pickle.dump(obj, f)].  Opening creates
    or truncates the file at [path] itself; the object is evaluated and
    written after that; the handle is closed however the block is left. *)
Definition dump_to (path : string) (obj : M (list Byte.byte)) : M unit :=
  plan <- world_gets (fun w => hd IoOk (disk w)) ;;
  world_modify (fun w => set_disk (tl (disk w)) w) ;;;
  match plan with
  | IoOpenFails => throw OSError
  | _ =>
      world_modify (fun w => set_files (set_file path [] (files w)) w) ;;;
      world_modify (fun w => set_handles (path :: handles w) w) ;;;
      emit (EvOpen path) ;;;
      finally
        (bytes <- obj ;;
         emit (EvDump path) ;;;
         match plan with
         | IoWriteFails n =>
             world_modify
               (fun w => set_files (set_file path (firstn n bytes) (files w)) w) ;;;
             throw OSError
         | _ =>
             world_modify (fun w => set_files (set_file path bytes (files w)) w)
         end)
        (world_modify (fun w => set_handles (close_handle path (handles w)) w) ;;;
         emit (EvClose path))
  end.

Definition cacheDict_path (dir : string) (idx : Z) : string :=
  path_join dir ("cacheDict" ++ str_of_int idx ++ ".pkl").

Definition nearestColor_path (dir : string) : string :=
  path_join dir "nearestColorServerInfo.pkl".

Definition saveCacheDict : M unit :=
  dir <- gets configDirPath ;;
  idx <- gets parallel_idx ;;
  dump_to (cacheDict_path dir idx)
          (d <- gets cacheMemoryDict ;; ret (pickle_cache d)).

Definition saveNearestColorServerInfo : M unit :=
  dir <- gets configDirPath ;;
  dump_to (nearestColor_path dir)
          (r <- attr colorRouteInfo "colorRouteInfo" ;; ret (pickle_routes r)).

(** [self.cacheMemoryDict[routerId] = store] *)
Definition set_cache (routerId : value) (store : Store) : M unit :=
  if hashable routerId
  then modify (fun t => set_cacheMemoryDict
                          (dict_set routerId store (cacheMemoryDict t)) t)
  else throw TypeError.

(** The [if routerInfo["type"] == ...] chain, which [reconfig] and
    [build] both contain.  A type that is none of the four names falls
    through: no store is created. *)
Definition alloc_store (routerInfo routerId : value) (maxSize : float)
  : M unit :=
  ty <- lift (getitem routerInfo "type") ;;
  if eq_str ty "LRU" then set_cache routerId (LRUCache maxSize)
  else if eq_str ty "LFU" then set_cache routerId (LFUCache maxSize)
  else if eq_str ty "FIFO" then set_cache routerId (FIFOCache maxSize)
  else if eq_str ty "Hybrid" then
    ratio <- lift (getitem routerInfo "capacityRatio") ;;
    set_cache routerId (ColorCache VNone ratio maxSize)
  else ret tt.

(** One round of [for server in self.serverToColorMap]. *)
Definition assign_color (colors : dict value) (server : value) : M unit :=
  colorId <- match dict_get server colors with
             | Some c => ret c
             | None => throw (KeyError server)
             end ;;
  caches <- gets cacheMemoryDict ;;
  match dict_get server caches with
  | None => throw (KeyError server)
  | Some store =>
      emit (EvSetServerColor server colorId) ;;;
      store' <- lift (setServerColor store colorId) ;;
      modify (fun t => set_cacheMemoryDict
                         (dict_set server store' (cacheMemoryDict t)) t)
  end.

Definition assignColorForCacheMemory : M unit :=
  colors <- gets serverToColorMap ;;
  forM (assign_color colors) (dict_keys colors).

(** [self.colorRouteInfo, self.serverToColorMap =
     getColoringInfo(self.graph, self.colorList)] *)
Definition run_coloring : M unit :=
  g <- gets graph ;;
  cl <- gets colorList ;;
  emit EvColoring ;;;
  r <- world_gets rng ;;
  match getColoringInfo g cl r with
  | (out, r') =>
      world_modify (set_rng r') ;;;
      p <- lift out ;;
      modify (set_colorRouteInfo (fst p)) ;;;
      modify (set_serverToColorMap (snd p))
  end.

(** One round of [for client in self.clientIds] in mode "no-color". *)
Definition warm_request (warmUpReqDict : dict value) (client : value)
  : M (dict value) :=
  gen <- attr contentGenerator "contentGenerator" ;;
  batch <-
    match dist gen with
    | Some _ =>
        n <- gets warmUpReqNums ;;
        emit (EvRandomGen client n) ;;;
        r <- world_gets rng ;;
        match randomGen gen n r with
        | (out, gen', r') =>
            world_modify (set_rng r') ;;;
            modify (set_contentGenerator gen') ;;;
            lift out
        end
    | None =>
        cache <- lift (replace client "client" "Cache") ;;
        trace <- lift (match cache with
                       | VStr c => getitem (custom_data gen) c
                       | _ => raise TypeError
                       end) ;;
        lift (getitem trace "Interval0")
    end ;;
  if hashable client then ret (dict_set client batch warmUpReqDict)
  else throw TypeError.

(** The call [warmUpCacheShortestPath(self.graph, self.cacheMemoryDict,
    self.fileSize, self.mode, routingTable, warmUpReqDict,
    warmUpReqDict.keys())].  [routingTable] is a fresh empty dictionary
    that [warmUp] never reads again; it has no counterpart here.  The
    stores are shared with the callee: what it did to them is their new
    value. *)
Definition route_warm_up (warmUpReqDict : dict value) : M unit :=
  g <- gets graph ;;
  caches <- gets cacheMemoryDict ;;
  fs <- gets fileSize ;;
  m <- gets mode ;;
  emit (EvRoute (dict_keys warmUpReqDict)) ;;;
  r <- world_gets rng ;;
  match warmUpCacheShortestPath g caches fs m warmUpReqDict
                                (dict_keys warmUpReqDict) r with
  | (err, caches', r') =>
      world_modify (set_rng r') ;;;
      modify (set_cacheMemoryDict caches') ;;;
      match err with
      | Some e => throw e
      | None => ret tt
      end
  end.

Definition warmUp : M unit :=
  m <- gets mode ;;
  if eq_str m "no-cache" then ret tt
  else if eq_str m "no-color" then
    clients <- attr clientIds "clientIds" ;;
    warmUpReqDict <- foldM warm_request [] clients ;;
    route_warm_up warmUpReqDict ;;;
    saveCacheDict
  else if eq_str m "tag-color" then
    run_coloring ;;;
    assignColorForCacheMemory
  else
    run_coloring ;;;
    assignColorForCacheMemory ;;;
    saveNearestColorServerInfo.

(** One round of [for routerInfo in self.networkInfo["Routers"]] in
    [reconfig]; [idx] is the loop's counter. *)
Definition reconfig_router (cacheSizeList : list value) (idx : nat)
  (routerInfo : value) : M nat :=
  typed <- lift (contains "type" routerInfo) ;;
  if typed then
    routerId <- lift (getitem routerInfo "ID") ;;
    newSize <- lift (match nth_error cacheSizeList idx with
                     | Some x => ok x
                     | None => raise IndexError
                     end) ;;
    size <- lift (py_float newSize) ;;
    a <- attr alpha "alpha" ;;
    alloc_store routerInfo routerId (fmul size a) ;;;
    ret (S idx)
  else ret idx.

(** The loop of [reconfig]. *)
Definition reconfig_stores (cacheSizeList : list value) : M unit :=
  cfg <- gets networkInfo ;;
  routers <- lift (getitem cfg "Routers") ;;
  routers <- lift (iter routers) ;;
  foldM (reconfig_router cacheSizeList) 0%nat routers ;;;
  ret tt.

Definition reconfig_alloc (cacheSizeList : list value) (parallel_idx : Z)
  : M unit :=
  modify (set_cacheMemoryDict []) ;;;
  modify (set_parallel_idx parallel_idx) ;;;
  reconfig_stores cacheSizeList.

Definition reconfig (cacheSizeList : list value) (parallel_idx : Z) : M unit :=
  reconfig_alloc cacheSizeList parallel_idx ;;;
  warmUp.

(** *** [build] *)

(** The [samplingMethod] block: the entry is read with a subscript and
    compared with [None]. *)
Definition select_sampler (cfg : value) : res (option Sampler) :=
  match getitem cfg "samplingMethod" with
  | inl e => raise e
  | inr sm =>
      if is_not_none sm then
        match getitem sm "method" with
        | inl e => raise e
        | inr sampleMethod =>
            if eq_str sampleMethod "reservoir" then
              match getitem sm "sampleRate" with
              | inl e => raise e
              | inr rate => ok (Some (ReservoirSampling rate))
              end
            else ok None
        end
      else ok None
  end.

(** [v == -1] *)
Definition is_minus_one (v : value) : bool :=
  match as_number v with
  | Some x => number_eqb x (Rational (-1))
  | None => false
  end.

Definition getitem2 (v : value) (k1 k2 : string) : res value :=
  match getitem v k1 with
  | inl e => raise e
  | inr x => getitem x k2
  end.

(** The request model: a parametric distribution, or trace data. *)
Definition build_content (cfg : value) (sampleGen : option Sampler) : M unit :=
  fixedFileSize <- lift (getitem cfg "FileSize") ;;
  models <- lift (getitem cfg "RequestModels") ;;
  custom <- lift (contains "custom" models) ;;
  if negb custom then
    gamma <- lift (contains "gamma" models) ;;
    d <- (if gamma then
            k <- lift (getitem2 models "gamma" "K") ;;
            theta <- lift (getitem2 models "gamma" "Theta") ;;
            len <- lift (getitem2 models "gamma" "contentNums") ;;
            ret (Some (GammaDistribution k theta len sampleGen))
          else
            zipf <- lift (contains "zipf" models) ;;
            if zipf then
              skew <- lift (getitem2 models "zipf" "Skewness") ;;
              len <- lift (getitem2 models "zipf" "contentNums") ;;
              ret (Some (ZipfDistribution skew len sampleGen))
            else ret None) ;;
    match d with
    | None => throw (UnboundLocalError "dist")
    | Some d =>
        modify (set_contentGenerator
                  (mkGen (Some d) fixedFileSize None None None VNone)) ;;;
        modify (set_alpha float_one)
    end
  else
    a <- (if is_minus_one fixedFileSize then
            x <- lift (getitem2 models "custom" "alpha") ;;
            lift (py_float x)
          else ret float_one) ;;
    modify (set_alpha a) ;;;
    path <- lift (getitem2 models "custom" "path") ;;
    a' <- attr alpha "alpha" ;;
    data <- lift (load_trace path) ;;
    modify (set_contentGenerator
              (mkGen None fixedFileSize (Some path) sampleGen (Some a') data)).

(** [self.graph.add_node(n, ...)] *)
Definition graph_add_node (n : value) (upd : NodeData -> NodeData) : M unit :=
  g <- gets graph ;;
  g' <- lift (add_node n upd g) ;;
  modify (set_graph g').

(** [self.graph.add_edge(u, v, ...)]: both ends become nodes, then the
    edge is set. *)
Definition graph_add_edge (u v : value) (d : EdgeData) : M unit :=
  g <- gets graph ;;
  g1 <- lift (touch_node u g) ;;
  modify (set_graph g1) ;;;
  g2 <- lift (touch_node v g1) ;;
  modify (set_graph g2) ;;;
  modify (set_graph (link u v d g2)).

Definition build_router (routerInfo : value) : M unit :=
  routerId <- lift (getitem routerInfo "ID") ;;
  ids <- attr routerIds "routerIds" ;;
  modify (set_routerIds (ids ++ [routerId])) ;;;
  addr <- lift (getitem routerInfo "IP") ;;
  graph_add_node routerId (fun d => mkNode (Some addr) (gw d)) ;;;
  typed <- lift (contains "type" routerInfo) ;;
  if typed then
    size <- lift (getitem routerInfo "maxSize") ;;
    size <- lift (py_float size) ;;
    a <- attr alpha "alpha" ;;
    alloc_store routerInfo routerId (fmul size a)
  else ret tt.

(** [l.remove(x)]: the first element equal to [x] goes; [None] when
    there is none. *)
Fixpoint list_remove (x : string) (l : list value) : option (list value) :=
  match l with
  | [] => None
  | y :: l' =>
      if eq_str y x then Some l'
      else match list_remove x l' with
           | Some r => Some (y :: r)
           | None => None
           end
  end.

Definition remove_mainServer : M unit :=
  ids <- attr routerIds "routerIds" ;;
  match list_remove "mainServer" ids with
  | Some ids' => modify (set_routerIds ids')
  | None => throw ValueError
  end.

Definition build_client (clientInfo : value) : M unit :=
  clientId <- lift (getitem clientInfo "ID") ;;
  ids <- attr clientIds "clientIds" ;;
  modify (set_clientIds (ids ++ [clientId])) ;;;
  addr <- lift (getitem clientInfo "IP") ;;
  gateway <- lift (getitem clientInfo "gateway") ;;
  graph_add_node clientId (fun _ => mkNode (Some addr) (Some gateway)) ;;;
  temp <- lift (getitem clientInfo "isTemp") ;;
  if truthy temp then
    tmp <- attr tempClientIds "tempClientIds" ;;
    modify (set_tempClientIds (tmp ++ [clientId]))
  else ret tt.

(** The peer address of a link that has no [params2].  When no pattern
    matches, the source prints "error ip: " and the address and assigns
    nothing: [ip_2] keeps what an earlier round gave it, if any.  The
    logged line leaves the address out. *)
Definition peer_ip (ip_1 : value) (ip_2 : option value) : M (option value) :=
  c1 <- lift (contains ".1/" ip_1) ;;
  if c1 then x <- lift (replace ip_1 ".1/" ".2/") ;; ret (Some x) else
  c2 <- lift (contains ".2/" ip_1) ;;
  if c2 then x <- lift (replace ip_1 ".2/" ".1/") ;; ret (Some x) else
  c3 <- lift (contains ".66/" ip_1) ;;
  if c3 then x <- lift (replace ip_1 ".66/" ".65/") ;; ret (Some x) else
  c4 <- lift (contains ".65/" ip_1) ;;
  if c4 then x <- lift (replace ip_1 ".65/" ".66/") ;; ret (Some x) else
  emit (EvPrint "error ip") ;;;
  ret ip_2.

(** One round of [for idx, linkInfo in enumerate(...)].  The local
    variable [ip_2] lives on from one round to the next; it is unbound
    until a round assigns it. *)
Definition build_link (ip_2 : option value) (linkInfo : value)
  : M (option value) :=
  nodeIds <- lift (getitem linkInfo "NodeIds") ;;
  n0 <- lift (index nodeIds 0) ;;
  p1 <- lift (split_pair n0) ;;
  params1Info <- lift (getitem linkInfo "params1") ;;
  two <- lift (contains "params2" linkInfo) ;;
  if two then
    n1 <- lift (index nodeIds 1) ;;
    p2 <- lift (split_pair n1) ;;
    params2Info <- lift (getitem linkInfo "params2") ;;
    a1 <- lift (getitem params1Info "ip") ;;
    a2 <- lift (getitem params2Info "ip") ;;
    bw <- lift (getitem params1Info "bw") ;;
    w <- lift (one_over bw) ;;
    graph_add_edge (VStr (fst p1)) (VStr (fst p2))
                   (mkEdge (snd p1) (snd p2) (fst p1) a1 a2 w) ;;;
    ret ip_2
  else
    nodeId_2 <- lift (index nodeIds 1) ;;
    a1 <- lift (getitem params1Info "ip") ;;
    ip_2 <- peer_ip a1 ip_2 ;;
    a1 <- lift (getitem params1Info "ip") ;;
    match ip_2 with
    | None => throw (UnboundLocalError "ip_2")
    | Some a2 =>
        bw <- lift (getitem params1Info "bw") ;;
        w <- lift (one_over bw) ;;
        graph_add_edge (VStr (fst p1)) nodeId_2
                       (mkEdge (snd p1) "0" (fst p1) a1 a2 w) ;;;
        ret ip_2
    end.

(** The three loops over routers, clients and links. *)
Definition build_routers (cfg : value) : M unit :=
  routers <- lift (getitem cfg "Routers") ;;
  routers <- lift (iter routers) ;;
  forM build_router routers ;;;
  remove_mainServer.

Definition build_clients (cfg : value) : M unit :=
  clients <- lift (getitem cfg "Clients") ;;
  clients <- lift (iter clients) ;;
  forM build_client clients.

Definition build_links (cfg : value) : M unit :=
  links <- lift (getitem cfg "Links") ;;
  links <- lift (iter links) ;;
  foldM build_link None links ;;;
  ret tt.

Definition build_graph (cfg : value) : M unit :=
  build_routers cfg ;;;
  build_clients cfg ;;;
  build_links cfg.

Definition build_reset : M unit :=
  modify (set_cacheMemoryDict []) ;;;
  modify (set_clientIds []) ;;;
  modify (set_routerIds []) ;;;
  modify (set_tempClientIds [VStr "mainClone"]) ;;;
  emit (EvPrint "*** Processing content list").

Definition build : M unit :=
  build_reset ;;;
  cfg <- gets networkInfo ;;
  sampleGen <- lift (select_sampler cfg) ;;
  build_content cfg sampleGen ;;;
  build_graph cfg ;;;
  warmUp.

(** *** The specification's reading of [reconfig], to compare with *)

(** The store a router entry asks for: its policy by the "type" name. *)
Definition store_for (routerInfo : value) (maxSize : float) : option Store :=
  match getitem routerInfo "type" with
  | inr ty =>
      if eq_str ty "LRU" then Some (LRUCache maxSize)
      else if eq_str ty "LFU" then Some (LFUCache maxSize)
      else if eq_str ty "FIFO" then Some (FIFOCache maxSize)
      else if eq_str ty "Hybrid" then
        match getitem routerInfo "capacityRatio" with
        | inr ratio => Some (ColorCache VNone ratio maxSize)
        | inl _ => None
        end
      else None
  | inl _ => None
  end.

(** "One Cache Store per cache-capable router, in router-declaration
    order": every router with a "type" entry takes the next capacity of
    the list.  Undefined when a router cannot be served: no capacity left
    for it, a capacity that [float] rejects, no ID, or a type that names no
    policy. *)
Fixpoint fresh_stores (a : float) (routers sizes : list value)
  : option (list (value * Store)) :=
  match routers with
  | [] => Some []
  | r :: rs =>
      match contains "type" r with
      | inr true =>
          match getitem r "ID", sizes with
          | inr id, size :: sizes' =>
              match py_float size with
              | inr f =>
                  match store_for r (fmul f a), fresh_stores a rs sizes' with
                  | Some st, Some rest =>
                      if hashable id then Some ((id, st) :: rest) else None
                  | _, _ => None
                  end
              | inl _ => None
              end
          | _, _ => None
          end
      | inr false => fresh_stores a rs sizes
      | inl _ => None
      end
  end.

(** The mapping that assigning the pairs one after the other builds. *)
Definition assign_all (d : dict Store) (l : list (value * Store)) : dict Store :=
  fold_left (fun d kv => dict_set (fst kv) (snd kv) d) l d.

(** The IDs of the routers, in declaration order; undefined when a
    router has none. *)
Fixpoint router_ids (routers : list value) : option (list value) :=
  match routers with
  | [] => Some []
  | r :: rs =>
      match getitem r "ID", router_ids rs with
      | inr id, Some ids => Some (id :: ids)
      | _, _ => None
      end
  end.

(** How often the name [x] occurs in a list. *)
Definition count_str (x : string) (l : list value) : nat :=
  length (filter (fun y => eq_str y x) l).

(** The two nodes a link entry joins: the node names before the "/" of
    its [NodeIds]; without [params2] the second one is taken whole. *)
Definition link_ends (linkInfo : value) : res (value * value) :=
  match getitem linkInfo "NodeIds" with
  | inl e => raise e
  | inr nodeIds =>
      match index nodeIds 0 with
      | inl e => raise e
      | inr n0 =>
          match split_pair n0 with
          | inl e => raise e
          | inr p1 =>
              match contains "params2" linkInfo, index nodeIds 1 with
              | inr true, inr n1 =>
                  match split_pair n1 with
                  | inl e => raise e
                  | inr p2 => ok (VStr (fst p1), VStr (fst p2))
                  end
              | inr false, inr n1 => ok (VStr (fst p1), n1)
              | inl e, _ => raise e
              | _, inl e => raise e
              end
          end
      end
  end.


(** The calls of [setServerColor] a colour map asks for, in its order. *)
Definition colour_calls (colors : dict value) : list event :=
  map (fun server =>
         EvSetServerColor server
           (match dict_get server colors with Some c => c | None => VNone end))
      (dict_keys colors).


(** *** Two runs side by side *)

(** Two instances were built from the same configuration: they agree on
    everything [__init__] and [build] derive from it (and on the content
    generator), whatever earlier runs left in the stores, the run index
    and the colour tables. *)
Definition same_inputs (t1 t2 : NetTopology) : Prop :=
  networkInfo t1 = networkInfo t2 /\
  configDirPath t1 = configDirPath t2 /\
  graph t1 = graph t2 /\
  warmUpReqNums t1 = warmUpReqNums t2 /\
  colorList t1 = colorList t2 /\
  mode t1 = mode t2 /\
  fileSize t1 = fileSize t2 /\
  alpha t1 = alpha t2 /\
  clientIds t1 = clientIds t2 /\
  contentGenerator t1 = contentGenerator t2.

(** They also hold the same stores under the same run index. *)
Definition same_caches (t1 t2 : NetTopology) : Prop :=
  same_inputs t1 t2 /\
  cacheMemoryDict t1 = cacheMemoryDict t2 /\
  parallel_idx t1 = parallel_idx t2.

(** And the same colour map and routing table. *)
Definition same_colours (t1 t2 : NetTopology) : Prop :=
  same_caches t1 t2 /\
  serverToColorMap t1 = serverToColorMap t2 /\
  colorRouteInfo t1 = colorRouteInfo t2.

(** Two worlds give the same random draws and the same answers to file
    writes; their files, handles and logs may differ. *)
Definition same_seed (w1 w2 : World) : Prop :=
  rng w1 = rng w2 /\ disk w1 = disk w2.

(** From instances related by [P] and worlds with the same seed, the
    two runs of [m] end the same way, with the same seed, and with
    instances related by [Q] when they return (and still holding the same
    stores when they raise). *)
Definition related {A} (P Q : NetTopology -> NetTopology -> Prop) (m : M A)
  : Prop :=
  forall t1 w1 t2 w2,
    P t1 t2 -> same_seed w1 w2 ->
    result (m t1 w1) = result (m t2 w2) /\
    same_seed (world_after (m t1 w1)) (world_after (m t2 w2)) /\
    match result (m t1 w1) with
    | inr _ => Q (self_after (m t1 w1)) (self_after (m t2 w2))
    | inl _ => same_caches (self_after (m t1 w1)) (self_after (m t2 w2))
    end.

(** *** Readings of [build], to compare with *)

(** The IDs of the client entries, in declaration order. *)
Fixpoint client_ids (clients : list value) : option (list value) :=
  match clients with
  | [] => Some []
  | c :: cs =>
      match getitem c "ID", client_ids cs with
      | inr id, Some ids => Some (id :: ids)
      | _, _ => None
      end
  end.

(** The IDs of the client entries whose [isTemp] is true. *)
Fixpoint temp_client_ids (clients : list value) : option (list value) :=
  match clients with
  | [] => Some []
  | c :: cs =>
      match getitem c "ID", getitem c "isTemp", temp_client_ids cs with
      | inr id, inr temp, Some ids =>
          Some (if truthy temp then id :: ids else ids)
      | _, _, _ => None
      end
  end.

(** The stores [build] makes: every router with a "type" entry gets a
    store of its policy, of capacity [float(maxSize) * alpha].  Undefined
    when a router has no ID, a [maxSize] that [float] rejects, or a type
    that names no policy. *)
Fixpoint built_stores (a : float) (routers : list value)
  : option (list (value * Store)) :=
  match routers with
  | [] => Some []
  | r :: rs =>
      match contains "type" r with
      | inr true =>
          match getitem r "ID", getitem r "maxSize" with
          | inr id, inr size =>
              match py_float size with
              | inr f =>
                  match store_for r (fmul f a), built_stores a rs with
                  | Some st, Some rest =>
                      if hashable id then Some ((id, st) :: rest) else None
                  | _, _ => None
                  end
              | inl _ => None
              end
          | _, _ => None
          end
      | inr false => built_stores a rs
      | inl _ => None
      end
  end.

(** The [maxSize] entries of the routers that have a "type" entry, in
    declaration order: the capacity list that repeats the
    configuration. *)
Fixpoint configured_sizes (routers : list value) : list value :=
  match routers with
  | [] => []
  | r :: rs =>
      match contains "type" r, getitem r "maxSize" with
      | inr true, inr size => size :: configured_sizes rs
      | _, _ => configured_sizes rs
      end
  end.

(** The routers that have a "type" entry. *)
Definition typed (r : value) : bool :=
  match contains "type" r with
  | inr true => true
  | _ => false
  end.

(** No key occurs twice, as dictionary lookup compares keys. *)
Fixpoint distinct_keys (l : list value) : bool :=
  match l with
  | [] => true
  | k :: l' => negb (existsb (key_eqb k) l') && distinct_keys l'
  end.

End Methods.
End Topology.

(** ** A small concrete instance of the collaborators

    Used to run the methods on explicit configurations. *)

Module Sample.
Import Py Nx Content Os Topology.

Record store : Type := mkStore {
  policy : string;
  capacity : float;
  ratio : option value;
  colour : option value
}.

(** Only the colour-partitioned store has a colour setter. *)
Definition set_colour (s : store) (c : value) : res store :=
  if String.eqb (policy s) "Hybrid"
  then ok (mkStore (policy s) (capacity s) (ratio s) (Some c))
  else raise (AttributeError "setServerColor").

(** Colours every node named in the colour list with colour 0. *)
Definition colour_listed (g : Graph) (colorList : value) (r : nat)
  : res (unit * dict value) * nat :=
  match colorList with
  | VList l => (ok (tt, map (fun n => (n, VInt 0)) l), r)
  | _ => (ok (tt, []), r)
  end.

#[export] Instance collaborators : Collaborators := {|
  Store := store;
  LRUCache := fun m => mkStore "LRU" m None None;
  LFUCache := fun m => mkStore "LFU" m None None;
  FIFOCache := fun m => mkStore "FIFO" m None None;
  ColorCache := fun c r m => mkStore "Hybrid" m (Some r) None;
  setServerColor := set_colour;
  str_to_float := fun _ => None;
  Rng := nat;
  randomGen := fun g n r => (ok (VList [VInt (Z.of_nat r)]), g, S r);
  warmUpCacheShortestPath := fun g caches fs m reqs keys r => (None, caches, r);
  RouteInfo := unit;
  getColoringInfo := colour_listed;
  pickle_cache := fun d => Byte.x80 :: repeat Byte.x2e (List.length d);
  pickle_routes := fun _ => [Byte.x80; Byte.x4e; Byte.x2e];
  load_trace := fun _ => ok (VDict [])
|}.

(** [0.5] *)
Definition one_half : float_value := Finite false 4503599627370496 (-53).

Definition router (id : string) (extra : list (string * value)) : value :=
  VDict (("ID", VStr id) :: ("IP", VStr "10.0.0.1/24") :: extra).

Definition lru (size : Z) : list (string * value) :=
  [("type", VStr "LRU"); ("maxSize", VInt size)].

Definition hybrid (size : Z) : list (string * value) :=
  [("type", VStr "Hybrid"); ("maxSize", VInt size);
   ("capacityRatio", VFloat one_half)].

Definition client (id : string) : value :=
  VDict [("ID", VStr id); ("IP", VStr "10.0.1.1/24");
         ("gateway", VStr "10.0.1.254"); ("isTemp", VBool false)].

Definition link (a b : string) (bw : Z) : value :=
  VDict [("NodeIds", VList [VStr a; VStr b]);
         ("params1", VDict [("ip", VStr "10.0.2.1/30");
                            ("bw", VInt bw)]);
         ("params2", VDict [("ip", VStr "10.0.2.2/30")])].

(** A link entry without [params2]: the peer address is derived from
    [ip]. *)
Definition link_one (a b ip : string) (bw : Z) : value :=
  VDict [("NodeIds", VList [VStr a; VStr b]);
         ("params1", VDict [("ip", VStr ip); ("bw", VInt bw)])].

Definition zipf : value :=
  VDict [("zipf", VDict [("Skewness", VInt 1); ("contentNums", VInt 100)])].

Definition config (head : list (string * value)) (routers clients links : list value)
  : value :=
  VDict (head ++
         [("FileSize", VInt 1); ("RequestModels", zipf);
          ("Routers", VList routers); ("Clients", VList clients);
          ("Links", VList links)]).

Definition no_sampling : list (string * value) := [("samplingMethod", VNone)].

Definition world (fs : list (string * list Byte.byte)) (d : list io_outcome)
  : World :=
  mkWorld fs [] 0%nat d [].

Definition world0 : World := world [] [].

(** One caching router in front of the origin, one client. *)
Definition routers1 : list value :=
  [router "mainServer" []; router "r1" (lru 2)].

Definition links1 : list value :=
  [link "client1/eth0" "r1/eth0" 10; link "r1/eth1" "mainServer/eth0" 100].

Definition net (head : list (string * value)) : value :=
  config head routers1 [client "client1"] links1.

Definition net1 : value := net no_sampling.

(** The same network with a second router entry named "mainServer". *)
Definition net_two_origins : value :=
  config no_sampling (routers1 ++ [router "mainServer" []])
         [client "client1"] links1.


(** The same network with a colour-partitioned store on r1. *)
Definition net_hybrid : value :=
  config no_sampling [router "mainServer" []; router "r1" (hybrid 2)]
         [client "client1"] links1.

(** An instance whose colour list names the nodes to colour. *)
Definition topo_colored (cfg : value) (mode : string) (nodes : list string)
  : NetTopology :=
  __init__ cfg "/tmp/run" (VStr mode) (VInt 3) (VInt 1)
           (VList (map VStr nodes)).

Definition topo (cfg : value) (mode : string) : NetTopology :=
  __init__ cfg "/tmp/run" (VStr mode) (VInt 3) (VInt 1) VNone.

(** [0.1] and [3.0] *)
Definition one_tenth : float_value := Finite false 7205759403792794 (-56).
Definition three : float_value := Finite false 6755399441055744 (-51).

Definition routers_tenth : list value :=
  [router "mainServer" [];
   router "r1" [("type", VStr "LRU"); ("maxSize", VFloat one_tenth)]].

(** The sample network with trace data, file sizes taken from the trace
    ([FileSize] -1) and scaled by 3.0, and a capacity of 0.1 on r1. *)
Definition net_custom : value :=
  VDict (no_sampling ++
         [("FileSize", VInt (-1));
          ("RequestModels",
           VDict [("custom", VDict [("alpha", VFloat three);
                                    ("path", VStr "trace.json")])]);
          ("Routers", VList routers_tenth);
          ("Clients", VList [client "client1"]);
          ("Links", VList links1)]).



(** The sample network with an empty [RequestModels] entry. *)
Definition net_no_model : value :=
  VDict (no_sampling ++
         [("FileSize", VInt 1); ("RequestModels", VDict []);
          ("Routers", VList routers1); ("Clients", VList [client "client1"]);
          ("Links", VList links1)]).

(** The same collaborators with a colouring that fails, after drawing
    from the random generator. *)
Definition colour_fails (g : Graph) (colorList : value) (r : nat)
  : res (unit * dict value) * nat :=
  (raise (External "coloring"), S r).

Definition uncolourable : Collaborators := {|
  Store := store;
  LRUCache := fun m => mkStore "LRU" m None None;
  LFUCache := fun m => mkStore "LFU" m None None;
  FIFOCache := fun m => mkStore "FIFO" m None None;
  ColorCache := fun c r m => mkStore "Hybrid" m (Some r) None;
  setServerColor := set_colour;
  str_to_float := fun _ => None;
  Rng := nat;
  randomGen := fun g n r => (ok (VList [VInt (Z.of_nat r)]), g, S r);
  warmUpCacheShortestPath := fun g caches fs m reqs keys r => (None, caches, r);
  RouteInfo := unit;
  getColoringInfo := colour_fails;
  pickle_cache := fun d => Byte.x80 :: repeat Byte.x2e (List.length d);
  pickle_routes := fun _ => [Byte.x80; Byte.x4e; Byte.x2e];
  load_trace := fun _ => ok (VDict [])
|}.

Definition topo_uncolourable (cfg : value) (mode : string)
  : @NetTopology uncolourable :=
  @__init__ uncolourable cfg "/tmp/run" (VStr mode) (VInt 3) (VInt 1) VNone.

Definition world_uncolourable : @World uncolourable :=
  @mkWorld uncolourable [] [] 0%nat [] [].

(** An instance with a store on r1 only, and a colour map that also
    names the origin. *)
Definition topo_half_coloured : NetTopology :=
  set_serverToColorMap
    [(VStr "r1", VInt 0); (VStr "mainServer", VInt 1); (VStr "r2", VInt 0)]
    (set_cacheMemoryDict
       [(VStr "r1", ColorCache VNone (VFloat one_half) (float_of_Z 2))]
       (topo_colored net_hybrid "color" ["r1"; "mainServer"; "r2"])).

End Sample.

(** * Properties of [NetTopology] *)

Import Py Nx Content Os Topology.

Section Properties.
Context {ext : Collaborators}.

(** Unfolds the plumbing of [M] and computes through it. *)
Ltac mrun :=
  unfold emit in *;
  unfold bind, ret, throw, lift, gets, modify, world_gets, world_modify,
    attr, finally, ok, raise in *;
  cbv beta iota in *.

(** ** Files and handles *)

Lemma assoc_set_file_same (p : string) (c : list Byte.byte) fs :
  assoc p (set_file p c fs) = Some c.
Proof.
  induction fs as [|[q d] fs IH]; simpl.
  - now rewrite String.eqb_refl.
  - destruct (String.eqb q p) eqn:E; simpl; rewrite E; auto.
Qed.

Lemma assoc_set_file_other (p q : string) (c : list Byte.byte) fs :
  q <> p -> assoc q (set_file p c fs) = assoc q fs.
Proof.
  intros Hne. induction fs as [|[k d] fs IH]; simpl.
  - destruct (String.eqb p q) eqn:E; auto.
    apply String.eqb_eq in E. congruence.
  - destruct (String.eqb k p) eqn:E; simpl.
    + apply String.eqb_eq in E. subst k.
      destruct (String.eqb p q) eqn:E'; auto.
      apply String.eqb_eq in E'. congruence.
    + destruct (String.eqb k q); auto.
Qed.

(** ** Frame rules: which attributes a computation leaves alone *)

Section Keeps.
Context {X : Type} (f : NetTopology -> X).

Lemma keeps_ret {A} (a : A) : keeps f (ret a).
Proof. intros t w. reflexivity. Qed.

Lemma keeps_throw {A} e : keeps f (@throw _ A e).
Proof. intros t w. reflexivity. Qed.

Lemma keeps_lift {A} (r : res A) : keeps f (lift r).
Proof. intros t w. reflexivity. Qed.

Lemma keeps_gets {A} (g : NetTopology -> A) : keeps f (gets g).
Proof. intros t w. reflexivity. Qed.

Lemma keeps_world_gets {A} (g : World -> A) : keeps f (world_gets g).
Proof. intros t w. reflexivity. Qed.

Lemma keeps_world_modify g : keeps f (world_modify g).
Proof. intros t w. reflexivity. Qed.

Lemma keeps_emit e : keeps f (emit e).
Proof. intros t w. reflexivity. Qed.

Lemma keeps_attr {A} (g : NetTopology -> option A) name : keeps f (attr g name).
Proof. intros t w. unfold attr. destruct (g t); reflexivity. Qed.

Lemma keeps_modify g : (forall t, f (g t) = f t) -> keeps f (modify g).
Proof. intros H t w. apply H. Qed.

Lemma keeps_bind {A B} (m : M A) (k : A -> M B) :
  keeps f m -> (forall a, keeps f (k a)) -> keeps f (bind m k).
Proof.
  intros Hm Hk t w. unfold bind. specialize (Hm t w).
  destruct (m t w) as [[[e|a] t1] w1]; simpl in *; [exact Hm|].
  rewrite Hk. exact Hm.
Qed.

Lemma keeps_finally {A} (m : M A) (c : M unit) :
  keeps f m -> keeps f c -> keeps f (finally m c).
Proof.
  intros Hm Hc t w. unfold finally. specialize (Hm t w).
  destruct (m t w) as [[r t1] w1]; simpl in *.
  specialize (Hc t1 w1).
  destruct (c t1 w1) as [[[e|u] t2] w2]; unfold self_after in *; simpl in *;
    congruence.
Qed.

Lemma keeps_foldM {A B} (step : B -> A -> M B) l :
  (forall b a, keeps f (step b a)) -> forall b, keeps f (foldM step b l).
Proof.
  intros Hs. induction l as [|a l IH]; intros b; simpl.
  - apply keeps_ret.
  - apply keeps_bind; [apply Hs | intros; apply IH].
Qed.

Lemma keeps_forM {A} (step : A -> M unit) l :
  (forall a, keeps f (step a)) -> keeps f (forM step l).
Proof. intros Hs. unfold forM. apply keeps_foldM. intros; apply Hs. Qed.

End Keeps.

(** Decomposes a computation along its binds and case distinctions. *)
Ltac keeps_step :=
  match goal with
  | |- keeps _ (bind _ _) => apply keeps_bind; [| intros]
  | |- keeps _ (ret _) => apply keeps_ret
  | |- keeps _ (throw _) => apply keeps_throw
  | |- keeps _ (lift _) => apply keeps_lift
  | |- keeps _ (gets _) => apply keeps_gets
  | |- keeps _ (world_gets _) => apply keeps_world_gets
  | |- keeps _ (world_modify _) => apply keeps_world_modify
  | |- keeps _ (emit _) => apply keeps_emit
  | |- keeps _ (attr _ _) => apply keeps_attr
  | |- keeps _ (modify _) => apply keeps_modify; intros; reflexivity
  | |- keeps _ (finally _ _) => apply keeps_finally
  | |- keeps _ (foldM _ _ _) => apply keeps_foldM; intros
  | |- keeps _ (forM _ _) => apply keeps_forM; intros
  | |- keeps _ (if ?b then _ else _) => destruct b
  | |- keeps _ (match ?x with _ => _ end) => destruct x
  | |- keeps _ (let (_, _) := ?x in _) => destruct x
  end.

Ltac keeps_auto := repeat keeps_step.

Lemma keeps_dump_to {X} (f : NetTopology -> X) path obj :
  keeps f obj -> keeps f (dump_to path obj).
Proof. intros H. unfold dump_to. keeps_auto; exact H. Qed.

Lemma keeps_saveCacheDict {X} (f : NetTopology -> X) : keeps f saveCacheDict.
Proof. unfold saveCacheDict. keeps_auto. apply keeps_dump_to. keeps_auto. Qed.

Lemma keeps_saveNearestColorServerInfo {X} (f : NetTopology -> X) :
  keeps f saveNearestColorServerInfo.
Proof.
  unfold saveNearestColorServerInfo. keeps_auto. apply keeps_dump_to. keeps_auto.
Qed.

(** The same rules for the parts of the world. *)

Section Leaves.
Context {X : Type} (f : World -> X).

Lemma leaves_ret {A} (a : A) : leaves f (ret a).
Proof. intros t w. reflexivity. Qed.

Lemma leaves_throw {A} e : leaves f (@throw _ A e).
Proof. intros t w. reflexivity. Qed.

Lemma leaves_lift {A} (r : res A) : leaves f (lift r).
Proof. intros t w. reflexivity. Qed.

Lemma leaves_gets {A} (g : NetTopology -> A) : leaves f (gets g).
Proof. intros t w. reflexivity. Qed.

Lemma leaves_modify g : leaves f (modify g).
Proof. intros t w. reflexivity. Qed.

Lemma leaves_world_gets {A} (g : World -> A) : leaves f (world_gets g).
Proof. intros t w. reflexivity. Qed.

Lemma leaves_attr {A} (g : NetTopology -> option A) name : leaves f (attr g name).
Proof. intros t w. unfold attr. destruct (g t); reflexivity. Qed.

Lemma leaves_world_modify g :
  (forall w, f (g w) = f w) -> leaves f (world_modify g).
Proof. intros H t w. apply H. Qed.

Lemma leaves_bind {A B} (m : M A) (k : A -> M B) :
  leaves f m -> (forall a, leaves f (k a)) -> leaves f (bind m k).
Proof.
  intros Hm Hk t w. unfold bind. specialize (Hm t w).
  destruct (m t w) as [[[e|a] t1] w1]; simpl in *; [exact Hm|].
  rewrite Hk. exact Hm.
Qed.

Lemma leaves_foldM {A B} (step : B -> A -> M B) l :
  (forall b a, leaves f (step b a)) -> forall b, leaves f (foldM step b l).
Proof.
  intros Hs. induction l as [|a l IH]; intros b; simpl.
  - apply leaves_ret.
  - apply leaves_bind; [apply Hs | intros; apply IH].
Qed.

Lemma leaves_forM {A} (step : A -> M unit) l :
  (forall a, leaves f (step a)) -> leaves f (forM step l).
Proof. intros Hs. unfold forM. apply leaves_foldM. intros; apply Hs. Qed.

End Leaves.

Ltac leaves_step :=
  match goal with
  | |- leaves _ (bind _ _) => apply leaves_bind; [| intros]
  | |- leaves _ (ret _) => apply leaves_ret
  | |- leaves _ (throw _) => apply leaves_throw
  | |- leaves _ (lift _) => apply leaves_lift
  | |- leaves _ (gets _) => apply leaves_gets
  | |- leaves _ (modify _) => apply leaves_modify
  | |- leaves _ (world_gets _) => apply leaves_world_gets
  | |- leaves _ (attr _ _) => apply leaves_attr
  | |- leaves _ (emit _) => apply leaves_world_modify; intros; reflexivity
  | |- leaves _ (world_modify _) => apply leaves_world_modify; intros; reflexivity
  | |- leaves _ (foldM _ _ _) => apply leaves_foldM; intros
  | |- leaves _ (forM _ _) => apply leaves_forM; intros
  | |- leaves _ (if ?b then _ else _) => destruct b
  | |- leaves _ (match ?x with _ => _ end) => destruct x
  end.

Ltac world_frame :=
  repeat first
    [ leaves_step
    | progress unfold warm_request, route_warm_up, run_coloring,
        assignColorForCacheMemory, assign_color ].

(** ** Running a computation that returned *)

Lemma bind_ok {A B} (m : M A) (k : A -> M B) t w b t' w' :
  bind m k t w = (inr b, t', w') ->
  exists a t1 w1, m t w = (inr a, t1, w1) /\ k a t1 w1 = (inr b, t', w').
Proof.
  unfold bind. destruct (m t w) as [[[e|a] t1] w1]; intros H;
    [discriminate | eauto].
Qed.

Tactic Notation "bind_inv" hyp(H) "as" ident(a) ident(t1) ident(w1) ident(H1) :=
  apply bind_ok in H; destruct H as (a & t1 & w1 & H1 & H).

Ltac pair_inv H := inversion H; subst; clear H.

(** Case analysis on whatever a run that is known to have returned still
    branches on. *)
Ltac break_run :=
  match goal with
  | H : (inl _, _, _) = (inr _, _, _) |- _ => discriminate H
  | H : (inr _, _, _) = (inl _, _, _) |- _ => discriminate H
  | H : (_, _, _) = (_, _, _) |- _ => pair_inv H
  | H : context [match ?x with _ => _ end] |- _ =>
      let E := fresh "E" in destruct x eqn:E
  end.

(** ** Mode "no-cache" *)

(** C8. In mode "no-cache" [warmUp] returns at once and leaves the
    instance and the world (files, handles, generator state, call log)
    exactly as they were. *)
Theorem warmUp_no_cache_noop (t : NetTopology) (w : World) :
  eq_str (mode t) "no-cache" = true ->
  warmUp t w = (ok tt, t, w).
Proof.
  intros Hm. unfold warmUp. mrun. rewrite Hm. reflexivity.
Qed.

(** ** Snapshot files *)

Lemma dump_to_pure path (payload : NetTopology -> res (list Byte.byte)) t w :
  let o := dump_to path (fun t w => (payload t, t, w)) t w in
  self_after o = t /\
  handles (world_after o) = handles w /\
  (forall q, q <> path ->
     assoc q (files (world_after o)) = assoc q (files w)) /\
  match hd IoOk (disk w), payload t with
  | IoOpenFails, _ => result o = inl OSError /\ files (world_after o) = files w
  | IoOk, inr bytes =>
      result o = inr tt /\ assoc path (files (world_after o)) = Some bytes
  | IoWriteFails n, inr bytes =>
      result o = inl OSError /\
      assoc path (files (world_after o)) = Some (firstn n bytes)
  | _, inl e =>
      result o = inl e /\ assoc path (files (world_after o)) = Some []
  end.
Proof.
  unfold dump_to. mrun.
  destruct (hd IoOk (disk w)) eqn:Hplan;
    unfold result, self_after, world_after; simpl;
    [ | auto | ];
    (destruct (payload t) as [e|bytes]; simpl;
     rewrite ?String.eqb_refl;
     repeat split; auto;
     try (intros q Hq; now rewrite ?assoc_set_file_other by exact Hq);
     now rewrite ?assoc_set_file_same).
Qed.

Lemma dump_to_ext path (obj1 obj2 : M (list Byte.byte)) t w :
  (forall t w, obj1 t w = obj2 t w) ->
  dump_to path obj1 t w = dump_to path obj2 t w.
Proof.
  intros H. unfold dump_to, bind, finally.
  destruct (world_gets (fun w => hd IoOk (disk w)) t w) as [[[e|plan] t1] w1];
    [reflexivity|].
  destruct (world_modify _ t1 w1) as [[[e|u] t2] w2]; [reflexivity|].
  destruct plan; try reflexivity;
    (destruct (world_modify _ t2 w2) as [[[e|u1] t3] w3]; [reflexivity|];
     destruct (world_modify _ t3 w3) as [[[e|u2] t4] w4]; [reflexivity|];
     destruct (emit _ t4 w4) as [[[e|u3] t5] w5]; [reflexivity|];
     rewrite H; reflexivity).
Qed.

(** C4 (as amended). Both snapshot writes are scoped writes in place:
    the canonical path itself is opened, which truncates it, and the
    pickle is written into it.  The handle is released on every way out,
    the instance is not changed and no other file is touched, so there is
    no temporary file and no rename.  A write that fails half-way leaves
    the written prefix at the canonical path. *)
Theorem snapshot_write_scoped_in_place (t : NetTopology) (w : World) :
  let o1 := saveCacheDict t w in
  let p1 := cacheDict_path (configDirPath t) (parallel_idx t) in
  let o2 := saveNearestColorServerInfo t w in
  let p2 := nearestColor_path (configDirPath t) in
  (self_after o1 = t /\ self_after o2 = t) /\
  (handles (world_after o1) = handles w /\
   handles (world_after o2) = handles w) /\
  (forall q, q <> p1 -> assoc q (files (world_after o1)) = assoc q (files w)) /\
  (forall q, q <> p2 -> assoc q (files (world_after o2)) = assoc q (files w)) /\
  match hd IoOk (disk w) with
  | IoOpenFails =>
      (result o1 = inl OSError /\ files (world_after o1) = files w) /\
      (result o2 = inl OSError /\ files (world_after o2) = files w)
  | IoOk =>
      (result o1 = inr tt /\
       assoc p1 (files (world_after o1))
       = Some (pickle_cache (cacheMemoryDict t))) /\
      match colorRouteInfo t with
      | Some r =>
          result o2 = inr tt /\
          assoc p2 (files (world_after o2)) = Some (pickle_routes r)
      | None =>
          result o2 = inl (AttributeError "colorRouteInfo") /\
          assoc p2 (files (world_after o2)) = Some []
      end
  | IoWriteFails n =>
      (result o1 = inl OSError /\
       assoc p1 (files (world_after o1))
       = Some (firstn n (pickle_cache (cacheMemoryDict t)))) /\
      match colorRouteInfo t with
      | Some r =>
          result o2 = inl OSError /\
          assoc p2 (files (world_after o2)) = Some (firstn n (pickle_routes r))
      | None =>
          result o2 = inl (AttributeError "colorRouteInfo") /\
          assoc p2 (files (world_after o2)) = Some []
      end
  end.
Proof.
  pose proof (dump_to_pure
                (cacheDict_path (configDirPath t) (parallel_idx t))
                (fun t => inr (pickle_cache (cacheMemoryDict t))) t w) as H1.
  pose proof (dump_to_pure
                (nearestColor_path (configDirPath t))
                (fun t => match colorRouteInfo t with
                          | Some r => inr (pickle_routes r)
                          | None => inl (AttributeError "colorRouteInfo")
                          end) t w) as H2.
  assert (E1 : saveCacheDict t w
               = dump_to (cacheDict_path (configDirPath t) (parallel_idx t))
                   (fun t w => (inr (pickle_cache (cacheMemoryDict t)), t, w)) t w)
    by reflexivity.
  assert (E2 : saveNearestColorServerInfo t w
               = dump_to (nearestColor_path (configDirPath t))
                   (fun t w => (match colorRouteInfo t with
                                | Some r => inr (pickle_routes r)
                                | None => inl (AttributeError "colorRouteInfo")
                                end, t, w)) t w).
  { change (saveNearestColorServerInfo t w)
      with (dump_to (nearestColor_path (configDirPath t))
              (r <- attr colorRouteInfo "colorRouteInfo" ;;
               ret (pickle_routes r)) t w).
    apply dump_to_ext. intros t0 w0. unfold bind, attr, ret.
    destruct (colorRouteInfo t0); reflexivity. }
  cbv zeta. rewrite E1, E2. cbv zeta in H1, H2.
  destruct H1 as (A1 & B1 & C1 & D1). destruct H2 as (A2 & B2 & C2 & D2).
  repeat split; auto.
  destruct (hd IoOk (disk w)); destruct (colorRouteInfo t); auto.
Qed.

Lemma warmUp_no_cache_noop_aux t w :
  eq_str (mode t) "no-cache" = true -> warmUp t w = (inr tt, t, w).
Proof. intros Hm. unfold warmUp. mrun. rewrite Hm. reflexivity. Qed.

(** ** Frame properties of the methods *)

Ltac frame :=
  repeat first
    [ keeps_step
    | apply keeps_saveCacheDict
    | apply keeps_saveNearestColorServerInfo
    | progress unfold warmUp, build_graph, build_routers, build_clients,
        build_links, build_router, build_client, build_link, peer_ip,
        reconfig_stores, reconfig_router,
        graph_add_node, graph_add_edge, alloc_store, set_cache,
        remove_mainServer, warm_request, route_warm_up, run_coloring,
        assignColorForCacheMemory, assign_color, build_content ].

Lemma warmUp_by_mode t w :
  warmUp t w =
  (if eq_str (mode t) "no-cache" then ret tt
   else if eq_str (mode t) "no-color" then
     clients <- attr clientIds "clientIds" ;;
     warmUpReqDict <- foldM warm_request [] clients ;;
     route_warm_up warmUpReqDict ;;;
     saveCacheDict
   else if eq_str (mode t) "tag-color" then
     run_coloring ;;; assignColorForCacheMemory
   else
     run_coloring ;;; assignColorForCacheMemory ;;; saveNearestColorServerInfo)
    t w.
Proof. reflexivity. Qed.

Lemma warmUp_keeps_mode : keeps mode warmUp.
Proof. frame. Qed.

Lemma warmUp_keeps_graph : keeps graph warmUp.
Proof. frame. Qed.

Lemma warmUp_keeps_routerIds : keeps routerIds warmUp.
Proof. frame. Qed.

Lemma warmUp_keeps_generator t w :
  eq_str (mode t) "no-color" = false ->
  contentGenerator (self_after (warmUp t w)) = contentGenerator t.
Proof.
  intros Hm.
  assert (Hno : keeps contentGenerator
                  (run_coloring ;;; assignColorForCacheMemory)) by frame.
  assert (Hcol : keeps contentGenerator
                   (run_coloring ;;; assignColorForCacheMemory ;;;
                    saveNearestColorServerInfo)) by frame.
  rewrite warmUp_by_mode.
  destruct (eq_str (mode t) "no-cache"); [reflexivity|]. rewrite Hm.
  destruct (eq_str (mode t) "tag-color"); [apply Hno | apply Hcol].
Qed.

(** ** The sampling block of the configuration *)

Lemma build_content_sampler cfg s t w t1 w1 :
  build_content cfg s t w = (inr tt, t1, w1) ->
  exists gen, contentGenerator t1 = Some gen /\ sampler_of gen = s.
Proof.
  unfold build_content. mrun. intros H.
  repeat break_run; eexists; split; reflexivity.
Qed.

Lemma build_reset_run t w :
  build_reset t w =
  (inr tt,
   set_tempClientIds [VStr "mainClone"]
     (set_routerIds [] (set_clientIds [] (set_cacheMemoryDict [] t))),
   set_log (log w ++ [EvPrint "*** Processing content list"]) w).
Proof. reflexivity. Qed.

Lemma select_sampler_some cfg s :
  select_sampler cfg = inr (Some s) <->
  exists sm m rate,
    getitem cfg "samplingMethod" = inr sm /\ is_not_none sm = true /\
    getitem sm "method" = inr m /\ eq_str m "reservoir" = true /\
    getitem sm "sampleRate" = inr rate /\ s = ReservoirSampling rate.
Proof.
  unfold select_sampler, ok, raise. split.
  - intros H.
    destruct (getitem cfg "samplingMethod") as [e|sm] eqn:H1; [discriminate|].
    destruct (is_not_none sm) eqn:Hn; [|discriminate].
    destruct (getitem sm "method") as [e|m] eqn:H2; [discriminate|].
    destruct (eq_str m "reservoir") eqn:Hr; [|discriminate].
    destruct (getitem sm "sampleRate") as [e|rate] eqn:H3; [discriminate|].
    inversion H. exists sm, m, rate. repeat split; auto.
  - intros (sm & m & rate & H1 & H2 & H3 & H4 & H5 & ->).
    now rewrite H1, H2, H3, H4, H5.
Qed.

(** C6 (as amended). The [samplingMethod] entry has to be there, and
    the way to ask for no sampler is the value [None].  When the entry
    cannot be read, [build] raises that error.  When it is [None], no
    sampler is selected.  A sampler is selected exactly when the entry is
    not [None], its [method] is "reservoir" and it has a [sampleRate].
    And when [build] returns (in a mode that draws no warm-up requests,
    so that the generator is the one [build] made), the content model
    carries the selected sampler. *)
Theorem samplingMethod_is_read_not_optional (t : NetTopology) (w : World) :
  (forall e, getitem (networkInfo t) "samplingMethod" = inl e ->
             result (build t w) = inl e) /\
  (getitem (networkInfo t) "samplingMethod" = inr VNone ->
   select_sampler (networkInfo t) = inr None) /\
  (forall s,
     select_sampler (networkInfo t) = inr (Some s) <->
     exists sm m rate,
       getitem (networkInfo t) "samplingMethod" = inr sm /\
       is_not_none sm = true /\
       getitem sm "method" = inr m /\ eq_str m "reservoir" = true /\
       getitem sm "sampleRate" = inr rate /\ s = ReservoirSampling rate) /\
  (forall t' w',
     eq_str (mode t) "no-color" = false ->
     build t w = (inr tt, t', w') ->
     exists gen,
       contentGenerator t' = Some gen /\
       select_sampler (networkInfo t) = inr (sampler_of gen)).
Proof.
  split; [|split; [|split]].
  - intros e He. unfold build. unfold bind at 1. rewrite build_reset_run.
    unfold bind at 1, gets. cbv beta iota.
    unfold bind at 1, lift, select_sampler. cbn [networkInfo set_tempClientIds
      set_routerIds set_clientIds set_cacheMemoryDict].
    unfold ok, raise. cbv beta iota. rewrite He. reflexivity.
  - intros H. unfold select_sampler. now rewrite H.
  - intros s. apply select_sampler_some.
  - intros t' w' Hm H. unfold build in H.
    bind_inv H as u0 t0 w0 R0. rewrite build_reset_run in R0. pair_inv R0.
    bind_inv H as cfg t1 w1 R1. unfold gets in R1. pair_inv R1.
    bind_inv H as s t2 w2 R2. unfold lift in R2. pair_inv R2.
    bind_inv H as u3 t3 w3 R3.
    bind_inv H as u4 t4 w4 R4.
    cbn [networkInfo set_tempClientIds set_routerIds set_clientIds
           set_cacheMemoryDict] in *.
    destruct u3. apply build_content_sampler in R3 as Hgen.
    destruct Hgen as (gen & Hgen & Hs).
    assert (Kg : keeps contentGenerator (build_graph (networkInfo t)))
      by (unfold build_graph; frame).
    assert (Km : keeps mode (build_graph (networkInfo t)))
      by (unfold build_graph; frame).
    assert (Kc : keeps mode (build_content (networkInfo t) s)) by frame.
    pose proof (Kg t3 w3) as Eg. pose proof (Km t3 w3) as Em.
    pose proof (Kc (set_tempClientIds [VStr "mainClone"]
                     (set_routerIds []
                        (set_clientIds [] (set_cacheMemoryDict [] t))))
                   (set_log (log w ++ [EvPrint "*** Processing content list"])
                      w)) as Ec.
    rewrite R3 in Ec. rewrite R4 in Eg, Em.
    pose proof (warmUp_keeps_generator t4 w4) as Ew.
    rewrite H in Ew. unfold self_after in *.
    cbn [fst snd mode set_tempClientIds set_routerIds set_clientIds
           set_cacheMemoryDict] in *.
    exists gen. split.
    + rewrite Ew; [congruence|]. congruence.
    + rewrite H1. now rewrite Hs.
Qed.

(** ** Reconfiguration *)

Lemma alloc_store_run r id m st t w :
  store_for r m = Some st -> hashable id = true ->
  alloc_store r id m t w
  = (inr tt, set_cacheMemoryDict (dict_set id st (cacheMemoryDict t)) t, w).
Proof.
  unfold store_for, alloc_store, set_cache. intros Hst Hh. mrun. rewrite Hh.
  destruct (getitem r "type") as [e|ty]; [discriminate|]. cbv beta iota.
  destruct (eq_str ty "LRU"); [now inversion Hst|].
  destruct (eq_str ty "LFU"); [now inversion Hst|].
  destruct (eq_str ty "FIFO"); [now inversion Hst|].
  destruct (eq_str ty "Hybrid"); [|discriminate].
  destruct (getitem r "capacityRatio") as [e|ratio]; [discriminate|].
  now inversion Hst.
Qed.

Lemma skipn_cons_nth {A} (l : list A) i x rest :
  skipn i l = x :: rest -> nth_error l i = Some x /\ skipn (S i) l = rest.
Proof.
  revert l. induction i as [|i IH]; intros [|y l] H; simpl in *;
    try discriminate.
  - inversion H. auto.
  - apply IH in H. exact H.
Qed.

Lemma reconfig_loop a sizes routers :
  forall idx0 stores t w,
    alpha t = Some a ->
    fresh_stores a routers (skipn idx0 sizes) = Some stores ->
    foldM (reconfig_router sizes) idx0 routers t w
    = (inr (idx0 + length stores)%nat,
       set_cacheMemoryDict (assign_all (cacheMemoryDict t) stores) t, w).
Proof.
  induction routers as [|r rs IH]; intros idx0 stores t w Ha Hf; simpl in Hf.
  - inversion Hf. simpl. rewrite Nat.add_0_r. destruct t. reflexivity.
  - simpl. unfold bind at 1. unfold reconfig_router at 1.
    destruct (contains "type" r) as [e|[|]] eqn:Hc; try discriminate.
    + destruct (getitem r "ID") as [e|id] eqn:Hid; [discriminate|].
      destruct (skipn idx0 sizes) as [|size sizes'] eqn:Hs; [discriminate|].
      apply skipn_cons_nth in Hs as [Hn Hs'].
      destruct (py_float size) as [e|f] eqn:Hfl; [discriminate|].
      destruct (store_for r (fmul f a)) as [st|] eqn:Hst; [|discriminate].
      destruct (fresh_stores a rs sizes') as [rest|] eqn:Hr; [|discriminate].
      destruct (hashable id) eqn:Hh; [|discriminate].
      inversion Hf; subst stores. clear Hf.
      mrun. rewrite Hn. cbv beta iota. rewrite Hfl. cbv beta iota.
      rewrite Ha. cbv beta iota.
      rewrite (alloc_store_run r id (fmul f a) st t w Hst Hh). cbv beta iota.
      rewrite <- Hs' in Hr.
      rewrite (IH (S idx0) rest _ w); [| exact Ha | exact Hr].
      simpl. rewrite Nat.add_succ_r. reflexivity.
    + mrun. apply IH; assumption.
Qed.

Lemma fresh_stores_shape a routers :
  forall sizes stores,
    fresh_stores a routers sizes = Some stores ->
    length stores = length (filter typed routers) /\
    forall i r,
      nth_error (filter typed routers) i = Some r ->
      exists id size f st,
        getitem r "ID" = inr id /\ nth_error sizes i = Some size /\
        py_float size = inr f /\ store_for r (fmul f a) = Some st /\
        nth_error stores i = Some (id, st).
Proof.
  induction routers as [|r rs IH]; intros sizes stores Hf; simpl in Hf.
  - inversion Hf. split; [reflexivity|]. intros [|i] r0 H; discriminate.
  - destruct (contains "type" r) as [e|[|]] eqn:Hc; try discriminate.
    + assert (Ht : typed r = true) by (unfold typed; now rewrite Hc).
      destruct (getitem r "ID") as [e|id] eqn:Hid; [discriminate|].
      destruct sizes as [|size sizes']; [discriminate|].
      destruct (py_float size) as [e|f] eqn:Hfl; [discriminate|].
      destruct (store_for r (fmul f a)) as [st|] eqn:Hst; [|discriminate].
      destruct (fresh_stores a rs sizes') as [rest|] eqn:Hr; [|discriminate].
      destruct (hashable id) eqn:Hh; [|discriminate].
      inversion Hf; subst stores. clear Hf.
      destruct (IH _ _ Hr) as [Hlen Hnth]. simpl. rewrite Ht. split.
      * simpl. now rewrite Hlen.
      * intros [|i] r0 H; simpl in H.
        -- inversion H; subst r0. exists id, size, f, st. auto.
        -- apply Hnth in H. exact H.
    + assert (Ht : typed r = false) by (unfold typed; now rewrite Hc).
      simpl. rewrite Ht. apply IH. exact Hf.
Qed.

Lemma distinct_keys_app_fresh l1 k l2 :
  distinct_keys (l1 ++ k :: l2) = true ->
  existsb (fun k' => key_eqb k' k) l1 = false.
Proof.
  induction l1 as [|x l1 IH]; simpl; intros H; [reflexivity|].
  apply andb_true_iff in H as [Hx Hd].
  rewrite existsb_app in Hx. simpl in Hx.
  destruct (key_eqb x k); simpl.
  - rewrite orb_true_r in Hx. discriminate.
  - now apply IH.
Qed.

Lemma dict_set_fresh {V} (k : value) (v : V) (d : dict V) :
  existsb (fun k' => key_eqb k' k) (map fst d) = false ->
  dict_set k v d = d ++ [(k, v)].
Proof.
  induction d as [|[k' v'] d IH]; simpl; intros H; [reflexivity|].
  apply orb_false_iff in H as [H1 H2]. rewrite H1. now rewrite IH.
Qed.

Lemma assign_all_distinct (l : list (value * Store)) :
  forall d,
    distinct_keys (map fst d ++ map fst l) = true -> assign_all d l = d ++ l.
Proof.
  induction l as [|[k v] l IH]; intros d H; simpl.
  - now rewrite app_nil_r.
  - unfold assign_all in *. simpl.
    rewrite dict_set_fresh by (eapply distinct_keys_app_fresh; exact H).
    rewrite IH.
    + now rewrite <- app_assoc.
    + rewrite map_app. simpl. now rewrite <- app_assoc.
Qed.

Lemma foldM_app {A B} (f : B -> A -> M B) (l1 l2 : list A) :
  forall b t w,
    foldM f b (l1 ++ l2) t w = (b' <- foldM f b l1 ;; foldM f b' l2) t w.
Proof.
  induction l1 as [|x l1 IH]; intros b t w; simpl.
  - reflexivity.
  - unfold bind. destruct (f b x t w) as [[[e|b1] t1] w1]; [reflexivity|].
    rewrite IH. unfold bind. reflexivity.
Qed.

(** The loop of [reconfig] at a router for which the list has no entry
    left. *)
Lemma reconfig_loop_short a sizes pre r post stores id t w :
  alpha t = Some a ->
  fresh_stores a pre sizes = Some stores ->
  length sizes = length stores ->
  contains "type" r = inr true ->
  getitem r "ID" = inr id ->
  foldM (reconfig_router sizes) 0%nat (pre ++ r :: post) t w
  = (inl IndexError,
     set_cacheMemoryDict (assign_all (cacheMemoryDict t) stores) t, w).
Proof.
  intros Ha Hf Hlen Hc Hid.
  rewrite foldM_app. unfold bind at 1.
  rewrite (reconfig_loop a sizes pre 0 stores t w Ha Hf).
  cbn [foldM Nat.add]. unfold bind at 1. unfold reconfig_router.
  unfold bind at 1, lift at 1. rewrite Hc.
  unfold bind at 1, lift at 1. rewrite Hid.
  unfold bind at 1, lift at 1.
  assert (Hn : nth_error sizes (length stores) = None)
    by (apply nth_error_None; rewrite Hlen; apply Nat.le_refl).
  rewrite Hn. reflexivity.
Qed.

(** C1 (as amended). On an instance that has its [alpha]: let every
    router with a "type" entry have a hashable ID, a type that names one
    of the four policies and, at its position among these routers, an
    entry of the list that [float] accepts.  Then [reconfig] empties the
    mapping, assigns one fresh store per such router in declaration
    order, of the policy its type names and of capacity
    [float(cacheSizeList[i]) * alpha] for the i-th of them, and its
    outcome is that of [warmUp] on the instance that holds exactly these
    stores and the new run index.  Nothing of the previous mapping
    remains; with pairwise different IDs the mapping is the list of
    stores itself.  When instead the list serves in this way every such
    router before some router with a "type" entry and an ID, and has no
    entry left for that one, [reconfig] raises [IndexError]: the mapping
    holds the stores of the routers before it, and [warmUp] is not run. *)
Theorem reconfig_allocates_then_warms
  (t : NetTopology) (w : World) (cacheSizeList : list value) (run_index : Z)
  (entry : value) (routers : list value) (a : float) :
  getitem (networkInfo t) "Routers" = inr entry ->
  iter entry = inr routers ->
  alpha t = Some a ->
  (forall stores,
     fresh_stores a routers cacheSizeList = Some stores ->
     reconfig cacheSizeList run_index t w
     = warmUp (set_cacheMemoryDict (assign_all [] stores)
                 (set_parallel_idx run_index t)) w
     /\ length stores = length (filter typed routers)
     /\ (forall i r,
           nth_error (filter typed routers) i = Some r ->
           exists id size f st,
             getitem r "ID" = inr id /\
             nth_error cacheSizeList i = Some size /\
             py_float size = inr f /\ store_for r (fmul f a) = Some st /\
             nth_error stores i = Some (id, st))
     /\ (distinct_keys (map fst stores) = true ->
         assign_all [] stores = stores)) /\
  (forall pre r post stores id,
     routers = pre ++ r :: post ->
     fresh_stores a pre cacheSizeList = Some stores ->
     length cacheSizeList = length stores ->
     contains "type" r = inr true ->
     getitem r "ID" = inr id ->
     reconfig cacheSizeList run_index t w
     = (inl IndexError,
        set_cacheMemoryDict (assign_all [] stores)
          (set_parallel_idx run_index t),
        w)).
Proof.
  intros Hr Hi Ha. split.
  - intros stores Hf.
    destruct (fresh_stores_shape a routers _ _ Hf) as [Hlen Hnth].
    split; [|split; [exact Hlen | split; [exact Hnth|]]].
    + unfold reconfig, reconfig_alloc, reconfig_stores. mrun.
      cbn [networkInfo set_parallel_idx set_cacheMemoryDict].
      rewrite Hr. cbv beta iota. rewrite Hi. cbv beta iota.
      rewrite (reconfig_loop a cacheSizeList routers 0 stores);
        [reflexivity | | ].
      * exact Ha.
      * exact Hf.
    + intros Hd. apply (assign_all_distinct stores []). exact Hd.
  - intros pre r post stores id -> Hf Hlen Hc Hid.
    unfold reconfig, reconfig_alloc, reconfig_stores. mrun.
    cbn [networkInfo set_parallel_idx set_cacheMemoryDict].
    rewrite Hr. cbv beta iota. rewrite Hi. cbv beta iota.
    rewrite (reconfig_loop_short a cacheSizeList pre r post stores id);
      auto.
Qed.

(** ** The origin among the routers *)

(** From a run [H : m t w = (r, t', w')], the fact that [m] keeps [f]. *)
Ltac keeps_in H f K :=
  match type of H with
  | ?m ?t ?w = _ =>
      assert (K : keeps f m) by frame;
      specialize (K t w); rewrite H in K;
      unfold self_after in K; cbn [fst snd] in K
  end.

Lemma build_router_ids r t w t1 w1 ids0 :
  build_router r t w = (inr tt, t1, w1) ->
  routerIds t = Some ids0 ->
  exists id, getitem r "ID" = inr id /\ routerIds t1 = Some (ids0 ++ [id]).
Proof.
  intros H H0. unfold build_router in H.
  bind_inv H as id t2 w2 R1. unfold lift in R1. pair_inv R1.
  bind_inv H as ids t3 w3 R2. unfold attr in R2. rewrite H0 in R2. pair_inv R2.
  bind_inv H as u t4 w4 R3. unfold modify in R3. pair_inv R3.
  keeps_in H routerIds K.
  exists id. split; [assumption|]. rewrite K. reflexivity.
Qed.

Lemma router_loop_ids routers :
  forall t w t1 w1 ids0,
    forM build_router routers t w = (inr tt, t1, w1) ->
    routerIds t = Some ids0 ->
    exists ids, router_ids routers = Some ids /\
                routerIds t1 = Some (ids0 ++ ids).
Proof.
  unfold forM.
  induction routers as [|r rs IH]; intros t w t1 w1 ids0 H H0; simpl in *.
  - unfold ret in H. pair_inv H. exists []. now rewrite app_nil_r.
  - bind_inv H as u t2 w2 R. destruct u.
    destruct (build_router_ids _ _ _ _ _ _ R H0) as (id & Hid & H2).
    destruct (IH _ _ _ _ _ H H2) as (ids & Hids & H3).
    exists (id :: ids). rewrite Hid, Hids, H3, <- app_assoc. auto.
Qed.

Lemma list_remove_in x l l' :
  list_remove x l = Some l' -> exists y, In y l /\ eq_str y x = true.
Proof.
  revert l'. induction l as [|y l IH]; simpl; intros l' H; [discriminate|].
  destruct (eq_str y x) eqn:E.
  - exists y. auto.
  - destruct (list_remove x l) as [r|]; [|discriminate].
    destruct (IH r eq_refl) as (z & Hz & Ez). exists z. auto.
Qed.

Lemma list_remove_once x l l' :
  list_remove x l = Some l' ->
  count_str x l = 1%nat -> count_str x l' = 0%nat.
Proof.
  unfold count_str. revert l'.
  induction l as [|y l IH]; simpl; intros l' H Hc; [discriminate|].
  destruct (eq_str y x) eqn:E.
  - inversion H; subst l'. simpl in Hc. now inversion Hc.
  - destruct (list_remove x l) as [r|]; [|discriminate].
    inversion H; subst l'. simpl. rewrite E. now apply IH.
Qed.

Lemma router_ids_in routers :
  forall ids id,
    router_ids routers = Some ids -> In id ids ->
    exists r, In r routers /\ getitem r "ID" = inr id.
Proof.
  induction routers as [|r rs IH]; simpl; intros ids id H Hin.
  - inversion H; subst. contradiction.
  - destruct (getitem r "ID") as [e|i] eqn:Hi; [discriminate|].
    destruct (router_ids rs) as [rest|]; [|discriminate].
    inversion H; subst ids. destruct Hin as [->|Hin].
    + exists r. auto.
    + destruct (IH _ _ eq_refl Hin) as (r' & Hr & Hg). exists r'. auto.
Qed.

Lemma build_routerIds t w t' w' :
  build t w = (inr tt, t', w') ->
  exists entry routers ids ids',
    getitem (networkInfo t) "Routers" = inr entry /\
    iter entry = inr routers /\
    router_ids routers = Some ids /\
    list_remove "mainServer" ids = Some ids' /\
    routerIds t' = Some ids'.
Proof.
  intros H. unfold build in H.
  bind_inv H as u0 t0 w0 R0. rewrite build_reset_run in R0. pair_inv R0.
  bind_inv H as cfg t1 w1 R1. unfold gets in R1. pair_inv R1.
  bind_inv H as s t2 w2 R2. unfold lift in R2. pair_inv R2.
  bind_inv H as u3 t3 w3 R3.
  bind_inv H as u4 t4 w4 R4.
  cbn [networkInfo set_tempClientIds set_routerIds set_clientIds
         set_cacheMemoryDict] in *.
  keeps_in R3 routerIds K3. cbn [routerIds set_tempClientIds set_routerIds] in K3.
  keeps_in H routerIds K5.
  unfold build_graph in R4.
  bind_inv R4 as u5 t5 w5 R5.
  keeps_in R4 routerIds K4.
  unfold build_routers in R5.
  bind_inv R5 as entry t6 w6 R6. unfold lift in R6. pair_inv R6.
  bind_inv R5 as routers t7 w7 R7. unfold lift in R7. pair_inv R7.
  bind_inv R5 as u8 t8 w8 R8. destruct u8.
  destruct (router_loop_ids _ _ _ _ _ _ R8 K3) as (ids & Hids & H8).
  unfold remove_mainServer in R5.
  bind_inv R5 as ids1 t9 w9 R9. unfold attr in R9. rewrite H8 in R9.
  simpl in R9. inversion R9. subst ids1 t9 w9. clear R9.
  destruct (list_remove "mainServer" ids) as [ids'|] eqn:Hrm;
    [| unfold throw in R5; discriminate].
  unfold modify in R5. pair_inv R5.
  exists entry, routers, ids, ids'. repeat split; auto.
  rewrite K5, K4. reflexivity.
Qed.

(** C9 (as amended). [build] lists the router IDs in declaration order
    and then removes the first entry equal to "mainServer".  When it
    returns, [routerIds] is that list without this first entry, so with
    exactly one router named "mainServer" the name is not listed
    afterwards.  When no router has this ID, [build] does not return: it
    raises. *)
Theorem build_removes_first_mainServer (t : NetTopology) (w : World) :
  (forall t' w',
     build t w = (inr tt, t', w') ->
     exists entry routers ids ids',
       getitem (networkInfo t) "Routers" = inr entry /\
       iter entry = inr routers /\
       router_ids routers = Some ids /\
       list_remove "mainServer" ids = Some ids' /\
       routerIds t' = Some ids' /\
       (count_str "mainServer" ids = 1%nat ->
        count_str "mainServer" ids' = 0%nat)) /\
  ((forall entry routers r id,
      getitem (networkInfo t) "Routers" = inr entry ->
      iter entry = inr routers ->
      In r routers -> getitem r "ID" = inr id ->
      eq_str id "mainServer" = false) ->
   exists e, result (build t w) = inl e).
Proof.
  split.
  - intros t' w' H.
    destruct (build_routerIds _ _ _ _ H) as (entry & routers & ids & ids' & H1
                                             & H2 & H3 & H4 & H5).
    exists entry, routers, ids, ids'. repeat split; auto.
    now apply list_remove_once.
  - intros Hno.
    destruct (build t w) as [[[e|[]] t'] w'] eqn:Hb; [exists e; reflexivity|].
    exfalso.
    destruct (build_routerIds _ _ _ _ Hb) as (entry & routers & ids & ids' & H1
                                              & H2 & H3 & H4 & H5).
    destruct (list_remove_in _ _ _ H4) as (y & Hy & Ey).
    destruct (router_ids_in _ _ _ H3 Hy) as (r & Hr & Hg).
    rewrite (Hno _ _ _ _ H1 H2 Hr Hg) in Ey. discriminate.
Qed.

(** ** Links and edges *)

Lemma Qeq_bool_sym p q : Qeq_bool p q = Qeq_bool q p.
Proof.
  destruct (Qeq_bool p q) eqn:E1, (Qeq_bool q p) eqn:E2; auto.
  - apply Qeq_bool_iff in E1. symmetry in E1. apply Qeq_bool_iff in E1.
    congruence.
  - apply Qeq_bool_iff in E2. symmetry in E2. apply Qeq_bool_iff in E2.
    congruence.
Qed.

Lemma Qeq_bool_trans p q r :
  Qeq_bool p q = true -> Qeq_bool q r = true -> Qeq_bool p r = true.
Proof.
  rewrite !Qeq_bool_iff. intros H1 H2. now rewrite H1.
Qed.

Lemma number_eqb_sym x y : number_eqb x y = number_eqb y x.
Proof.
  destruct x as [p|a], y as [q|b]; simpl; auto using Qeq_bool_sym.
  now destruct a, b.
Qed.

Lemma number_eqb_trans x y z :
  number_eqb x y = true -> number_eqb y z = true -> number_eqb x z = true.
Proof.
  destruct x as [p|a], y as [q|b], z as [r|c]; simpl; try discriminate.
  - apply Qeq_bool_trans.
  - destruct a, b, c; auto.
Qed.

Lemma number_eqb_refl x : number_eqb x x = true.
Proof.
  destruct x as [p|a]; simpl.
  - apply Qeq_bool_iff. reflexivity.
  - now destruct a.
Qed.

Lemma key_eqb_numbers a b :
  key_eqb a b = true ->
  (a = VNone /\ b = VNone) \/
  (exists s, a = VStr s /\ b = VStr s) \/
  (exists p q, as_number a = Some p /\ as_number b = Some q /\
               number_eqb p q = true).
Proof.
  unfold key_eqb.
  destruct a as [|ba|za|xa|sa|la|da], b as [|bb|zb|xb|sb|lb|db];
    try (intros H; discriminate H); auto;
    try (intros H; right; left; apply String.eqb_eq in H; subst; eauto; fail);
    try (intros H; right; right;
         destruct (as_number _) as [p|] eqn:Ea in H; [|discriminate];
         match type of H with
         | match ?y with _ => _ end = true =>
             destruct y as [q|] eqn:Eb; [|discriminate]
         end;
         exists p, q; auto; fail).
Qed.

Lemma key_eqb_of_numbers a b p q :
  as_number a = Some p -> as_number b = Some q ->
  key_eqb a b = number_eqb p q.
Proof.
  intros H1 H2. unfold key_eqb.
  destruct a as [|ba|za|xa|sa|la|da]; try discriminate H1;
    destruct b as [|bb|zb|xb|sb|lb|db]; try discriminate H2;
    rewrite H1, H2; reflexivity.
Qed.

Lemma key_eqb_sym a b : key_eqb a b = key_eqb b a.
Proof.
  unfold key_eqb.
  destruct a as [|ba|za|xa|sa|la|da], b as [|bb|zb|xb|sb|lb|db];
    auto using String.eqb_sym;
    destruct (as_number _) as [p|], (as_number _) as [q|];
    auto using number_eqb_sym.
Qed.

Lemma key_eqb_trans a b c :
  key_eqb a b = true -> key_eqb b c = true -> key_eqb a c = true.
Proof.
  intros H1 H2.
  destruct (key_eqb_numbers _ _ H1) as [[-> ->] | [(s & -> & ->) | (p & q & Ha & Hb & E1)]];
    [exact H2 | exact H2 |].
  destruct (key_eqb_numbers _ _ H2) as [[Eb ->] | [(s & Eb & ->) | (q' & r & Hb' & Hc & E2)]].
  - subst b. discriminate.
  - subst b. discriminate.
  - rewrite Hb in Hb'. inversion Hb'; subst q'.
    rewrite (key_eqb_of_numbers _ _ _ _ Ha Hc).
    eapply number_eqb_trans; eassumption.
Qed.

Lemma key_eqb_refl a : hashable a = true -> key_eqb a a = true.
Proof.
  destruct a as [|ba|za|xa|sa|la|da]; intros H; try discriminate H; auto.
  - destruct ba; apply (number_eqb_refl (Rational _)).
  - apply (number_eqb_refl (Rational _)).
  - unfold key_eqb. destruct (as_number (VFloat xa)) as [p|] eqn:E.
    + apply number_eqb_refl.
    + destruct xa; discriminate E.
  - apply String.eqb_refl.
Qed.

Lemma same_edge_refl u v :
  hashable u = true -> hashable v = true -> same_edge u v u v = true.
Proof.
  intros Hu Hv. unfold same_edge. now rewrite !key_eqb_refl.
Qed.


Lemma find_put_edge_same u v d es :
  hashable u = true -> hashable v = true ->
  find_edge u v (put_edge u v d es) = Some d.
Proof.
  intros Hu Hv. induction es as [|[[a b] d'] es IH]; simpl.
  - now rewrite same_edge_refl.
  - destruct (same_edge a b u v) eqn:E; simpl; rewrite E; auto.
Qed.



Lemma check_node_ok n u : check_node n = inr u -> hashable n = true.
Proof.
  unfold check_node. destruct (hashable n); [reflexivity | discriminate].
Qed.

Lemma touch_node_run n g g' :
  touch_node n g = inr g' -> hashable n = true /\ edges g' = edges g.
Proof.
  unfold touch_node, add_node. destruct (check_node n) as [e|u] eqn:E;
    [discriminate|].
  intros H. inversion H. split; [eapply check_node_ok; eassumption | reflexivity].
Qed.

Lemma graph_add_edge_run u v d t w x t1 w1 :
  graph_add_edge u v d t w = (inr x, t1, w1) ->
  hashable u = true /\ hashable v = true /\
  edges (graph t1) = put_edge u v d (edges (graph t)).
Proof.
  intros H. unfold graph_add_edge in H.
  bind_inv H as g t2 w2 R1. unfold gets in R1. pair_inv R1.
  bind_inv H as g1 t3 w3 R2. unfold lift in R2. pair_inv R2.
  bind_inv H as u1 t4 w4 R3. unfold modify in R3. pair_inv R3.
  bind_inv H as g2 t5 w5 R4. unfold lift in R4. pair_inv R4.
  bind_inv H as u2 t6 w6 R5. unfold modify in R5. pair_inv R5.
  unfold modify in H. pair_inv H.
  match goal with
  | H1 : touch_node u _ = inr _, H2 : touch_node v _ = inr _ |- _ =>
      apply touch_node_run in H1 as [Hu E1];
      apply touch_node_run in H2 as [Hv E2]
  end.
  repeat split; auto. simpl. now rewrite E2, E1.
Qed.





Lemma dict_get_set {V} (k k' : value) (v : V) (d : dict V) :
  dict_get k' (dict_set k v d)
  = if key_eqb k k' then Some v else dict_get k' d.
Proof.
  induction d as [|[k0 v0] d IH]; simpl; [reflexivity|].
  destruct (key_eqb k0 k) eqn:E0; simpl.
  - destruct (key_eqb k k') eqn:E1.
    + now rewrite (key_eqb_trans _ _ _ E0 E1).
    + destruct (key_eqb k0 k') eqn:E2; [|reflexivity].
      rewrite key_eqb_sym in E0.
      rewrite (key_eqb_trans _ _ _ E0 E2) in E1. discriminate.
  - rewrite IH. destruct (key_eqb k0 k') eqn:E2; [|reflexivity].
    destruct (key_eqb k k') eqn:E1; [|reflexivity].
    rewrite key_eqb_sym in E1.
    rewrite (key_eqb_trans _ _ _ E2 E1) in E0. discriminate.
Qed.

Lemma dict_get_some_refl {V} (k : value) (v : V) (d : dict V) :
  dict_get k d = Some v -> key_eqb k k = true.
Proof.
  induction d as [|[k0 v0] d IH]; simpl; [discriminate|].
  destruct (key_eqb k0 k) eqn:E; [|exact IH].
  intros _. eapply key_eqb_trans; [|exact E]. now rewrite key_eqb_sym.
Qed.

Lemma assign_color_run colors server t w t1 w1 :
  assign_color colors server t w = (inr tt, t1, w1) ->
  exists c st st',
    dict_get server colors = Some c /\
    dict_get server (cacheMemoryDict t) = Some st /\
    setServerColor st c = inr st' /\
    t1 = set_cacheMemoryDict (dict_set server st' (cacheMemoryDict t)) t /\
    w1 = set_log (log w ++ [EvSetServerColor server c]) w.
Proof.
  unfold assign_color. intros H. mrun.
  destruct (dict_get server colors) as [c|]; [|discriminate].
  destruct (dict_get server (cacheMemoryDict t)) as [st|]; [|discriminate].
  destruct (setServerColor st c) as [e|st'] eqn:Es; [discriminate|].
  pair_inv H. exists c, st, st'. auto.
Qed.

Lemma assign_loop colors ks :
  forall t w t1 w1,
    forM (assign_color colors) ks t w = (inr tt, t1, w1) ->
    distinct_keys ks = true ->
    (forall server, In server ks ->
       exists c st st',
         dict_get server colors = Some c /\
         dict_get server (cacheMemoryDict t) = Some st /\
         setServerColor st c = inr st' /\
         dict_get server (cacheMemoryDict t1) = Some st') /\
    (forall s, existsb (fun k => key_eqb k s) ks = false ->
               dict_get s (cacheMemoryDict t1) = dict_get s (cacheMemoryDict t)) /\
    log w1 = log w ++
             map (fun s => EvSetServerColor s
                             (match dict_get s colors with
                              | Some c => c
                              | None => VNone
                              end)) ks.
Proof.
  unfold forM.
  induction ks as [|k ks IH]; intros t w t1 w1 H Hd; simpl in H.
  - unfold ret in H. pair_inv H. simpl. rewrite app_nil_r.
    repeat split; auto. intros s [].
  - bind_inv H as u t2 w2 R. destruct u.
    apply assign_color_run in R as (c & st & st' & Hc & Hst & Hs & -> & ->).
    simpl in Hd. apply andb_true_iff in Hd as [Hk Hd].
    apply negb_true_iff in Hk.
    destruct (IH _ _ _ _ H Hd) as (IH1 & IH2 & IH3). clear IH.
    cbn [cacheMemoryDict set_cacheMemoryDict] in *.
    repeat split.
    + intros server [<-|Hin].
      * exists c, st, st'. repeat split; auto.
        rewrite IH2.
        -- rewrite dict_get_set.
           now rewrite (dict_get_some_refl _ _ _ Hst).
        -- clear -Hk. induction ks as [|x ks IH]; simpl in *; auto.
           apply orb_false_iff in Hk as [H1 H2].
           rewrite key_eqb_sym, H1. simpl. now apply IH.
      * destruct (IH1 _ Hin) as (c' & st0 & st0' & A & B & C & D).
        rewrite dict_get_set in B.
        assert (Ek : key_eqb k server = false).
        { clear -Hk Hin. induction ks as [|x ks IH]; simpl in *; [contradiction|].
          apply orb_false_iff in Hk as [H1 H2].
          destruct Hin as [->|Hin]; auto. }
        rewrite Ek in B. exists c', st0, st0'. auto.
    + intros s Hs'. simpl in Hs'. apply orb_false_iff in Hs' as [H1 H2].
      rewrite IH2 by exact H2. rewrite dict_get_set. now rewrite H1.
    + rewrite IH3. simpl. rewrite Hc. now rewrite <- app_assoc.
Qed.

Lemma run_coloring_run t w u t1 w1 :
  run_coloring t w = (inr u, t1, w1) ->
  exists routes colors r',
    getColoringInfo (graph t) (colorList t) (rng w) = (inr (routes, colors), r') /\
    t1 = set_serverToColorMap colors (set_colorRouteInfo routes t) /\
    w1 = set_rng r' (set_log (log w ++ [EvColoring]) w).
Proof.
  unfold run_coloring. intros H. mrun.
  cbn [rng set_log] in H.
  destruct (getColoringInfo (graph t) (colorList t) (rng w))
    as [[e|[routes colors]] r'] eqn:E; mrun; [discriminate|].
  pair_inv H. exists routes, colors, r'. auto.
Qed.

Lemma colour_phase t w u t1 w1 t2 w2 routes colors r' :
  run_coloring t w = (inr u, t1, w1) ->
  assignColorForCacheMemory t1 w1 = (inr tt, t2, w2) ->
  getColoringInfo (graph t) (colorList t) (rng w) = (inr (routes, colors), r') ->
  distinct_keys (dict_keys colors) = true ->
  colorRouteInfo t2 = Some routes /\
  serverToColorMap t2 = colors /\
  configDirPath t2 = configDirPath t /\
  (forall server, In server (dict_keys colors) ->
     exists c st st',
       dict_get server colors = Some c /\
       dict_get server (cacheMemoryDict t) = Some st /\
       setServerColor st c = inr st' /\
       dict_get server (cacheMemoryDict t2) = Some st') /\
  (forall s, existsb (fun k => key_eqb k s) (dict_keys colors) = false ->
             dict_get s (cacheMemoryDict t2) = dict_get s (cacheMemoryDict t)) /\
  log w2 = log w ++ EvColoring :: colour_calls colors /\
  files w2 = files w /\ handles w2 = handles w /\ disk w2 = disk w.
Proof.
  intros H1 H2 Hc Hd.
  apply run_coloring_run in H1 as (routes0 & colors0 & r0 & Hc0 & -> & ->).
  rewrite Hc in Hc0. inversion Hc0; subst routes0 colors0 r0. clear Hc0.
  assert (Kr : keeps colorRouteInfo assignColorForCacheMemory) by frame.
  assert (Ks : keeps serverToColorMap assignColorForCacheMemory) by frame.
  assert (Kd : keeps configDirPath assignColorForCacheMemory) by frame.
  assert (Lf : leaves files assignColorForCacheMemory) by world_frame.
  assert (Lh : leaves handles assignColorForCacheMemory) by world_frame.
  assert (Ld : leaves disk assignColorForCacheMemory) by world_frame.
  match type of H2 with
  | ?m ?t ?w = _ =>
      specialize (Kr t w); specialize (Ks t w); specialize (Kd t w);
      specialize (Lf t w); specialize (Lh t w); specialize (Ld t w);
      rewrite H2 in Kr, Ks, Kd, Lf, Lh, Ld
  end.
  unfold self_after, world_after in *. cbn [fst snd] in *.
  unfold assignColorForCacheMemory in H2.
  bind_inv H2 as cs t3 w3 R. unfold gets in R. pair_inv R.
  cbn [serverToColorMap set_serverToColorMap] in H2.
  destruct (assign_loop _ _ _ _ _ _ H2 Hd) as (A & B & C).
  repeat split; auto.
  rewrite C. simpl. now rewrite <- app_assoc.
Qed.

Lemma save_routes_ok t w t' w' :
  saveNearestColorServerInfo t w = (inr tt, t', w') ->
  exists routes,
    colorRouteInfo t = Some routes /\ t' = t /\
    files w'
    = set_file (nearestColor_path (configDirPath t)) (pickle_routes routes)
        (set_file (nearestColor_path (configDirPath t)) [] (files w)) /\
    log w' = log w ++ [EvOpen (nearestColor_path (configDirPath t));
                       EvDump (nearestColor_path (configDirPath t));
                       EvClose (nearestColor_path (configDirPath t))].
Proof.
  unfold saveNearestColorServerInfo, dump_to. intros H. mrun.
  destruct (hd IoOk (disk w)); cbv beta iota in H;
    try discriminate;
    (destruct (colorRouteInfo t) as [routes|]; cbv beta iota in H;
     [| discriminate]); try discriminate.
  pair_inv H. exists routes. repeat split; auto.
  simpl. now rewrite <- !app_assoc.
Qed.

Lemma save_cache_ok t w t' w' :
  saveCacheDict t w = (inr tt, t', w') ->
  t' = t /\
  files w'
  = set_file (cacheDict_path (configDirPath t) (parallel_idx t))
      (pickle_cache (cacheMemoryDict t))
      (set_file (cacheDict_path (configDirPath t) (parallel_idx t)) []
         (files w)) /\
  log w' = log w ++ [EvOpen (cacheDict_path (configDirPath t) (parallel_idx t));
                     EvDump (cacheDict_path (configDirPath t) (parallel_idx t));
                     EvClose (cacheDict_path (configDirPath t) (parallel_idx t))].
Proof.
  unfold saveCacheDict, dump_to. intros H. mrun.
  destruct (hd IoOk (disk w)); cbv beta iota in H; try discriminate.
  pair_inv H. repeat split; auto.
  simpl. now rewrite <- !app_assoc.
Qed.

Lemma warmUp_colored_modes t w :
  eq_str (mode t) "no-cache" = false ->
  eq_str (mode t) "no-color" = false ->
  warmUp t w =
  (if eq_str (mode t) "tag-color"
   then run_coloring ;;; assignColorForCacheMemory
   else run_coloring ;;; assignColorForCacheMemory ;;;
        saveNearestColorServerInfo) t w.
Proof. intros H1 H2. rewrite warmUp_by_mode, H1, H2. reflexivity. Qed.

Lemma colored_warmUp_returns t w t' w' routes colors r' :
  eq_str (mode t) "no-cache" = false ->
  eq_str (mode t) "no-color" = false ->
  getColoringInfo (graph t) (colorList t) (rng w) = (inr (routes, colors), r') ->
  distinct_keys (dict_keys colors) = true ->
  warmUp t w = (inr tt, t', w') ->
  serverToColorMap t' = colors /\
  colorRouteInfo t' = Some routes /\
  (forall server, In server (dict_keys colors) ->
     exists c st st',
       dict_get server colors = Some c /\
       dict_get server (cacheMemoryDict t) = Some st /\
       setServerColor st c = inr st' /\
       dict_get server (cacheMemoryDict t') = Some st') /\
  let p := nearestColor_path (configDirPath t) in
  if eq_str (mode t) "tag-color"
  then files w' = files w /\
       log w' = log w ++ EvColoring :: colour_calls colors
  else assoc p (files w') = Some (pickle_routes routes) /\
       (forall q, q <> p -> assoc q (files w') = assoc q (files w)) /\
       log w' = log w ++ EvColoring :: colour_calls colors
                      ++ [EvOpen p; EvDump p; EvClose p].
Proof.
  intros Hc Hn Hg Hd H.
  rewrite (warmUp_colored_modes t w Hc Hn) in H.
  destruct (eq_str (mode t) "tag-color").
  - bind_inv H as u t1 w1 R1.
    destruct (colour_phase _ _ _ _ _ _ _ _ _ _ R1 H Hg Hd)
      as (A & B & C & D & E & F & G & _).
    repeat split; auto.
  - bind_inv H as u t1 w1 R1. bind_inv H as u2 t2 w2 R2. destruct u2.
    destruct (colour_phase _ _ _ _ _ _ _ _ _ _ R1 R2 Hg Hd)
      as (A & B & C & D & E & F & G & _).
    apply save_routes_ok in H as (routes' & Hr & -> & Hf & Hl).
    rewrite A in Hr. inversion Hr; subst routes'. rewrite C in Hf, Hl.
    repeat split; auto.
    + rewrite Hf. apply assoc_set_file_same.
    + intros q Hq. rewrite Hf, !assoc_set_file_other by exact Hq.
      now rewrite G.
    + rewrite Hl, F. now rewrite <- app_assoc.
Qed.

(** C3. In a colouring mode (neither "no-cache" nor "no-color"):
    in mode "tag-color" [warmUp] never touches a file, however it ends.
    When [warmUp] returns, the colour map and the routing table are the
    ones the colouring engine produced, and every coloured node's store
    is the one [setServerColor] made of it.  In mode "tag-color" that is
    all: the files are unchanged and the only calls are the colouring and
    the colour setters, so no request is drawn or routed.  In every other
    colouring mode the same calls are followed by the write of the
    nearest-colour table, and the table's file holds its pickle. *)
Theorem warmUp_colours_then_persists (t : NetTopology) (w : World) :
  eq_str (mode t) "no-cache" = false ->
  eq_str (mode t) "no-color" = false ->
  (eq_str (mode t) "tag-color" = true ->
   files (world_after (warmUp t w)) = files w) /\
  (forall t' w' routes colors r',
     getColoringInfo (graph t) (colorList t) (rng w)
     = (inr (routes, colors), r') ->
     distinct_keys (dict_keys colors) = true ->
     warmUp t w = (inr tt, t', w') ->
     serverToColorMap t' = colors /\
     colorRouteInfo t' = Some routes /\
     (forall server, In server (dict_keys colors) ->
        exists c st st',
          dict_get server colors = Some c /\
          dict_get server (cacheMemoryDict t) = Some st /\
          setServerColor st c = inr st' /\
          dict_get server (cacheMemoryDict t') = Some st') /\
     let p := nearestColor_path (configDirPath t) in
     if eq_str (mode t) "tag-color"
     then files w' = files w /\
          log w' = log w ++ EvColoring :: colour_calls colors
     else assoc p (files w') = Some (pickle_routes routes) /\
          (forall q, q <> p -> assoc q (files w') = assoc q (files w)) /\
          log w' = log w ++ EvColoring :: colour_calls colors
                         ++ [EvOpen p; EvDump p; EvClose p]).
Proof.
  intros Hc Hn. split.
  - intros Ht. rewrite (warmUp_colored_modes t w Hc Hn), Ht.
    assert (L : leaves files (run_coloring ;;; assignColorForCacheMemory))
      by world_frame.
    apply L.
  - intros t' w' routes colors r' Hg Hd H.
    exact (colored_warmUp_returns _ _ _ _ _ _ _ Hc Hn Hg Hd H).
Qed.

(** C10. In a colouring mode, once the colouring engine has produced
    its colour map: when [warmUp] returns, every node of the map had a
    store in the router-to-store mapping, [setServerColor] accepted that
    store, and the call is in the log; and when some node of the map has
    no store, or a store that [setServerColor] rejects, [warmUp]
    raises. *)
Theorem warmUp_colouring_needs_stores (t : NetTopology) (w : World)
  (routes : RouteInfo) (colors : dict value) (r' : Rng) :
  eq_str (mode t) "no-cache" = false ->
  eq_str (mode t) "no-color" = false ->
  getColoringInfo (graph t) (colorList t) (rng w) = (inr (routes, colors), r') ->
  distinct_keys (dict_keys colors) = true ->
  (forall t' w',
     warmUp t w = (inr tt, t', w') ->
     forall server, In server (dict_keys colors) ->
       exists c st st',
         dict_get server colors = Some c /\
         dict_get server (cacheMemoryDict t) = Some st /\
         setServerColor st c = inr st' /\
         In (EvSetServerColor server c) (log w')) /\
  (forall server,
     In server (dict_keys colors) ->
     dict_get server (cacheMemoryDict t) = None \/
     (exists c st e,
        dict_get server colors = Some c /\
        dict_get server (cacheMemoryDict t) = Some st /\
        setServerColor st c = inl e) ->
     exists e, result (warmUp t w) = inl e).
Proof.
  intros Hc Hn Hg Hd.
  assert (Hok : forall t' w',
             warmUp t w = (inr tt, t', w') ->
             forall server, In server (dict_keys colors) ->
               exists c st st',
                 dict_get server colors = Some c /\
                 dict_get server (cacheMemoryDict t) = Some st /\
                 setServerColor st c = inr st' /\
                 In (EvSetServerColor server c) (log w')).
  { intros t' w' H server Hin.
    destruct (colored_warmUp_returns _ _ _ _ _ _ _ Hc Hn Hg Hd H)
      as (_ & _ & Htag & Hlog).
    destruct (Htag _ Hin) as (c & st & st' & A & B & C & _).
    exists c, st, st'. repeat split; auto.
    assert (Hcall : In (EvSetServerColor server c) (colour_calls colors)).
    { unfold colour_calls. apply in_map_iff. exists server.
      rewrite A. auto. }
    cbv zeta in Hlog.
    destruct (eq_str (mode t) "tag-color").
    - destruct Hlog as [_ ->]. apply in_or_app. right. right. exact Hcall.
    - destruct Hlog as (_ & _ & ->). apply in_or_app. right. right.
      apply in_or_app. left. exact Hcall. }
  split; [exact Hok|].
  intros server Hin Hbad.
  destruct (warmUp t w) as [[[e|[]] t'] w'] eqn:Hw; [exists e; reflexivity|].
  exfalso.
  destruct (Hok _ _ eq_refl _ Hin) as (c & st & st' & A & B & C & _).
  destruct Hbad as [Hnone | (c' & st0 & e & A' & B' & C')]; [congruence|].
  rewrite A in A'. inversion A'; subst c'.
  rewrite B in B'. inversion B'; subst st0. congruence.
Qed.

(** ** The snapshot's file name *)

Lemma append_cancel_l (s a b : string) : (s ++ a = s ++ b)%string -> a = b.
Proof.
  induction s as [|c s IH]; simpl; intros H; [exact H|].
  inversion H. auto.
Qed.

Lemma append_length (a b : string) :
  String.length (a ++ b) = (String.length a + String.length b)%nat.
Proof. induction a as [|c a IH]; simpl; auto. Qed.

Lemma append_cancel_r (a b s : string) : (a ++ s = b ++ s)%string -> a = b.
Proof.
  revert b. induction a as [|c a IH]; intros [|d b] H; simpl in *.
  - reflexivity.
  - apply (f_equal String.length) in H. simpl in H.
    rewrite append_length in H. lia.
  - apply (f_equal String.length) in H. simpl in H.
    rewrite append_length in H. lia.
  - inversion H. f_equal. auto.
Qed.

Lemma str_of_int_inj i j : str_of_int i = str_of_int j -> i = j.
Proof.
  unfold str_of_int. intros H.
  apply (f_equal NilEmpty.int_of_string) in H.
  rewrite !NilEmpty.isi in H. inversion H as [H'].
  apply (f_equal Z.of_int) in H'. now rewrite !DecimalZ.of_to in H'.
Qed.

(** Different run indices name different snapshot files. *)
Lemma cacheDict_path_inj dir i j :
  cacheDict_path dir i = cacheDict_path dir j -> i = j.
Proof.
  unfold cacheDict_path, path_join. intros H.
  apply str_of_int_inj.
  assert (E : ("cacheDict" ++ str_of_int i ++ ".pkl"
               = "cacheDict" ++ str_of_int j ++ ".pkl")%string).
  { destruct dir as [|c dir]; [exact H|].
    destruct (ends_with_slash (String c dir)).
    - eapply append_cancel_l. exact H.
    - apply append_cancel_l in H. eapply (append_cancel_l "/"). exact H. }
  apply append_cancel_l in E. eapply append_cancel_r. exact E.
Qed.

(** ** Mode "no-color" *)

Lemma eq_str_true v s : eq_str v s = true -> v = VStr s.
Proof.
  destruct v; simpl; try discriminate. intros H.
  apply String.eqb_eq in H. now subst.
Qed.










(** ** Two runs from the same configuration *)

Lemma same_colours_caches t1 t2 : same_colours t1 t2 -> same_caches t1 t2.
Proof. intros [H _]. exact H. Qed.

Ltac rel_side :=
  intros;
  unfold same_colours, same_caches, same_inputs, same_seed in *;
  simpl;
  repeat match goal with
         | H : _ /\ _ |- _ => destruct H
         end;
  repeat split; congruence.

Section Related.
Context (P : NetTopology -> NetTopology -> Prop).
Hypothesis P_caches : forall t1 t2, P t1 t2 -> same_caches t1 t2.

Lemma rel_ret {A} (a : A) : related P P (ret a).
Proof. intros t1 w1 t2 w2 HP Hw. simpl. auto. Qed.

Lemma rel_throw {A} Q e : related P Q (@throw _ A e).
Proof. intros t1 w1 t2 w2 HP Hw. simpl. auto. Qed.

Lemma rel_lift {A} (r : res A) : related P P (lift r).
Proof.
  intros t1 w1 t2 w2 HP Hw. unfold lift, result, self_after, world_after.
  simpl. destruct r; auto.
Qed.

Lemma rel_gets {A} (f : NetTopology -> A) :
  (forall t1 t2, P t1 t2 -> f t1 = f t2) -> related P P (gets f).
Proof.
  intros Hf t1 w1 t2 w2 HP Hw. unfold gets, result, ok. simpl.
  rewrite (Hf _ _ HP). auto.
Qed.

Lemma rel_attr {A} (f : NetTopology -> option A) name :
  (forall t1 t2, P t1 t2 -> f t1 = f t2) -> related P P (attr f name).
Proof.
  intros Hf t1 w1 t2 w2 HP Hw. unfold attr. rewrite (Hf _ _ HP).
  unfold result, self_after, world_after.
  destruct (f t2); simpl; auto.
Qed.

Lemma rel_modify Q g :
  (forall t1 t2, P t1 t2 -> Q (g t1) (g t2)) -> related P Q (modify g).
Proof.
  intros Hg t1 w1 t2 w2 HP Hw. unfold modify, result, self_after, world_after.
  simpl. auto.
Qed.

Lemma rel_world_gets {A} (f : World -> A) :
  (forall w1 w2, same_seed w1 w2 -> f w1 = f w2) -> related P P (world_gets f).
Proof.
  intros Hf t1 w1 t2 w2 HP Hw. unfold world_gets, result, ok. simpl.
  rewrite (Hf _ _ Hw). auto.
Qed.

Lemma rel_world_modify g :
  (forall w1 w2, same_seed w1 w2 -> same_seed (g w1) (g w2)) ->
  related P P (world_modify g).
Proof.
  intros Hg t1 w1 t2 w2 HP Hw.
  unfold world_modify, result, self_after, world_after. simpl. auto.
Qed.

Lemma rel_emit e : related P P (emit e).
Proof. apply rel_world_modify. rel_side. Qed.

End Related.

Lemma rel_bind {A B} P Q S (m : M A) (k : A -> M B) :
  related P Q m -> (forall a, related Q S (k a)) -> related P S (bind m k).
Proof.
  intros Hm Hk t1 w1 t2 w2 HP Hw.
  destruct (Hm _ _ _ _ HP Hw) as (Hr & Hs & Hq).
  unfold bind, result, self_after, world_after in *.
  destruct (m t1 w1) as [[[e1|a1] t1'] w1'], (m t2 w2) as [[[e2|a2] t2'] w2'];
    simpl in *; try discriminate.
  - inversion Hr; subst e2. split; [reflexivity | split; assumption].
  - inversion Hr; subst a2. exact (Hk a1 _ _ _ _ Hq Hs).
Qed.

Lemma rel_weaken {A} P Q Q' (m : M A) :
  related P Q m -> (forall t1 t2, Q t1 t2 -> Q' t1 t2) -> related P Q' m.
Proof.
  intros Hm Hq t1 w1 t2 w2 HP Hw.
  destruct (Hm _ _ _ _ HP Hw) as (Hr & Hs & H).
  split; [exact Hr | split; [exact Hs|]].
  destruct (result (m t1 w1)); auto.
Qed.

Lemma rel_foldM {A B} P (step : B -> A -> M B) l :
  (forall b a, related P P (step b a)) -> forall b, related P P (foldM step b l).
Proof.
  intros Hs. induction l as [|a l IH]; intros b; simpl.
  - intros t1 w1 t2 w2 HP Hw. unfold ret, result, self_after, world_after.
    simpl. auto.
  - eapply rel_bind; [apply Hs | intros; apply IH].
Qed.

Lemma rel_forM {A} P (step : A -> M unit) l :
  (forall a, related P P (step a)) -> related P P (forM step l).
Proof. intros Hs. unfold forM. apply rel_foldM. intros; apply Hs. Qed.

(** A clean-up that only touches the world runs the same way whatever
    relates the instances. *)
Lemma rel_finally {A} P Q (m : M A) (c : M unit) :
  related P Q m ->
  (forall X, related X X c) ->
  related P Q (finally m c).
Proof.
  intros Hm Hc t1 w1 t2 w2 HP Hw.
  destruct (Hm _ _ _ _ HP Hw) as (Hr & Hs & Hq).
  unfold finally, result, self_after, world_after in *.
  destruct (m t1 w1) as [[r1 t1'] w1'], (m t2 w2) as [[r2 t2'] w2'];
    simpl in *. subst r2.
  destruct r1 as [e|a].
  - destruct (Hc same_caches _ _ _ _ Hq Hs) as (Cr & Cs & Cq).
    unfold result, self_after, world_after in *.
    destruct (c t1' w1') as [[[e1|u1] t1''] w1''],
             (c t2' w2') as [[[e2|u2] t2''] w2'']; simpl in *;
      try discriminate; inversion Cr; subst;
      (split; [reflexivity | split; assumption]).
  - destruct (Hc Q _ _ _ _ Hq Hs) as (Cr & Cs & Cq).
    unfold result, self_after, world_after in *.
    destruct (c t1' w1') as [[[e1|u1] t1''] w1''],
             (c t2' w2') as [[[e2|u2] t2''] w2'']; simpl in *;
      try discriminate; inversion Cr; subst;
      (split; [reflexivity | split; assumption]).
Qed.

Ltac rel_caches :=
  first [ exact same_colours_caches
        | let H := fresh in intros ? ? H; exact H ].

Ltac rel_step :=
  match goal with
  | |- related _ _ (bind _ _) => eapply rel_bind; [| intros]
  | |- related _ _ (ret _) => apply rel_ret
  | |- related _ _ (throw _) => apply rel_throw; rel_caches
  | |- related _ _ (lift _) => apply rel_lift; rel_caches
  | |- related _ _ (gets _) => apply rel_gets; rel_side
  | |- related _ _ (attr _ _) => apply rel_attr; [rel_caches | rel_side]
  | |- related ?P _ (modify _) => apply (rel_modify P P); rel_side
  | |- related _ _ (world_gets _) => apply rel_world_gets; rel_side
  | |- related _ _ (emit _) => apply rel_emit
  | |- related _ _ (world_modify _) => apply rel_world_modify; rel_side
  | |- related _ _ (foldM _ _ _) => apply rel_foldM; intros
  | |- related _ _ (forM _ _) => apply rel_forM; intros
  | |- related _ _ (finally _ _) => apply rel_finally; [| intros]
  | |- related _ _ (if ?b then _ else _) => destruct b
  | |- related _ _ (match ?x with _ => _ end) => destruct x
  end.

Ltac rel_auto :=
  repeat first
    [ rel_step
    | progress unfold reconfig_stores, reconfig_router, alloc_store, set_cache,
        warm_request, route_warm_up, assignColorForCacheMemory, assign_color,
        saveCacheDict, saveNearestColorServerInfo, dump_to ].

Lemma rel_reconfig_stores sizes :
  related same_caches same_caches (reconfig_stores sizes).
Proof. rel_auto. Qed.

Lemma rel_no_color :
  related same_caches same_caches
    (clients <- attr clientIds "clientIds" ;;
     warmUpReqDict <- foldM warm_request [] clients ;;
     route_warm_up warmUpReqDict ;;;
     saveCacheDict).
Proof. rel_auto. Qed.

Lemma rel_assign :
  related same_colours same_colours assignColorForCacheMemory.
Proof. rel_auto. Qed.

Lemma rel_save_routes :
  related same_colours same_colours saveNearestColorServerInfo.
Proof. rel_auto. Qed.

Lemma rel_run_coloring : related same_caches same_colours run_coloring.
Proof.
  intros t1 w1 t2 w2 HP Hw.
  assert (Hg : graph t1 = graph t2) by (revert HP; rel_side).
  assert (Hl : colorList t1 = colorList t2) by (revert HP; rel_side).
  assert (Hr : rng w1 = rng w2) by (revert Hw; rel_side).
  unfold run_coloring. mrun. cbn [rng set_log].
  rewrite Hg, Hl, Hr.
  destruct (getColoringInfo (graph t2) (colorList t2) (rng w2))
    as [[e|[routes colors]] r']; cbv beta iota;
    unfold result, self_after, world_after; simpl;
    (split; [reflexivity | split; [revert Hw | revert HP]; rel_side]).
Qed.

Lemma rel_warmUp : related same_caches same_caches warmUp.
Proof.
  unfold warmUp. eapply rel_bind; [apply rel_gets; rel_side | intros m].
  destruct (eq_str m "no-cache"); [apply rel_ret|].
  destruct (eq_str m "no-color"); [apply rel_no_color|].
  destruct (eq_str m "tag-color").
  - eapply rel_weaken; [|exact same_colours_caches].
    eapply rel_bind; [apply rel_run_coloring | intros; apply rel_assign].
  - eapply rel_weaken; [|exact same_colours_caches].
    eapply rel_bind; [apply rel_run_coloring | intros].
    eapply rel_bind; [apply rel_assign | intros; apply rel_save_routes].
Qed.

Lemma reconfig_after_reset sizes idx t w :
  reconfig sizes idx t w
  = (reconfig_stores sizes ;;; warmUp)
      (set_parallel_idx idx (set_cacheMemoryDict [] t)) w.
Proof. reflexivity. Qed.

(** X20. [reconfig] reads nothing that earlier runs left behind.  Take
    two instances that agree on what [__init__] and [build] set (the
    configuration, the directory, the graph, the mode, the colour list,
    the file size, the warm-up count, [alpha], the client list and the
    content generator) and two worlds that agree on the state of the
    random generators and on the answers of the file system; their
    stores, run index, colour map, route table, files and log may
    differ.  Then [reconfig] with the same arguments ends the same way in
    both, with the same stores, content generator and random state.  The
    functions of the absent modules are functions of their arguments and
    of the random state here, as everywhere in this development. *)
Theorem reconfig_forgets_earlier_runs
  (cacheSizeList : list value) (run_index : Z)
  (t1 t2 : NetTopology) (w1 w2 : World) :
  same_inputs t1 t2 ->
  same_seed w1 w2 ->
  let o1 := reconfig cacheSizeList run_index t1 w1 in
  let o2 := reconfig cacheSizeList run_index t2 w2 in
  result o1 = result o2 /\
  cacheMemoryDict (self_after o1) = cacheMemoryDict (self_after o2) /\
  contentGenerator (self_after o1) = contentGenerator (self_after o2) /\
  rng (world_after o1) = rng (world_after o2).
Proof.
  intros Ht Hw. cbv zeta. rewrite !reconfig_after_reset.
  assert (R : related same_caches same_caches
                (reconfig_stores cacheSizeList ;;; warmUp)).
  { eapply rel_bind; [apply rel_reconfig_stores | intros; apply rel_warmUp]. }
  assert (H0 : same_caches
                 (set_parallel_idx run_index (set_cacheMemoryDict [] t1))
                 (set_parallel_idx run_index (set_cacheMemoryDict [] t2)))
    by (revert Ht; rel_side).
  destruct (R _ _ _ _ H0 Hw) as (Hr & Hs & Hq).
  split; [exact Hr|].
  assert (Hc : same_caches
                 (self_after ((reconfig_stores cacheSizeList ;;; warmUp)
                    (set_parallel_idx run_index (set_cacheMemoryDict [] t1)) w1))
                 (self_after ((reconfig_stores cacheSizeList ;;; warmUp)
                    (set_parallel_idx run_index (set_cacheMemoryDict [] t2)) w2)))
    by (destruct (result _); exact Hq).
  revert Hc Hs. rel_side.
Qed.

(** * Further properties of the class *)

(** ** What [reconfig] leaves alone *)

Ltac frame_reconfig :=
  repeat first
    [ keeps_step
    | apply keeps_saveCacheDict
    | apply keeps_saveNearestColorServerInfo
    | progress unfold reconfig, reconfig_alloc, reconfig_stores,
        reconfig_router, warmUp, alloc_store, set_cache, warm_request,
        route_warm_up, run_coloring, assignColorForCacheMemory, assign_color ].

(** X1. [reconfig], whether it returns or raises and in every mode,
    assigns none of the attributes that describe the topology: the graph,
    the configuration, the directory, the mode, the three id lists and
    [alpha] are afterwards what they were. *)
Theorem reconfig_keeps_topology (cacheSizeList : list value) (run_index : Z) :
  keeps graph (reconfig cacheSizeList run_index) /\
  keeps networkInfo (reconfig cacheSizeList run_index) /\
  keeps configDirPath (reconfig cacheSizeList run_index) /\
  keeps mode (reconfig cacheSizeList run_index) /\
  keeps routerIds (reconfig cacheSizeList run_index) /\
  keeps clientIds (reconfig cacheSizeList run_index) /\
  keeps tempClientIds (reconfig cacheSizeList run_index) /\
  keeps alpha (reconfig cacheSizeList run_index).
Proof. repeat split; frame_reconfig. Qed.

(** ** A colouring engine that fails *)

(** X2. In a colouring mode, when the colouring engine raises, [warmUp]
    raises the same error and the instance is exactly as before: colour
    map, routing table and stores keep their old values, and no file is
    touched; only the call is logged and the generator state moves on. *)
Theorem warmUp_colouring_failure (t : NetTopology) (w : World)
  (e : exn) (r' : Rng) :
  eq_str (mode t) "no-cache" = false ->
  eq_str (mode t) "no-color" = false ->
  getColoringInfo (graph t) (colorList t) (rng w) = (inl e, r') ->
  warmUp t w = (inl e, t, set_rng r' (set_log (log w ++ [EvColoring]) w)).
Proof.
  intros Hc Hn Hg. rewrite (warmUp_colored_modes t w Hc Hn).
  assert (Hr : run_coloring t w
               = (inl e, t, set_rng r' (set_log (log w ++ [EvColoring]) w))).
  { unfold run_coloring. mrun. cbn [rng set_log]. rewrite Hg. reflexivity. }
  destruct (eq_str (mode t) "tag-color"); unfold bind at 1; now rewrite Hr.
Qed.

(** ** Request models *)

(** X3. A configuration whose [RequestModels] block has none of "custom",
    "gamma" and "zipf" makes [build] raise [UnboundLocalError]: the
    variable [dist] is never assigned.  No content generator has been
    made at that point. *)
Theorem build_without_request_model (t : NetTopology) (w : World)
  (s : option Sampler) (fs models : value) :
  select_sampler (networkInfo t) = inr s ->
  getitem (networkInfo t) "FileSize" = inr fs ->
  getitem (networkInfo t) "RequestModels" = inr models ->
  contains "custom" models = inr false ->
  contains "gamma" models = inr false ->
  contains "zipf" models = inr false ->
  result (build t w) = inl (UnboundLocalError "dist") /\
  contentGenerator (self_after (build t w)) = contentGenerator t.
Proof.
  intros Hs Hf Hm Hc Hg Hz.
  assert (E : build t w
              = (inl (UnboundLocalError "dist"),
                 set_tempClientIds [VStr "mainClone"]
                   (set_routerIds []
                      (set_clientIds [] (set_cacheMemoryDict [] t))),
                 set_log (log w ++ [EvPrint "*** Processing content list"]) w)).
  { unfold build. unfold bind at 1. rewrite build_reset_run.
    unfold bind at 1, gets. cbv beta iota.
    unfold bind at 1, lift. cbn [networkInfo set_tempClientIds set_routerIds
      set_clientIds set_cacheMemoryDict]. unfold ok. cbv beta iota. rewrite Hs.
    cbv beta iota. unfold bind at 1. unfold build_content. mrun.
    cbn [networkInfo set_tempClientIds set_routerIds set_clientIds
           set_cacheMemoryDict].
    rewrite Hf. cbv beta iota. rewrite Hm. cbv beta iota.
    rewrite Hc. cbv beta iota. simpl negb. cbv beta iota.
    rewrite Hg. cbv beta iota. rewrite Hz. cbv beta iota.
    reflexivity. }
  rewrite E. split; reflexivity.
Qed.

(** ** [reconfig] and the capacity list *)

Lemma reconfig_untyped_prefix sizes pre :
  forall idx rest t w,
    (forall p, In p pre -> contains "type" p = inr false) ->
    foldM (reconfig_router sizes) idx (pre ++ rest) t w
    = foldM (reconfig_router sizes) idx rest t w.
Proof.
  induction pre as [|p pre IH]; intros idx rest t w Hp; simpl; [reflexivity|].
  unfold bind at 1. unfold reconfig_router at 1.
  rewrite (Hp p (or_introl eq_refl)). mrun.
  apply IH. intros q Hq. apply Hp. now right.
Qed.

(** X4. [alpha] is created by [build], not by [__init__].  On an instance
    that has no [alpha], [reconfig] raises [AttributeError] at the first
    router that has a "type" entry (with an ID and a capacity at position
    0 that [float] accepts); [warmUp] is not reached. *)
Theorem reconfig_before_build (t : NetTopology) (w : World)
  (cacheSizeList : list value) (run_index : Z)
  (entry : value) (pre post : list value) (r id size : value) (f : float) :
  alpha t = None ->
  getitem (networkInfo t) "Routers" = inr entry ->
  iter entry = inr (pre ++ r :: post) ->
  (forall p, In p pre -> contains "type" p = inr false) ->
  contains "type" r = inr true ->
  getitem r "ID" = inr id ->
  nth_error cacheSizeList 0 = Some size ->
  py_float size = inr f ->
  reconfig cacheSizeList run_index t w
  = (inl (AttributeError "alpha"),
     set_parallel_idx run_index (set_cacheMemoryDict [] t), w).
Proof.
  intros Ha Hr Hi Hp Ht Hid Hn Hf.
  rewrite reconfig_after_reset. unfold bind at 1.
  unfold reconfig_stores. mrun.
  cbn [networkInfo set_parallel_idx set_cacheMemoryDict].
  rewrite Hr. cbv beta iota. rewrite Hi. cbv beta iota.
  rewrite reconfig_untyped_prefix by exact Hp.
  simpl foldM. unfold reconfig_router at 1. mrun.
  rewrite Ht. cbv beta iota. rewrite Hid. cbv beta iota.
  rewrite Hn. cbv beta iota. rewrite Hf. cbv beta iota.
  cbn [alpha set_parallel_idx set_cacheMemoryDict]. rewrite Ha.
  reflexivity.
Qed.

Lemma fresh_stores_surplus a routers :
  forall sizes stores extra,
    fresh_stores a routers sizes = Some stores ->
    fresh_stores a routers (sizes ++ extra) = Some stores.
Proof.
  induction routers as [|r rs IH]; intros sizes stores extra H; simpl in *;
    [exact H|].
  destruct (contains "type" r) as [e|[|]]; try discriminate.
  - destruct (getitem r "ID") as [e|id]; [discriminate|].
    destruct sizes as [|size sizes']; [discriminate|]. simpl.
    destruct (py_float size) as [e|f]; [discriminate|].
    destruct (store_for r (fmul f a)) as [st|]; [|discriminate].
    destruct (fresh_stores a rs sizes') as [rest|] eqn:Hr; [|discriminate].
    now rewrite (IH _ _ extra Hr).
  - now apply IH.
Qed.

Lemma reconfig_by_stores t w sizes idx entry routers a stores :
  getitem (networkInfo t) "Routers" = inr entry ->
  iter entry = inr routers ->
  alpha t = Some a ->
  fresh_stores a routers sizes = Some stores ->
  reconfig sizes idx t w
  = warmUp (set_cacheMemoryDict (assign_all [] stores)
              (set_parallel_idx idx t)) w.
Proof.
  intros Hr Hi Ha Hf.
  unfold reconfig, reconfig_alloc, reconfig_stores. mrun.
  cbn [networkInfo set_parallel_idx set_cacheMemoryDict].
  rewrite Hr. cbv beta iota. rewrite Hi. cbv beta iota.
  rewrite (reconfig_loop a sizes routers 0 stores); [reflexivity | | ].
  - exact Ha.
  - exact Hf.
Qed.

(** X5. [reconfig] reads one capacity per router with a "type" entry and
    never looks at the length of the list: entries beyond those are
    ignored, so a longer list gives the same run. *)
Theorem reconfig_ignores_surplus (t : NetTopology) (w : World)
  (cacheSizeList extra : list value) (run_index : Z)
  (entry : value) (routers : list value) (a : float)
  (stores : list (value * Store)) :
  getitem (networkInfo t) "Routers" = inr entry ->
  iter entry = inr routers ->
  alpha t = Some a ->
  fresh_stores a routers cacheSizeList = Some stores ->
  reconfig (cacheSizeList ++ extra) run_index t w
  = reconfig cacheSizeList run_index t w.
Proof.
  intros Hr Hi Ha Hf.
  rewrite (reconfig_by_stores _ _ _ _ _ _ _ _ Hr Hi Ha Hf).
  apply (reconfig_by_stores _ _ _ _ _ _ _ _ Hr Hi Ha).
  now apply fresh_stores_surplus.
Qed.

(** ** The stages of [build] *)

Lemma build_stages t w t' w' :
  build t w = (inr tt, t', w') ->
  exists s t1 w1 t2 w2 t3 w3 t4 w4,
    select_sampler (networkInfo t) = inr s /\
    build_content (networkInfo t) s
      (set_tempClientIds [VStr "mainClone"]
         (set_routerIds [] (set_clientIds [] (set_cacheMemoryDict [] t))))
      (set_log (log w ++ [EvPrint "*** Processing content list"]) w)
    = (inr tt, t1, w1) /\
    build_routers (networkInfo t) t1 w1 = (inr tt, t2, w2) /\
    build_clients (networkInfo t) t2 w2 = (inr tt, t3, w3) /\
    build_links (networkInfo t) t3 w3 = (inr tt, t4, w4) /\
    warmUp t4 w4 = (inr tt, t', w').
Proof.
  intros H. unfold build in H.
  bind_inv H as u0 t0 w0 R0. rewrite build_reset_run in R0. pair_inv R0.
  bind_inv H as cfg t1 w1 R1. unfold gets in R1. pair_inv R1.
  bind_inv H as s t2 w2 R2. unfold lift in R2. pair_inv R2.
  bind_inv H as u3 t3 w3 R3. destruct u3.
  bind_inv H as u4 t4 w4 R4. destruct u4.
  cbn [networkInfo set_tempClientIds set_routerIds set_clientIds
         set_cacheMemoryDict] in *.
  unfold build_graph in R4.
  bind_inv R4 as u5 t5 w5 R5. destruct u5.
  bind_inv R4 as u6 t6 w6 R6. destruct u6.
  exists s, t3, w3, t5, w5, t6, w6, t4, w4. repeat split; auto.
Qed.

(** ** Clients *)

Lemma build_client_lists c t w t1 w1 ids0 tmp0 :
  build_client c t w = (inr tt, t1, w1) ->
  clientIds t = Some ids0 ->
  tempClientIds t = Some tmp0 ->
  exists id temp,
    getitem c "ID" = inr id /\ getitem c "isTemp" = inr temp /\
    clientIds t1 = Some (ids0 ++ [id]) /\
    tempClientIds t1 = Some (if truthy temp then tmp0 ++ [id] else tmp0).
Proof.
  intros H H0 H1. unfold build_client in H.
  bind_inv H as id t2 w2 R1. unfold lift in R1. pair_inv R1.
  bind_inv H as ids t3 w3 R2. unfold attr in R2. rewrite H0 in R2. pair_inv R2.
  bind_inv H as u t4 w4 R3. unfold modify in R3. pair_inv R3.
  bind_inv H as addr t5 w5 R4. unfold lift in R4. pair_inv R4.
  bind_inv H as gateway t6 w6 R5. unfold lift in R5. pair_inv R5.
  bind_inv H as u2 t7 w7 R6.
  keeps_in R6 clientIds K1. keeps_in R6 tempClientIds K2.
  bind_inv H as temp t8 w8 R7. unfold lift in R7. pair_inv R7.
  exists id, temp. repeat split; auto.
  - destruct (truthy temp).
    + keeps_in H clientIds K3. rewrite K3, K1. reflexivity.
    + unfold ret in H. pair_inv H. rewrite K1. reflexivity.
  - destruct (truthy temp).
    + bind_inv H as tmp t9 w9 R8. unfold attr in R8.
      rewrite K2 in R8. cbn [tempClientIds set_clientIds] in R8.
      rewrite H1 in R8. pair_inv R8.
      unfold modify in H. pair_inv H. reflexivity.
    + unfold ret in H. pair_inv H. rewrite K2. exact H1.
Qed.

Lemma client_loop_lists clients :
  forall t w t1 w1 ids0 tmp0,
    forM build_client clients t w = (inr tt, t1, w1) ->
    clientIds t = Some ids0 ->
    tempClientIds t = Some tmp0 ->
    exists ids temps,
      client_ids clients = Some ids /\
      temp_client_ids clients = Some temps /\
      clientIds t1 = Some (ids0 ++ ids) /\
      tempClientIds t1 = Some (tmp0 ++ temps).
Proof.
  unfold forM.
  induction clients as [|c cs IH]; intros t w t1 w1 ids0 tmp0 H H0 H1;
    simpl in *.
  - unfold ret in H. pair_inv H. exists [], []. now rewrite !app_nil_r.
  - bind_inv H as u t2 w2 R. destruct u.
    destruct (build_client_lists _ _ _ _ _ _ _ R H0 H1)
      as (id & temp & Hid & Htemp & H2 & H3).
    destruct (IH _ _ _ _ _ _ H H2 H3) as (ids & temps & Hids & Htemps & H4 & H5).
    rewrite Hid, Htemp, Hids, Htemps.
    exists (id :: ids), (if truthy temp then id :: temps else temps).
    repeat split; auto.
    + rewrite H4, <- app_assoc. reflexivity.
    + rewrite H5. destruct (truthy temp); [|reflexivity].
      now rewrite <- app_assoc.
Qed.

(** X6. When [build] returns, [clientIds] lists the IDs of the client
    entries in declaration order, and [tempClientIds] is "mainClone"
    followed by the IDs of the clients whose [isTemp] is true, in that
    order; whatever the two lists held before is gone. *)
Theorem build_client_id_lists (t : NetTopology) (w : World)
  (t' : NetTopology) (w' : World) :
  build t w = (inr tt, t', w') ->
  exists entry clients ids temps,
    getitem (networkInfo t) "Clients" = inr entry /\
    iter entry = inr clients /\
    client_ids clients = Some ids /\
    temp_client_ids clients = Some temps /\
    clientIds t' = Some ids /\
    tempClientIds t' = Some (VStr "mainClone" :: temps).
Proof.
  intros H.
  destruct (build_stages _ _ _ _ H)
    as (s & t1 & w1 & t2 & w2 & t3 & w3 & t4 & w4 & Hs & R1 & R2 & R3 & R4 & R5).
  keeps_in R1 clientIds A1. keeps_in R1 tempClientIds B1.
  keeps_in R2 clientIds A2. keeps_in R2 tempClientIds B2.
  keeps_in R4 clientIds A4. keeps_in R4 tempClientIds B4.
  keeps_in R5 clientIds A5. keeps_in R5 tempClientIds B5.
  cbn [clientIds tempClientIds set_tempClientIds set_routerIds set_clientIds
         set_cacheMemoryDict] in A1, B1.
  unfold build_clients in R3.
  bind_inv R3 as entry t5 w5 R6. unfold lift in R6. pair_inv R6.
  bind_inv R3 as clients t6 w6 R7. unfold lift in R7. pair_inv R7.
  rewrite A1 in A2. rewrite B1 in B2.
  destruct (client_loop_lists _ _ _ _ _ _ _ R3 A2 B2)
    as (ids & temps & Hids & Htemps & H4 & H5).
  exists entry, clients, ids, temps. repeat split; auto.
  - rewrite A5, A4, H4. reflexivity.
  - rewrite B5, B4, H5. reflexivity.
Qed.

(** ** The stores [build] makes *)

Lemma build_router_store r t w t1 w1 a :
  build_router r t w = (inr tt, t1, w1) ->
  alpha t = Some a ->
  alpha t1 = Some a /\
  match contains "type" r with
  | inr true =>
      forall id size f st,
        getitem r "ID" = inr id -> getitem r "maxSize" = inr size ->
        py_float size = inr f -> store_for r (fmul f a) = Some st ->
        hashable id = true ->
        cacheMemoryDict t1 = dict_set id st (cacheMemoryDict t)
  | _ => cacheMemoryDict t1 = cacheMemoryDict t
  end.
Proof.
  intros H Ha.
  keeps_in H alpha Ka. split; [now rewrite Ka|].
  unfold build_router in H.
  bind_inv H as id t2 w2 R1. unfold lift in R1. pair_inv R1.
  bind_inv H as ids t3 w3 R2. keeps_in R2 cacheMemoryDict C2.
  keeps_in R2 alpha A2.
  bind_inv H as u t4 w4 R3. unfold modify in R3. pair_inv R3.
  bind_inv H as addr t5 w5 R4. unfold lift in R4. pair_inv R4.
  bind_inv H as u2 t6 w6 R5. keeps_in R5 cacheMemoryDict C5.
  keeps_in R5 alpha A5.
  cbn [cacheMemoryDict alpha set_routerIds] in C5, A5.
  bind_inv H as typed t7 w7 R6. unfold lift in R6. pair_inv R6.
  match goal with E : contains "type" r = inr _ |- _ => rewrite E end.
  destruct typed.
  - intros id' size f st Hid Hsize Hf Hst Hh.
    match goal with E : getitem r "ID" = inr id |- _ =>
      rewrite E in Hid; inversion Hid; subst id' end.
    bind_inv H as size' t8 w8 R7. unfold lift in R7. pair_inv R7.
    match goal with E : getitem r "maxSize" = inr size' |- _ =>
      rewrite E in Hsize; inversion Hsize; subst size' end.
    bind_inv H as f' t9 w9 R8. unfold lift in R8. pair_inv R8.
    match goal with E : py_float size = inr f' |- _ =>
      rewrite E in Hf; inversion Hf; subst f' end.
    bind_inv H as a' t10 w10 R9. unfold attr in R9.
    rewrite A5, A2, Ha in R9. pair_inv R9.
    rewrite (alloc_store_run r id (fmul f a') st _ _ Hst Hh) in H. pair_inv H.
    cbn [cacheMemoryDict set_cacheMemoryDict]. now rewrite C5, C2.
  - unfold ret in H. pair_inv H. now rewrite C5, C2.
Qed.

Lemma router_loop_stores a routers :
  forall t w t1 w1 stores,
    forM build_router routers t w = (inr tt, t1, w1) ->
    alpha t = Some a ->
    built_stores a routers = Some stores ->
    cacheMemoryDict t1 = assign_all (cacheMemoryDict t) stores.
Proof.
  unfold forM.
  induction routers as [|r rs IH]; intros t w t1 w1 stores H Ha Hb;
    simpl in *.
  - unfold ret in H. pair_inv H. inversion Hb. reflexivity.
  - bind_inv H as u t2 w2 R. destruct u.
    destruct (build_router_store _ _ _ _ _ _ R Ha) as [Ha2 Hst].
    destruct (contains "type" r) as [e|[|]]; try discriminate.
    + destruct (getitem r "ID") as [e|id]; [discriminate|].
      destruct (getitem r "maxSize") as [e|size]; [discriminate|].
      destruct (py_float size) as [e|f] eqn:Ef; [discriminate|].
      destruct (store_for r (fmul f a)) as [st|] eqn:Es; [|discriminate].
      destruct (built_stores a rs) as [rest|] eqn:Er; [|discriminate].
      destruct (hashable id) eqn:Hh; [|discriminate].
      inversion Hb; subst stores.
      rewrite (IH _ _ _ _ _ H Ha2 eq_refl).
      rewrite (Hst id size f st eq_refl eq_refl Ef Es Hh).
      reflexivity.
    + rewrite (IH _ _ _ _ _ H Ha2 Hb). now rewrite Hst.
Qed.

Lemma build_content_alpha cfg s t w t1 w1 :
  build_content cfg s t w = (inr tt, t1, w1) ->
  exists fs models custom,
    getitem cfg "FileSize" = inr fs /\
    getitem cfg "RequestModels" = inr models /\
    contains "custom" models = inr custom /\
    cacheMemoryDict t1 = cacheMemoryDict t /\
    if custom && is_minus_one fs
    then exists x a, getitem2 models "custom" "alpha" = inr x /\
                     py_float x = inr a /\ alpha t1 = Some a
    else alpha t1 = Some float_one.
Proof.
  intros H. keeps_in H cacheMemoryDict Kc.
  unfold build_content in H.
  bind_inv H as fs t2 w2 R1. unfold lift in R1. pair_inv R1.
  bind_inv H as models t3 w3 R2. unfold lift in R2. pair_inv R2.
  bind_inv H as custom t4 w4 R3. unfold lift in R3. pair_inv R3.
  exists fs, models, custom. repeat split; auto.
  destruct custom; simpl negb in H; cbv iota in H; simpl andb.
  - bind_inv H as a t5 w5 R4.
    bind_inv H as u t6 w6 R5. unfold modify in R5. pair_inv R5.
    keeps_in H alpha Ka. cbn [alpha set_alpha] in Ka.
    destruct (is_minus_one fs).
    + bind_inv R4 as x t7 w7 R6. unfold lift in R6. pair_inv R6.
      unfold lift in R4. exists x, a. repeat split; auto.
      destruct (py_float x); now inversion R4.
    + unfold ret in R4. pair_inv R4. exact Ka.
  - bind_inv H as gamma t5 w5 R4. unfold lift in R4. pair_inv R4.
    bind_inv H as d t6 w6 R5.
    destruct d as [d|]; [|unfold throw in H; discriminate].
    bind_inv H as u t7 w7 R6. unfold modify in H. pair_inv H. reflexivity.
Qed.

Lemma build_hands_stores t w t' w' :
  build t w = (inr tt, t', w') ->
  exists entry routers a t4 w4,
    getitem (networkInfo t) "Routers" = inr entry /\
    iter entry = inr routers /\
    alpha t' = Some a /\
    networkInfo t' = networkInfo t /\
    warmUp t4 w4 = (inr tt, t', w') /\
    forall stores,
      built_stores a routers = Some stores ->
      cacheMemoryDict t4 = assign_all [] stores.
Proof.
  intros H.
  destruct (build_stages _ _ _ _ H)
    as (s & t1 & w1 & t2 & w2 & t3 & w3 & t4 & w4 & Hs & R1 & R2 & R3 & R4 & R5).
  destruct (build_content_alpha _ _ _ _ _ _ R1)
    as (fs & models & custom & _ & _ & _ & Hc1 & Ha1).
  assert (Ha : exists a, alpha t1 = Some a).
  { destruct (custom && is_minus_one fs).
    - destruct Ha1 as (x & a & _ & _ & Ha1). eauto.
    - eauto. }
  destruct Ha as [a Ha]. clear Ha1.
  cbn [cacheMemoryDict set_tempClientIds set_routerIds set_clientIds
         set_cacheMemoryDict] in Hc1.
  keeps_in R1 networkInfo N1. keeps_in R2 networkInfo N2.
  keeps_in R3 networkInfo N3. keeps_in R4 networkInfo N4.
  keeps_in R5 networkInfo N5.
  cbn [networkInfo set_tempClientIds set_routerIds set_clientIds
         set_cacheMemoryDict] in N1.
  keeps_in R3 alpha A3. keeps_in R4 alpha A4. keeps_in R5 alpha A5.
  keeps_in R3 cacheMemoryDict C3. keeps_in R4 cacheMemoryDict C4.
  unfold build_routers in R2.
  bind_inv R2 as entry t5 w5 R6. unfold lift in R6. pair_inv R6.
  bind_inv R2 as routers t6 w6 R7. unfold lift in R7. pair_inv R7.
  bind_inv R2 as u t7 w7 R8. destruct u.
  keeps_in R2 alpha A2. keeps_in R2 cacheMemoryDict C2.
  keeps_in R8 alpha A8.
  exists entry, routers, a, t4, w4. repeat split; auto.
  - rewrite A5, A4, A3, A2, A8. exact Ha.
  - rewrite N5, N4, N3, N2. exact N1.
  - intros stores Hb.
    rewrite C4, C3, C2, (router_loop_stores _ _ _ _ _ _ _ R8 Ha Hb), Hc1.
    reflexivity.
Qed.

Lemma build_keeps_mode : keeps mode build.
Proof. unfold build, build_reset. frame. Qed.

(** X7. [build] gives every router with a "type" entry a store of the
    policy its type names, of capacity [float(maxSize) * alpha], assigned
    in declaration order to a mapping that starts empty: this mapping is
    what [warmUp] is run on at the end of [build], and in mode "no-cache"
    it is the mapping [build] leaves. *)
Theorem build_allocates_configured_stores (t : NetTopology) (w : World)
  (t' : NetTopology) (w' : World) :
  build t w = (inr tt, t', w') ->
  exists entry routers a t4 w4,
    getitem (networkInfo t) "Routers" = inr entry /\
    iter entry = inr routers /\
    alpha t' = Some a /\
    warmUp t4 w4 = (inr tt, t', w') /\
    forall stores,
      built_stores a routers = Some stores ->
      cacheMemoryDict t4 = assign_all [] stores /\
      (eq_str (mode t) "no-cache" = true ->
       cacheMemoryDict t' = assign_all [] stores).
Proof.
  intros H.
  destruct (build_hands_stores _ _ _ _ H)
    as (entry & routers & a & t4 & w4 & Hr & Hi & Ha & Hn & Hw & Hst).
  exists entry, routers, a, t4, w4. repeat split; auto.
  intros Hm.
  rewrite <- (build_keeps_mode t w), H in Hm.
  unfold self_after in Hm. cbn [fst snd] in Hm.
  keeps_in Hw mode Kw. rewrite Kw in Hm.
  rewrite (warmUp_no_cache_noop_aux _ _ Hm) in Hw. inversion Hw; subst.
  now apply Hst.
Qed.

(** X8. [build] fixes the capacity factor [alpha]: it is 1.0, except for
    trace data ("custom" request model) with [FileSize] equal to -1,
    where it is [float] of the configured [custom.alpha].
    Nothing after the request model changes it. *)
Theorem build_sets_alpha (t : NetTopology) (w : World)
  (t' : NetTopology) (w' : World) :
  build t w = (inr tt, t', w') ->
  exists fs models custom,
    getitem (networkInfo t) "FileSize" = inr fs /\
    getitem (networkInfo t) "RequestModels" = inr models /\
    contains "custom" models = inr custom /\
    if custom && is_minus_one fs
    then exists x a, getitem2 models "custom" "alpha" = inr x /\
                     py_float x = inr a /\ alpha t' = Some a
    else alpha t' = Some float_one.
Proof.
  intros H.
  destruct (build_stages _ _ _ _ H)
    as (s & t1 & w1 & t2 & w2 & t3 & w3 & t4 & w4 & Hs & R1 & R2 & R3 & R4 & R5).
  destruct (build_content_alpha _ _ _ _ _ _ R1)
    as (fs & models & custom & Hf & Hm & Hc & _ & Ha).
  keeps_in R2 alpha A2. keeps_in R3 alpha A3. keeps_in R4 alpha A4.
  keeps_in R5 alpha A5.
  assert (E : alpha t' = alpha t1) by now rewrite A5, A4, A3, A2.
  exists fs, models, custom. repeat split; auto.
  destruct (custom && is_minus_one fs).
  - destruct Ha as (x & a & Hx & Hfl & Ha). exists x, a. now rewrite E.
  - now rewrite E.
Qed.

Lemma fresh_of_built a routers :
  forall stores,
    built_stores a routers = Some stores ->
    fresh_stores a routers (configured_sizes routers) = Some stores.
Proof.
  induction routers as [|r rs IH]; intros stores H; simpl in *; [exact H|].
  destruct (contains "type" r) as [e|[|]]; try discriminate.
  - destruct (getitem r "ID") as [e|id]; [discriminate|].
    destruct (getitem r "maxSize") as [e|size]; [discriminate|].
    destruct (py_float size) as [e|f]; [discriminate|].
    destruct (store_for r (fmul f a)) as [st|]; [|discriminate].
    destruct (built_stores a rs) as [rest|]; [|discriminate].
    now rewrite (IH rest eq_refl).
  - destruct (getitem r "maxSize"); now apply IH.
Qed.

(** X9. After [build] in mode "no-cache", [reconfig] with the configured
    [maxSize] values as capacity list (one per router with a "type"
    entry, in declaration order) returns and leaves the very stores
    [build] had made; only the run index is new. *)
Theorem reconfig_with_configured_sizes (t : NetTopology) (w : World)
  (t' : NetTopology) (w' : World) (entry : value) (routers : list value)
  (a : float) (stores : list (value * Store)) :
  build t w = (inr tt, t', w') ->
  eq_str (mode t) "no-cache" = true ->
  getitem (networkInfo t) "Routers" = inr entry ->
  iter entry = inr routers ->
  alpha t' = Some a ->
  built_stores a routers = Some stores ->
  forall run_index w2,
    reconfig (configured_sizes routers) run_index t' w2
    = (inr tt,
       set_cacheMemoryDict (cacheMemoryDict t')
         (set_parallel_idx run_index t'),
       w2).
Proof.
  intros H Hm Hr Hi Ha Hb idx w2.
  destruct (build_hands_stores _ _ _ _ H)
    as (entry' & routers' & a' & t4 & w4 & Hr' & Hi' & Ha' & Hn & Hw & Hst).
  rewrite Hr in Hr'. inversion Hr'; subst entry'.
  rewrite Hi in Hi'. inversion Hi'; subst routers'.
  rewrite Ha in Ha'. inversion Ha'; subst a'.
  assert (Hm' : eq_str (mode t') "no-cache" = true).
  { rewrite <- (build_keeps_mode t w), H in Hm. exact Hm. }
  assert (Hd : cacheMemoryDict t' = assign_all [] stores).
  { keeps_in Hw mode Kw. rewrite Kw in Hm'.
    rewrite (warmUp_no_cache_noop_aux _ _ Hm') in Hw. inversion Hw; subst.
    now apply Hst. }
  rewrite <- Hn in Hr.
  rewrite (reconfig_by_stores t' w2 _ idx _ _ _ _ Hr Hi Ha
             (fresh_of_built _ _ _ Hb)).
  rewrite warmUp_no_cache_noop_aux by exact Hm'.
  now rewrite Hd.
Qed.

(** ** The nodes of the graph *)

Lemma has_node_add n upd g g' :
  add_node n upd g = inr g' ->
  has_node g' n = true /\
  (forall m, has_node g m = true -> has_node g' m = true) /\
  edges g' = edges g.
Proof.
  unfold add_node. destruct (check_node n) as [e|u] eqn:E; [discriminate|].
  intros H. inversion H. unfold has_node. simpl.
  apply check_node_ok in E. repeat split.
  - now rewrite dict_get_set, key_eqb_refl.
  - intros m Hm. rewrite dict_get_set. destruct (key_eqb n m); auto.
Qed.

Lemma graph_add_node_run n upd t w u t1 w1 :
  graph_add_node n upd t w = (inr u, t1, w1) ->
  has_node (graph t1) n = true /\
  (forall m, has_node (graph t) m = true -> has_node (graph t1) m = true).
Proof.
  unfold graph_add_node. intros H.
  bind_inv H as g t2 w2 R1. unfold gets in R1. pair_inv R1.
  bind_inv H as g' t3 w3 R2. unfold lift in R2. pair_inv R2.
  unfold modify in H. pair_inv H.
  match goal with E : add_node _ _ _ = inr _ |- _ =>
    destruct (has_node_add _ _ _ _ E) as (A & B & _) end.
  split; [exact A | exact B].
Qed.

Lemma graph_add_edge_nodes u v d t w x t1 w1 :
  graph_add_edge u v d t w = (inr x, t1, w1) ->
  has_node (graph t1) u = true /\ has_node (graph t1) v = true /\
  (forall m, has_node (graph t) m = true -> has_node (graph t1) m = true).
Proof.
  intros H. unfold graph_add_edge in H.
  bind_inv H as g t2 w2 R1. unfold gets in R1. pair_inv R1.
  bind_inv H as g1 t3 w3 R2. unfold lift in R2. pair_inv R2.
  bind_inv H as u1 t4 w4 R3. unfold modify in R3. pair_inv R3.
  bind_inv H as g2 t5 w5 R4. unfold lift in R4. pair_inv R4.
  bind_inv H as u2 t6 w6 R5. unfold modify in R5. pair_inv R5.
  unfold modify in H. pair_inv H.
  match goal with
  | H1 : touch_node u _ = inr _, H2 : touch_node v _ = inr _ |- _ =>
      destruct (has_node_add _ _ _ _ H1) as (A1 & B1 & _);
      destruct (has_node_add _ _ _ _ H2) as (A2 & B2 & _)
  end.
  unfold has_node in *. simpl. repeat split; auto.
Qed.

Lemma build_router_node r t w t1 w1 :
  build_router r t w = (inr tt, t1, w1) ->
  exists id, getitem r "ID" = inr id /\
             has_node (graph t1) id = true /\
             (forall m, has_node (graph t) m = true ->
                        has_node (graph t1) m = true).
Proof.
  intros H. unfold build_router in H.
  bind_inv H as id t2 w2 R1. unfold lift in R1. pair_inv R1.
  bind_inv H as ids t3 w3 R2. keeps_in R2 graph G2.
  bind_inv H as u t4 w4 R3. unfold modify in R3. pair_inv R3.
  bind_inv H as addr t5 w5 R4. unfold lift in R4. pair_inv R4.
  bind_inv H as u2 t6 w6 R5.
  keeps_in H graph G6.
  apply graph_add_node_run in R5 as [A B].
  cbn [graph set_routerIds] in B.
  exists id. rewrite G6. repeat split; auto.
  intros m Hm. apply B. now rewrite G2.
Qed.

Lemma build_client_node c t w t1 w1 :
  build_client c t w = (inr tt, t1, w1) ->
  exists id, getitem c "ID" = inr id /\
             has_node (graph t1) id = true /\
             (forall m, has_node (graph t) m = true ->
                        has_node (graph t1) m = true).
Proof.
  intros H. unfold build_client in H.
  bind_inv H as id t2 w2 R1. unfold lift in R1. pair_inv R1.
  bind_inv H as ids t3 w3 R2. keeps_in R2 graph G2.
  bind_inv H as u t4 w4 R3. unfold modify in R3. pair_inv R3.
  bind_inv H as addr t5 w5 R4. unfold lift in R4. pair_inv R4.
  bind_inv H as gateway t6 w6 R5. unfold lift in R5. pair_inv R5.
  bind_inv H as u2 t7 w7 R6.
  keeps_in H graph G7.
  apply graph_add_node_run in R6 as [A B].
  cbn [graph set_clientIds] in B.
  exists id. rewrite G7. repeat split; auto.
  intros m Hm. apply B. now rewrite G2.
Qed.

Lemma build_link_nodes ip2 l t w r t1 w1 :
  build_link ip2 l t w = (inr r, t1, w1) ->
  exists u v, link_ends l = inr (u, v) /\
              has_node (graph t1) u = true /\ has_node (graph t1) v = true /\
              (forall m, has_node (graph t) m = true ->
                         has_node (graph t1) m = true).
Proof.
  intros H. unfold build_link in H.
  bind_inv H as nodeIds t2 w2 R1. unfold lift in R1. pair_inv R1.
  bind_inv H as n0 t3 w3 R2. unfold lift in R2. pair_inv R2.
  bind_inv H as p1 t4 w4 R3. unfold lift in R3. pair_inv R3.
  bind_inv H as params1 t5 w5 R4. unfold lift in R4. pair_inv R4.
  bind_inv H as two t6 w6 R5. unfold lift in R5. pair_inv R5.
  unfold link_ends.
  repeat match goal with
         | E : _ = inr _ |- _ => rewrite E; clear E
         end.
  destruct two.
  - bind_inv H as n1 t7 w7 R6. unfold lift in R6. pair_inv R6.
    bind_inv H as p2 t8 w8 R7. unfold lift in R7. pair_inv R7.
    bind_inv H as params2 t9 w9 R8. unfold lift in R8. pair_inv R8.
    bind_inv H as a1 t10 w10 R9. unfold lift in R9. pair_inv R9.
    bind_inv H as a2 t11 w11 R10. unfold lift in R10. pair_inv R10.
    bind_inv H as bw t12 w12 R11. unfold lift in R11. pair_inv R11.
    bind_inv H as wt t13 w13 R12. unfold lift in R12. pair_inv R12.
    bind_inv H as u0 t14 w14 R13. unfold ret in H. pair_inv H.
    apply graph_add_edge_nodes in R13 as (Hu & Hv & Hm).
    repeat match goal with
           | E : _ = inr _ |- _ => rewrite E
           end.
    exists (VStr (fst p1)), (VStr (fst p2)). repeat split; auto.
  - bind_inv H as n1 t7 w7 R6. unfold lift in R6. pair_inv R6.
    bind_inv H as a1 t8 w8 R7. unfold lift in R7. pair_inv R7.
    bind_inv H as peer t9 w9 R8. keeps_in R8 graph K8.
    bind_inv H as a1' t10 w10 R9. unfold lift in R9. pair_inv R9.
    destruct peer as [a2|]; [| unfold throw in H; discriminate].
    bind_inv H as bw t11 w11 R10. unfold lift in R10. pair_inv R10.
    bind_inv H as wt t12 w12 R11. unfold lift in R11. pair_inv R11.
    bind_inv H as u0 t13 w13 R12. unfold ret in H. pair_inv H.
    apply graph_add_edge_nodes in R12 as (Hu & Hv & Hm).
    repeat match goal with
           | E : _ = inr _ |- _ => rewrite E
           end.
    exists (VStr (fst p1)), n1. repeat split; auto.
    intros m Hm'. apply Hm. now rewrite K8.
Qed.

Lemma router_loop_nodes routers :
  forall t w t1 w1,
    forM build_router routers t w = (inr tt, t1, w1) ->
    (forall r id, In r routers -> getitem r "ID" = inr id ->
                  has_node (graph t1) id = true) /\
    (forall m, has_node (graph t) m = true -> has_node (graph t1) m = true).
Proof.
  unfold forM.
  induction routers as [|r rs IH]; intros t w t1 w1 H; simpl in H.
  - unfold ret in H. pair_inv H. split; [intros r id [] | auto].
  - bind_inv H as u t2 w2 R. destruct u.
    destruct (build_router_node _ _ _ _ _ R) as (id & Hid & Hn & Hm).
    destruct (IH _ _ _ _ H) as [IH1 IH2]. split.
    + intros r' id' [<-|Hin] Hid'.
      * rewrite Hid in Hid'. inversion Hid'; subst id'. now apply IH2.
      * eapply IH1; eassumption.
    + intros m Hm'. apply IH2. now apply Hm.
Qed.

Lemma client_loop_nodes clients :
  forall t w t1 w1,
    forM build_client clients t w = (inr tt, t1, w1) ->
    (forall c id, In c clients -> getitem c "ID" = inr id ->
                  has_node (graph t1) id = true) /\
    (forall m, has_node (graph t) m = true -> has_node (graph t1) m = true).
Proof.
  unfold forM.
  induction clients as [|c cs IH]; intros t w t1 w1 H; simpl in H.
  - unfold ret in H. pair_inv H. split; [intros r id [] | auto].
  - bind_inv H as u t2 w2 R. destruct u.
    destruct (build_client_node _ _ _ _ _ R) as (id & Hid & Hn & Hm).
    destruct (IH _ _ _ _ H) as [IH1 IH2]. split.
    + intros r' id' [<-|Hin] Hid'.
      * rewrite Hid in Hid'. inversion Hid'; subst id'. now apply IH2.
      * eapply IH1; eassumption.
    + intros m Hm'. apply IH2. now apply Hm.
Qed.

Lemma link_loop_nodes links :
  forall ip2 t w r t1 w1,
    foldM build_link ip2 links t w = (inr r, t1, w1) ->
    (forall l u v, In l links -> link_ends l = inr (u, v) ->
                   has_node (graph t1) u = true /\
                   has_node (graph t1) v = true) /\
    (forall m, has_node (graph t) m = true -> has_node (graph t1) m = true).
Proof.
  induction links as [|l ls IH]; intros ip2 t w r t1 w1 H; simpl in H.
  - unfold ret in H. pair_inv H. split; [intros l u v [] | auto].
  - bind_inv H as ip2' t2 w2 R.
    destruct (build_link_nodes _ _ _ _ _ _ _ R) as (u & v & He & Hu & Hv & Hm).
    destruct (IH _ _ _ _ _ _ H) as [IH1 IH2]. split.
    + intros l' u' v' [<-|Hin] He'.
      * rewrite He in He'. inversion He'; subst u' v'. split; now apply IH2.
      * eapply IH1; eassumption.
    + intros m Hm'. apply IH2. now apply Hm.
Qed.

(** X10. When [build] returns, every router ID, every client ID and
    both endpoints of every link are nodes of the graph, and so is the
    origin "mainServer"; nodes the graph had before are still there. *)
Theorem build_graph_has_all_nodes (t : NetTopology) (w : World)
  (t' : NetTopology) (w' : World) :
  build t w = (inr tt, t', w') ->
  (forall entry routers r id,
     getitem (networkInfo t) "Routers" = inr entry -> iter entry = inr routers ->
     In r routers -> getitem r "ID" = inr id ->
     has_node (graph t') id = true) /\
  (forall entry clients c id,
     getitem (networkInfo t) "Clients" = inr entry -> iter entry = inr clients ->
     In c clients -> getitem c "ID" = inr id ->
     has_node (graph t') id = true) /\
  (forall entry links l u v,
     getitem (networkInfo t) "Links" = inr entry -> iter entry = inr links ->
     In l links -> link_ends l = inr (u, v) ->
     has_node (graph t') u = true /\ has_node (graph t') v = true) /\
  has_node (graph t') (VStr "mainServer") = true /\
  (forall m, has_node (graph t) m = true -> has_node (graph t') m = true).
Proof.
  intros H.
  destruct (build_stages _ _ _ _ H)
    as (s & t1 & w1 & t2 & w2 & t3 & w3 & t4 & w4 & Hs & R1 & R2 & R3 & R4 & R5).
  keeps_in R1 graph G1. cbn [graph set_tempClientIds set_routerIds
    set_clientIds set_cacheMemoryDict] in G1.
  keeps_in R5 graph G5.
  unfold build_routers in R2.
  bind_inv R2 as entry t5 w5 R6. unfold lift in R6. pair_inv R6.
  bind_inv R2 as routers t6 w6 R7. unfold lift in R7. pair_inv R7.
  bind_inv R2 as u t7 w7 R8. destruct u.
  keeps_in R2 graph G2.
  destruct (router_loop_nodes _ _ _ _ _ R8) as [A1 A2].
  unfold build_clients in R3.
  bind_inv R3 as centry t8 w8 R9. unfold lift in R9. pair_inv R9.
  bind_inv R3 as clients t9 w9 R10. unfold lift in R10. pair_inv R10.
  destruct (client_loop_nodes _ _ _ _ _ R3) as [B1 B2].
  unfold build_links in R4.
  bind_inv R4 as lentry t10 w10 R11. unfold lift in R11. pair_inv R11.
  bind_inv R4 as links t11 w11 R12. unfold lift in R12. pair_inv R12.
  bind_inv R4 as ip2 t12 w12 R13. unfold ret in R4. pair_inv R4.
  destruct (link_loop_nodes _ _ _ _ _ _ _ R13) as [C1 C2].
  rewrite G5.
  assert (Hrouter : forall r id, In r routers -> getitem r "ID" = inr id ->
                                 has_node (graph t4) id = true).
  { intros r id Hin Hid. apply C2, B2. rewrite G2. eapply A1; eassumption. }
  split; [|split; [|split; [|split]]].
  - intros e' rs' r id He Hi Hin Hid.
    assert (e' = entry) by congruence. subst e'.
    assert (rs' = routers) by congruence. subst rs'.
    eapply Hrouter; eassumption.
  - intros e' cs' c id He Hi Hin Hid.
    assert (e' = centry) by congruence. subst e'.
    assert (cs' = clients) by congruence. subst cs'.
    apply C2. eapply B1; eassumption.
  - intros e' ls' l u v He Hi Hin Hends.
    assert (e' = lentry) by congruence. subst e'.
    assert (ls' = links) by congruence. subst ls'.
    exact (C1 _ _ _ Hin Hends).
  - unfold remove_mainServer in R2.
    bind_inv R2 as ids t13 w13 R14.
    destruct (list_remove "mainServer" ids) as [ids'|] eqn:Hrm;
      [| unfold throw in R2; discriminate].
    keeps_in R1 routerIds K1. cbn [routerIds set_tempClientIds set_routerIds]
      in K1.
    destruct (router_loop_ids _ _ _ _ _ _ R8 K1) as (ids0 & Hids & H8).
    unfold attr in R14. rewrite H8 in R14. simpl in R14. inversion R14.
    subst ids t13 w13.
    destruct (list_remove_in _ _ _ Hrm) as (y & Hy & Ey).
    destruct (router_ids_in _ _ _ Hids Hy) as (r & Hr & Hg).
    apply eq_str_true in Ey. subst y. eapply Hrouter; eassumption.
  - intros m Hm. apply C2, B2. rewrite G2. apply A2. now rewrite G1.
Qed.

(** ** Links without [params2] *)

Lemma peer_ip_unmatched a1 prev t w :
  contains ".1/" a1 = inr false ->
  contains ".2/" a1 = inr false ->
  contains ".66/" a1 = inr false ->
  contains ".65/" a1 = inr false ->
  peer_ip a1 prev t w
  = (inr prev, t, set_log (log w ++ [EvPrint "error ip"]) w).
Proof.
  intros H1 H2 H3 H4. unfold peer_ip. mrun.
  rewrite H1. cbv beta iota. rewrite H2. cbv beta iota.
  rewrite H3. cbv beta iota. rewrite H4. reflexivity.
Qed.

(** X11. A link without [params2] whose address contains none of ".1/",
    ".2/", ".66/", ".65/" gets no peer address of its own: the local
    variable [ip_2] keeps whatever an earlier link of the loop gave it.
    When no earlier link did, the round raises [UnboundLocalError] and
    the graph has no new edge; otherwise the round goes on and the edge
    carries the earlier link's peer address. *)
Theorem build_link_unmatched_address (l nodeIds n0 params1 n1 a1 : value)
  (p1 : string * string) (t : NetTopology) (w : World) :
  getitem l "NodeIds" = inr nodeIds ->
  index nodeIds 0 = inr n0 ->
  split_pair n0 = inr p1 ->
  getitem l "params1" = inr params1 ->
  contains "params2" l = inr false ->
  index nodeIds 1 = inr n1 ->
  getitem params1 "ip" = inr a1 ->
  contains ".1/" a1 = inr false ->
  contains ".2/" a1 = inr false ->
  contains ".66/" a1 = inr false ->
  contains ".65/" a1 = inr false ->
  build_link None l t w
  = (inl (UnboundLocalError "ip_2"), t,
     set_log (log w ++ [EvPrint "error ip"]) w) /\
  (forall stale r t1 w1,
     build_link (Some stale) l t w = (inr r, t1, w1) ->
     r = Some stale /\
     exists d, get_edge (graph t1) (VStr (fst p1)) n1 = Some d /\
               ip_2 d = stale /\ ip_1 d = a1).
Proof.
  intros Hn H0 Hp Hp1 H2 H1 Ha C1 C2 C3 C4.
  assert (Hpre : forall prev,
             build_link prev l t w
             = (match prev with
                | None => throw (UnboundLocalError "ip_2")
                | Some a2 =>
                    bw <- lift (getitem params1 "bw") ;;
                    wt <- lift (one_over bw) ;;
                    graph_add_edge (VStr (fst p1)) n1
                      (mkEdge (snd p1) "0" (fst p1) a1 a2 wt) ;;;
                    ret prev
                end) t (set_log (log w ++ [EvPrint "error ip"]) w)).
  { intros prev. unfold build_link.
    unfold bind at 1, lift. rewrite Hn.
    unfold bind at 1. rewrite H0.
    unfold bind at 1. rewrite Hp.
    unfold bind at 1. rewrite Hp1.
    unfold bind at 1. rewrite H2.
    unfold bind at 1. rewrite H1.
    unfold bind at 1. rewrite Ha.
    unfold bind at 1. rewrite (peer_ip_unmatched _ _ _ _ C1 C2 C3 C4).
    unfold bind at 1. reflexivity. }
  split.
  - rewrite Hpre. reflexivity.
  - intros stale r t1 w1 H. rewrite Hpre in H.
    bind_inv H as bw t2 w2 R1. unfold lift in R1. pair_inv R1.
    bind_inv H as wt t3 w3 R2. unfold lift in R2. pair_inv R2.
    bind_inv H as u t4 w4 R3. unfold ret in H. pair_inv H.
    apply graph_add_edge_run in R3 as (Hu & Hv & He).
    split; [reflexivity|].
    eexists. unfold get_edge. rewrite He.
    rewrite find_put_edge_same by assumption. simpl. auto.
Qed.

(** ** The files a run can touch *)

Lemma bind_files {A B} (m : M A) (k : A -> M B) t w q :
  leaves files m ->
  (forall a t1 w1,
     m t w = (inr a, t1, w1) ->
     assoc q (files (world_after (k a t1 w1))) = assoc q (files w1)) ->
  assoc q (files (world_after (bind m k t w))) = assoc q (files w).
Proof.
  intros Hm Hk. specialize (Hm t w). unfold bind.
  destruct (m t w) as [[[e|a] t1] w1] eqn:E; unfold world_after in *;
    simpl in *.
  - now rewrite Hm.
  - rewrite (Hk a t1 w1 eq_refl). now rewrite Hm.
Qed.

Lemma save_cache_other t w q :
  q <> cacheDict_path (configDirPath t) (parallel_idx t) ->
  assoc q (files (world_after (saveCacheDict t w))) = assoc q (files w).
Proof.
  intros Hq.
  destruct (dump_to_pure
              (cacheDict_path (configDirPath t) (parallel_idx t))
              (fun t => inr (pickle_cache (cacheMemoryDict t))) t w)
    as (_ & _ & H & _).
  exact (H q Hq).
Qed.

Lemma save_routes_other t w q :
  q <> nearestColor_path (configDirPath t) ->
  assoc q (files (world_after (saveNearestColorServerInfo t w)))
  = assoc q (files w).
Proof.
  intros Hq.
  destruct (dump_to_pure
              (nearestColor_path (configDirPath t))
              (fun t => match colorRouteInfo t with
                        | Some r => inr (pickle_routes r)
                        | None => inl (AttributeError "colorRouteInfo")
                        end) t w)
    as (_ & _ & H & _).
  change (saveNearestColorServerInfo t w)
    with (dump_to (nearestColor_path (configDirPath t))
            (r <- attr colorRouteInfo "colorRouteInfo" ;;
             ret (pickle_routes r)) t w).
  rewrite (dump_to_ext _ _
             (fun t w => (match colorRouteInfo t with
                          | Some r => inr (pickle_routes r)
                          | None => inl (AttributeError "colorRouteInfo")
                          end, t, w))).
  - exact (H q Hq).
  - intros t0 w0. unfold bind, attr, ret.
    destruct (colorRouteInfo t0); reflexivity.
Qed.

Lemma warmUp_files t w q :
  q <> cacheDict_path (configDirPath t) (parallel_idx t) ->
  q <> nearestColor_path (configDirPath t) ->
  assoc q (files (world_after (warmUp t w))) = assoc q (files w).
Proof.
  intros Hc Hn. rewrite warmUp_by_mode.
  destruct (eq_str (mode t) "no-cache"); [reflexivity|].
  destruct (eq_str (mode t) "no-color").
  - apply bind_files; [world_frame|]. intros clients t1 w1 R1.
    keeps_in R1 configDirPath D1. keeps_in R1 parallel_idx P1.
    apply bind_files; [world_frame|]. intros reqs t2 w2 R2.
    keeps_in R2 configDirPath D2. keeps_in R2 parallel_idx P2.
    apply bind_files; [world_frame|]. intros u t3 w3 R3.
    keeps_in R3 configDirPath D3. keeps_in R3 parallel_idx P3.
    apply save_cache_other. now rewrite D3, D2, D1, P3, P2, P1.
  - assert (L : leaves files (run_coloring ;;; assignColorForCacheMemory))
      by world_frame.
    destruct (eq_str (mode t) "tag-color").
    + now rewrite L.
    + apply bind_files; [world_frame|]. intros u t1 w1 R1.
      keeps_in R1 configDirPath D1.
      apply bind_files; [world_frame|]. intros u2 t2 w2 R2.
      keeps_in R2 configDirPath D2.
      apply save_routes_other. now rewrite D2, D1.
Qed.

Lemma snapshot_paths_differ dir i :
  cacheDict_path dir i <> nearestColor_path dir.
Proof.
  unfold cacheDict_path, nearestColor_path, path_join. intros H.
  assert (E : ("cacheDict" ++ str_of_int i ++ ".pkl"
               = "nearestColorServerInfo.pkl")%string).
  { destruct dir as [|c dir]; [exact H|].
    destruct (ends_with_slash (String c dir)).
    - eapply append_cancel_l. exact H.
    - apply append_cancel_l in H. eapply (append_cancel_l "/"). exact H. }
  simpl in E. discriminate.
Qed.

(** X12. Whatever the mode and however it ends, [reconfig] changes no
    file except the snapshot of its own run index and the nearest-colour
    table.  In particular the snapshot files of all other run indices
    are left as they were. *)
Theorem reconfig_touches_own_files (cacheSizeList : list value)
  (run_index : Z) (t : NetTopology) (w : World) :
  let w' := world_after (reconfig cacheSizeList run_index t w) in
  (forall q,
     q <> cacheDict_path (configDirPath t) run_index ->
     q <> nearestColor_path (configDirPath t) ->
     assoc q (files w') = assoc q (files w)) /\
  (forall i,
     i <> run_index ->
     assoc (cacheDict_path (configDirPath t) i) (files w')
     = assoc (cacheDict_path (configDirPath t) i) (files w)).
Proof.
  cbv zeta.
  assert (Hq : forall q,
             q <> cacheDict_path (configDirPath t) run_index ->
             q <> nearestColor_path (configDirPath t) ->
             assoc q (files (world_after
                               (reconfig cacheSizeList run_index t w)))
             = assoc q (files w)).
  { intros q Hc Hn. rewrite reconfig_after_reset.
    apply bind_files; [unfold reconfig_stores, reconfig_router, alloc_store,
                         set_cache; world_frame|].
    intros u t1 w1 R1.
    keeps_in R1 configDirPath D1. keeps_in R1 parallel_idx P1.
    cbn [configDirPath parallel_idx set_parallel_idx set_cacheMemoryDict]
      in D1, P1.
    apply warmUp_files; now rewrite D1, ?P1. }
  split; [exact Hq|].
  intros i Hi. apply Hq.
  - intros E. apply cacheDict_path_inj in E. contradiction.
  - apply snapshot_paths_differ.
Qed.

Lemma no_color_snapshot t w t' w' :
  eq_str (mode t) "no-color" = true ->
  warmUp t w = (inr tt, t', w') ->
  parallel_idx t' = parallel_idx t /\
  configDirPath t' = configDirPath t /\
  assoc (cacheDict_path (configDirPath t) (parallel_idx t)) (files w')
  = Some (pickle_cache (cacheMemoryDict t')).
Proof.
  intros Hm H.
  keeps_in H parallel_idx P. keeps_in H configDirPath D.
  split; [exact P | split; [exact D|]].
  rewrite warmUp_by_mode in H.
  rewrite (eq_str_true _ _ Hm) in H.
  cbn [eq_str String.eqb Ascii.eqb Bool.eqb] in H.
  bind_inv H as cl t0 w0 R0.
  keeps_in R0 parallel_idx P0. keeps_in R0 configDirPath D0.
  bind_inv H as reqs t1 w1 R1.
  keeps_in R1 parallel_idx P1. keeps_in R1 configDirPath D1.
  bind_inv H as u t2 w2 R2.
  keeps_in R2 parallel_idx P2. keeps_in R2 configDirPath D2.
  apply save_cache_ok in H as (-> & Hf & _).
  rewrite Hf, D2, D1, D0, P2, P1, P0. apply assoc_set_file_same.
Qed.

(** X13. In mode "no-color", when [reconfig] returns, the instance
    carries the new run index and the snapshot file named by this new
    index (not by the index the instance had before) holds the pickle of
    the stores [reconfig] leaves. *)
Theorem reconfig_snapshot_under_new_index (cacheSizeList : list value)
  (run_index : Z) (t : NetTopology) (w : World)
  (t' : NetTopology) (w' : World) :
  eq_str (mode t) "no-color" = true ->
  reconfig cacheSizeList run_index t w = (inr tt, t', w') ->
  parallel_idx t' = run_index /\
  assoc (cacheDict_path (configDirPath t) run_index) (files w')
  = Some (pickle_cache (cacheMemoryDict t')).
Proof.
  intros Hm H. rewrite reconfig_after_reset in H.
  bind_inv H as u t1 w1 R1.
  keeps_in R1 mode M1. keeps_in R1 parallel_idx P1.
  keeps_in R1 configDirPath D1.
  cbn [mode configDirPath parallel_idx set_parallel_idx set_cacheMemoryDict]
    in M1, P1, D1.
  rewrite <- M1 in Hm.
  destruct (no_color_snapshot _ _ _ _ Hm H) as (P & D & F).
  rewrite P1 in P. rewrite D1, P1 in F. split; assumption.
Qed.

(** ** Colour tagging *)

Lemma dict_set_keys_present {V} (k : value) (v x : V) (d : dict V) :
  dict_get k d = Some x -> dict_keys (dict_set k v d) = dict_keys d.
Proof.
  unfold dict_keys.
  induction d as [|[k0 v0] d IH]; simpl; [discriminate|].
  destruct (key_eqb k0 k); simpl; [reflexivity|].
  intros H. now rewrite IH.
Qed.

Lemma assign_color_keeps_keys colors server :
  keeps (fun t => dict_keys (cacheMemoryDict t)) (assign_color colors server).
Proof.
  intros t w. unfold assign_color. mrun.
  destruct (dict_get server colors) as [c|]; [|reflexivity].
  unfold self_after. cbn [fst snd].
  destruct (dict_get server (cacheMemoryDict t)) as [st|] eqn:E; [|reflexivity].
  destruct (setServerColor st c) as [e|st']; cbn [fst snd]; [reflexivity|].
  cbn [cacheMemoryDict set_cacheMemoryDict].
  eapply dict_set_keys_present. exact E.
Qed.

Lemma colouring_keeps_keys :
  keeps (fun t => dict_keys (cacheMemoryDict t))
        (run_coloring ;;; assignColorForCacheMemory).
Proof.
  apply keeps_bind.
  - unfold run_coloring. keeps_auto.
  - intros _. unfold assignColorForCacheMemory.
    apply keeps_bind; [apply keeps_gets|]. intros colors.
    apply keeps_forM. intros server. apply assign_color_keeps_keys.
Qed.

(** X14. Outside mode "no-color", [warmUp] neither creates nor removes
    a store: the instance has the same store keys, in the same order,
    afterwards, whether [warmUp] returns or raises part-way through the
    colour tagging. *)
Theorem warmUp_colouring_keeps_store_keys (t : NetTopology) (w : World) :
  eq_str (mode t) "no-color" = false ->
  dict_keys (cacheMemoryDict (self_after (warmUp t w)))
  = dict_keys (cacheMemoryDict t).
Proof.
  intros Hn. rewrite warmUp_by_mode, Hn.
  destruct (eq_str (mode t) "no-cache"); [reflexivity|].
  destruct (eq_str (mode t) "tag-color").
  - apply colouring_keeps_keys.
  - assert (K : keeps (fun t => dict_keys (cacheMemoryDict t))
                  ((run_coloring ;;; assignColorForCacheMemory) ;;;
                   saveNearestColorServerInfo)).
    { apply keeps_bind; [apply colouring_keeps_keys|].
      intros _. apply keeps_saveNearestColorServerInfo. }
    specialize (K t w). rewrite <- K. unfold bind.
    destruct (run_coloring t w) as [[[e|u] t1] w1]; [reflexivity|].
    destruct (assignColorForCacheMemory t1 w1) as [[[e|u'] t2] w2];
      reflexivity.
Qed.

Lemma forM_app {A} (f : A -> M unit) (l1 l2 : list A) t w :
  forM f (l1 ++ l2) t w = (forM f l1 ;;; forM f l2) t w.
Proof.
  unfold forM. revert t w.
  induction l1 as [|a l1 IH]; intros t w; simpl.
  - reflexivity.
  - unfold bind. destruct (f a t w) as [[[e|u] t1] w1]; [reflexivity|].
    destruct u. rewrite IH. unfold bind. reflexivity.
Qed.

Lemma assign_loop_runs colors ks :
  forall t w,
    distinct_keys ks = true ->
    (forall s, In s ks ->
       exists c st st',
         dict_get s colors = Some c /\
         dict_get s (cacheMemoryDict t) = Some st /\
         setServerColor st c = inr st') ->
    exists t1 w1, forM (assign_color colors) ks t w = (inr tt, t1, w1).
Proof.
  unfold forM.
  induction ks as [|k ks IH]; intros t w Hd Hs; simpl.
  - eexists _, _. reflexivity.
  - destruct (Hs k (or_introl eq_refl)) as (c & st & st' & Hc & Hst & Hset).
    simpl in Hd. apply andb_true_iff in Hd as [Hk Hd].
    apply negb_true_iff in Hk.
    assert (E : assign_color colors k t w
                = (inr tt,
                   set_cacheMemoryDict (dict_set k st' (cacheMemoryDict t)) t,
                   set_log (log w ++ [EvSetServerColor k c]) w)).
    { unfold assign_color. mrun. rewrite Hc, Hst. cbn [fst snd].
      rewrite Hset. reflexivity. }
    unfold bind at 1. rewrite E.
    apply IH; [exact Hd|].
    intros s Hin. destruct (Hs s (or_intror Hin)) as (c' & st0 & st0' & A & B & C).
    exists c', st0, st0'. split; [exact A | split; [|exact C]].
    cbn [cacheMemoryDict set_cacheMemoryDict]. rewrite dict_get_set.
    assert (Ek : key_eqb k s = false).
    { clear -Hk Hin. induction ks as [|x ks IHk]; simpl in *; [contradiction|].
      apply orb_false_iff in Hk as [H1 H2].
      destruct Hin as [->|Hin]; auto. }
    now rewrite Ek.
Qed.

Lemma distinct_keys_app_l l1 l2 :
  distinct_keys (l1 ++ l2) = true -> distinct_keys l1 = true.
Proof.
  induction l1 as [|x l1 IH]; simpl; intros H; [reflexivity|].
  apply andb_true_iff in H as [Hx Hd].
  rewrite existsb_app in Hx. apply negb_true_iff in Hx.
  apply orb_false_iff in Hx as [Hx _]. rewrite Hx. simpl. now apply IH.
Qed.

(** X15. [assignColorForCacheMemory] is not all-or-nothing.  When the
    colour map names, after some nodes whose stores take their colour,
    a node that has no store, the call raises [KeyError] for that node,
    the stores of the nodes before it have already been tagged and stay
    tagged, and no node after it is looked at. *)
Theorem assignColor_stops_at_missing_store (t : NetTopology) (w : World)
  (pre post : dict value) (k c : value) :
  serverToColorMap t = pre ++ (k, c) :: post ->
  distinct_keys (dict_keys (serverToColorMap t)) = true ->
  (forall s, In s (dict_keys pre) ->
     exists c' st st',
       dict_get s (serverToColorMap t) = Some c' /\
       dict_get s (cacheMemoryDict t) = Some st /\
       setServerColor st c' = inr st') ->
  dict_get k (cacheMemoryDict t) = None ->
  let o := assignColorForCacheMemory t w in
  result o = inl (KeyError k) /\
  (forall s, In s (dict_keys pre) ->
     exists c' st st',
       dict_get s (serverToColorMap t) = Some c' /\
       dict_get s (cacheMemoryDict t) = Some st /\
       setServerColor st c' = inr st' /\
       dict_get s (cacheMemoryDict (self_after o)) = Some st') /\
  log (world_after o)
  = log w ++ map (fun s => EvSetServerColor s
                             (match dict_get s (serverToColorMap t) with
                              | Some c' => c'
                              | None => VNone
                              end)) (dict_keys pre).
Proof.
  intros Hmap Hd Hpre Hk. cbv zeta.
  set (colors := serverToColorMap t) in *.
  assert (Hkeys : dict_keys colors = dict_keys pre ++ k :: dict_keys post).
  { rewrite Hmap. unfold dict_keys. now rewrite map_app. }
  rewrite Hkeys in Hd.
  assert (Hd1 : distinct_keys (dict_keys pre) = true)
    by (eapply distinct_keys_app_l; exact Hd).
  destruct (assign_loop_runs colors (dict_keys pre) t w Hd1 Hpre)
    as (t1 & w1 & R).
  destruct (assign_loop _ _ _ _ _ _ R Hd1) as (A & B & C).
  assert (Hk1 : dict_get k (cacheMemoryDict t1) = None).
  { rewrite B; [exact Hk|]. eapply distinct_keys_app_fresh. exact Hd. }
  assert (E : assignColorForCacheMemory t w = (inl (KeyError k), t1, w1)).
  { unfold assignColorForCacheMemory. unfold bind at 1, gets at 1.
    cbv beta iota. unfold ok. cbv beta iota. fold colors.
    rewrite Hkeys, forM_app. unfold bind at 1. rewrite R.
    unfold forM. simpl. unfold bind at 1.
    unfold assign_color. mrun.
    destruct (dict_get k colors); [rewrite Hk1|]; reflexivity. }
  rewrite E. unfold result, self_after, world_after. cbn [fst snd].
  split; [reflexivity | split; [exact A | exact C]].
Qed.

(** ** The files [build] can touch *)

Ltac build_world_frame :=
  repeat first
    [ leaves_step
    | progress unfold build_reset, build_content, build_graph, build_routers,
        build_clients, build_links, build_router, build_client, build_link,
        peer_ip, graph_add_node, graph_add_edge, alloc_store, set_cache,
        remove_mainServer ].

Lemma build_before_warmUp_files cfg s :
  leaves files (build_content cfg s ;;; build_graph cfg).
Proof. build_world_frame. Qed.

Lemma build_before_warmUp_keeps {X} (f : NetTopology -> X) cfg s :
  (forall g t, f (set_graph g t) = f t) ->
  (forall d t, f (set_cacheMemoryDict d t) = f t) ->
  (forall a t, f (set_alpha a t) = f t) ->
  (forall l t, f (set_clientIds l t) = f t) ->
  (forall l t, f (set_routerIds l t) = f t) ->
  (forall l t, f (set_tempClientIds l t) = f t) ->
  (forall c t, f (set_contentGenerator c t) = f t) ->
  keeps f (build_content cfg s ;;; build_graph cfg).
Proof.
  intros H1 H2 H3 H4 H5 H6 H7.
  repeat first
    [ match goal with
      | |- keeps _ (modify _) => apply keeps_modify; intros; auto
      end
    | keeps_step
    | progress unfold build_content, build_graph, build_routers,
        build_clients, build_links, build_router, build_client, build_link,
        peer_ip, graph_add_node, graph_add_edge, alloc_store, set_cache,
        remove_mainServer ].
Qed.

Lemma build_as_phases t w :
  build t w
  = (s <- lift (select_sampler (networkInfo t)) ;;
     (build_content (networkInfo t) s ;;; build_graph (networkInfo t)) ;;;
     warmUp)
      (set_tempClientIds [VStr "mainClone"]
         (set_routerIds [] (set_clientIds [] (set_cacheMemoryDict [] t))))
      (set_log (log w ++ [EvPrint "*** Processing content list"]) w).
Proof.
  unfold build. unfold bind at 1. rewrite build_reset_run.
  unfold bind at 1, gets at 1. cbv beta iota. unfold ok.
  cbn [networkInfo set_tempClientIds set_routerIds set_clientIds
       set_cacheMemoryDict].
  unfold bind, lift.
  destruct (select_sampler (networkInfo t)) as [e|s]; [reflexivity|].
  match goal with
  | |- context [build_content ?c ?s ?t ?w] =>
      destruct (build_content c s t w) as [[[e|u] t1] w1]; [reflexivity|]
  end.
  destruct (build_graph (networkInfo t) t1 w1) as [[[e|u'] t2] w2];
    reflexivity.
Qed.

(** X16. Whatever the mode and however it ends, [build] changes no
    file except the snapshot of the run index the instance has and the
    nearest-colour table. *)
Theorem build_touches_own_files (t : NetTopology) (w : World) (q : string) :
  q <> cacheDict_path (configDirPath t) (parallel_idx t) ->
  q <> nearestColor_path (configDirPath t) ->
  assoc q (files (world_after (build t w))) = assoc q (files w).
Proof.
  intros Hc Hn. rewrite build_as_phases.
  change (files w)
    with (files (set_log (log w ++ [EvPrint "*** Processing content list"])
                         w)).
  apply bind_files; [world_frame|]. intros s t1 w1 R1.
  unfold lift in R1. pair_inv R1.
  apply bind_files; [apply build_before_warmUp_files|]. intros u t2 w2 R2.
  assert (D : keeps configDirPath
                (build_content (networkInfo t) s ;;;
                 build_graph (networkInfo t)))
    by (apply build_before_warmUp_keeps; reflexivity).
  assert (P : keeps parallel_idx
                (build_content (networkInfo t) s ;;;
                 build_graph (networkInfo t)))
    by (apply build_before_warmUp_keeps; reflexivity).
  match type of R2 with
  | ?m ?t0 ?w0 = _ =>
      specialize (D t0 w0); specialize (P t0 w0); rewrite R2 in D, P
  end.
  unfold self_after in D, P. cbn in D, P.
  apply warmUp_files; now rewrite ?D, ?P.
Qed.

(** X17. In mode "no-color", when [build] returns, the run index is
    the one the instance had (0 for a fresh instance), and the snapshot
    file of that index holds the pickle of the stores [build] leaves. *)
Theorem build_snapshot_under_current_index (t : NetTopology) (w : World)
  (t' : NetTopology) (w' : World) :
  eq_str (mode t) "no-color" = true ->
  build t w = (inr tt, t', w') ->
  parallel_idx t' = parallel_idx t /\
  assoc (cacheDict_path (configDirPath t) (parallel_idx t)) (files w')
  = Some (pickle_cache (cacheMemoryDict t')).
Proof.
  intros Hm H. rewrite build_as_phases in H.
  bind_inv H as s t1 w1 R1. unfold lift in R1. pair_inv R1.
  bind_inv H as u t2 w2 R2.
  assert (D : keeps configDirPath
                (build_content (networkInfo t) s ;;;
                 build_graph (networkInfo t)))
    by (apply build_before_warmUp_keeps; reflexivity).
  assert (P : keeps parallel_idx
                (build_content (networkInfo t) s ;;;
                 build_graph (networkInfo t)))
    by (apply build_before_warmUp_keeps; reflexivity).
  assert (K : keeps mode
                (build_content (networkInfo t) s ;;;
                 build_graph (networkInfo t)))
    by (apply build_before_warmUp_keeps; reflexivity).
  match type of R2 with
  | ?m ?t0 ?w0 = _ =>
      specialize (D t0 w0); specialize (P t0 w0); specialize (K t0 w0);
      rewrite R2 in D, P, K
  end.
  unfold self_after in D, P, K. cbn in D, P, K.
  rewrite <- K in Hm.
  destruct (no_color_snapshot _ _ _ _ Hm H) as (P' & D' & F).
  rewrite D, P in F. rewrite P in P'. split; assumption.
Qed.

(** ** Link endpoints *)

Lemma slash_in_cons c s :
  is_substring "/" (String c s) = Ascii.eqb c "/" || is_substring "/" s.
Proof.
  simpl. rewrite andb_true_r. now rewrite (Ascii.eqb_sym c "/"%char).
Qed.

Lemma str_split_head s :
  exists h tl,
    str_split "/" s = h :: tl /\ is_substring "/" h = false /\
    ((tl = [] /\ s = h) \/
     (exists rest, s = (h ++ "/" ++ rest)%string /\
                   str_split "/" rest = tl)).
Proof.
  induction s as [|c s IH].
  - exists EmptyString, []. simpl. auto.
  - destruct IH as (h & tl & E & Hh & Hs).
    cbn [str_split]. destruct (Ascii.eqb c "/") eqn:Ec.
    + apply Ascii.eqb_eq in Ec. subst c.
      exists EmptyString, (str_split "/" s).
      split; [reflexivity | split; [reflexivity|]].
      right. exists s. auto.
    + rewrite E. exists (String c h), tl.
      split; [reflexivity|]. split.
      * rewrite slash_in_cons, Ec, Hh. reflexivity.
      * destruct Hs as [[-> ->]|(rest & -> & Hr)]; [left; auto|].
        right. exists rest. auto.
Qed.

Lemma str_split_pair s a b :
  str_split "/" s = [a; b] ->
  s = (a ++ "/" ++ b)%string /\
  is_substring "/" a = false /\ is_substring "/" b = false.
Proof.
  intros H.
  destruct (str_split_head s) as (h & tl & E & Hh & Hs).
  rewrite E in H. inversion H; subst h tl. clear H.
  destruct Hs as [[Hnil _]|(rest & -> & Hr)]; [discriminate|].
  destruct (str_split_head rest) as (h & tl & E' & Hh' & Hs').
  rewrite E' in Hr. inversion Hr; subst h tl. clear Hr.
  destruct Hs' as [[_ ->]|(rest' & _ & Hr')]; [auto|].
  destruct (str_split_head rest') as (h & tl & E2 & _).
  rewrite E2 in Hr'. discriminate.
Qed.

Lemma str_split_no_slash s :
  is_substring "/" s = false -> str_split "/" s = [s].
Proof.
  induction s as [|c s IH]; [reflexivity|].
  rewrite slash_in_cons. intros H. apply orb_false_iff in H as [Hc Hs].
  cbn [str_split]. rewrite Hc, (IH Hs). reflexivity.
Qed.

(** X18. A link entry without [params2] that [build] processes has a
    first endpoint of the form node/interface with exactly one "/", and
    becomes an edge from that node to the second endpoint taken as it is
    written, with no interface split off: the edge records the node and
    interface of the first endpoint, the interface "0" for the second,
    and the peer address carried on to the next round. *)
Theorem build_link_second_end_unsplit (l nodeIds n1 : value) (s : string)
  (ip2 : option value) (t : NetTopology) (w : World)
  (r : option value) (t1 : NetTopology) (w1 : World) :
  getitem l "NodeIds" = inr nodeIds ->
  index nodeIds 0 = inr (VStr s) ->
  index nodeIds 1 = inr n1 ->
  contains "params2" l = inr false ->
  build_link ip2 l t w = (inr r, t1, w1) ->
  exists a b d,
    s = (a ++ "/" ++ b)%string /\
    is_substring "/" a = false /\ is_substring "/" b = false /\
    get_edge (graph t1) (VStr a) n1 = Some d /\
    id_1 d = a /\ interface_1 d = b /\ interface_2 d = "0"%string /\
    r = Some (ip_2 d) /\
    has_node (graph t1) (VStr a) = true /\ has_node (graph t1) n1 = true.
Proof.
  intros Hn H0 H1 H2 H.
  destruct (build_link_nodes _ _ _ _ _ _ _ H)
    as (u & v & Hends & Hu & Hv & _).
  unfold build_link in H.
  bind_inv H as x0 t2 w2 R. unfold lift in R. rewrite Hn in R.
  inversion R; subst x0 t2 w2; clear R.
  bind_inv H as x1 t2 w2 R. unfold lift in R. rewrite H0 in R.
  inversion R; subst x1 t2 w2; clear R.
  bind_inv H as p1 t2 w2 R. unfold lift in R.
  destruct (split_pair (VStr s)) as [e|[a b]] eqn:Es; [discriminate|].
  inversion R; subst p1 t2 w2; clear R.
  bind_inv H as params1 t2 w2 R. unfold lift in R.
  destruct (getitem l "params1") as [e|p] eqn:Ep; [discriminate|].
  inversion R; subst params1 t2 w2; clear R.
  bind_inv H as two t2 w2 R. unfold lift in R. rewrite H2 in R.
  inversion R; subst two t2 w2; clear R.
  cbv iota in H.
  bind_inv H as x2 t2 w2 R. unfold lift in R. rewrite H1 in R.
  inversion R; subst x2 t2 w2; clear R.
  bind_inv H as a1 t2 w2 R. unfold lift in R.
  destruct (getitem p "ip") as [e|a1'] eqn:Ea; [discriminate|].
  inversion R; subst a1 t2 w2; clear R.
  bind_inv H as peer t3 w3 R.
  keeps_in R graph G3.
  bind_inv H as a1 t4 w4 R4. unfold lift in R4.
  inversion R4; subst a1 t4 w4; clear R4.
  destruct peer as [a2|]; [|discriminate].
  bind_inv H as bw t5 w5 R5. unfold lift in R5.
  destruct (getitem p "bw") as [e|bw'] eqn:Eb; [discriminate|].
  inversion R5; subst bw t5 w5; clear R5.
  bind_inv H as wt t5 w5 R5. unfold lift in R5.
  destruct (one_over bw') as [e|wt'] eqn:Ew; [discriminate|].
  inversion R5; subst wt t5 w5; clear R5.
  bind_inv H as x3 t5 w5 R5. unfold ret in H.
  inversion H; subst r t5 w5; clear H.
  apply graph_add_edge_run in R5 as (Ha & Hb & He).
  unfold link_ends in Hends. rewrite Hn, H0, Es, H2, H1 in Hends.
  unfold ok in Hends. inversion Hends; subst u v. clear Hends.
  cbn [fst snd] in *.
  unfold split_pair in Es.
  destruct (str_split "/" s) as [|a0 [|b0 [|c0 rest]]] eqn:Esp;
    try discriminate.
  unfold ok in Es. inversion Es; subst a0 b0. clear Es.
  destruct (str_split_pair _ _ _ Esp) as (Hs & Hsa & Hsb).
  exists a, b, (mkEdge b "0" a a1' a2 wt').
  split; [exact Hs | split; [exact Hsa | split; [exact Hsb|]]].
  split.
  { unfold get_edge. rewrite He. apply find_put_edge_same; assumption. }
  cbn [id_1 interface_1 interface_2 ip_2]. auto 10.
Qed.

(** X19. An endpoint written without "/" stops [build] at that link:
    the round raises [ValueError] before it reads the link's parameters,
    and nothing is added to the graph.  This holds for the first
    endpoint of any link. *)
Theorem build_link_endpoint_without_interface (l nodeIds : value)
  (s : string) (ip2 : option value) (t : NetTopology) (w : World) :
  getitem l "NodeIds" = inr nodeIds ->
  index nodeIds 0 = inr (VStr s) ->
  is_substring "/" s = false ->
  build_link ip2 l t w = (inl ValueError, t, w).
Proof.
  intros Hn H0 Hs. unfold build_link.
  unfold bind at 1, lift at 1. rewrite Hn.
  unfold bind at 1, lift at 1. rewrite H0.
  unfold bind at 1, lift at 1. unfold split_pair.
  rewrite (str_split_no_slash _ Hs). reflexivity.
Qed.

End Properties.

(** * Runs on the sample network *)

#[local] Existing Instance Sample.collaborators.

Lemma warmUp_no_cache_noop_run :
  let t := self_after (build (Sample.topo Sample.net1 "no-cache") Sample.world0) in
  let w := world_after (build (Sample.topo Sample.net1 "no-cache") Sample.world0) in
  eq_str (mode t) "no-cache" = true /\ warmUp t w = (ok tt, t, w).
Proof.
  split; [reflexivity | apply warmUp_no_cache_noop; reflexivity].
Defined.

(** C4 (counterexample). A snapshot write that fails after the first
    byte: the complete snapshot that was at the canonical path is gone,
    and the one-byte prefix of the new pickle is there in its place. *)
Lemma snapshot_write_not_atomic :
  let t := self_after (build (Sample.topo Sample.net1 "no-cache") Sample.world0) in
  let p := cacheDict_path (configDirPath t) (parallel_idx t) in
  let w := Sample.world [(p, [Byte.x80; Byte.x2e])] [IoWriteFails 1] in
  let o := saveCacheDict t w in
  pickle_cache (cacheMemoryDict t) = [Byte.x80; Byte.x2e] /\
  assoc p (files w) = Some [Byte.x80; Byte.x2e] /\
  result o = inl OSError /\
  assoc p (files (world_after o)) = Some [Byte.x80] /\
  map fst (files (world_after o)) = [p].
Proof. vm_compute. repeat split; reflexivity. Qed.

(** C6 (counterexample). The sample network with the [samplingMethod]
    entry left out: [build] raises [KeyError] before any content model
    exists; with the entry set to [None] the same network builds. *)
Lemma build_without_samplingMethod_raises :
  let o := build (Sample.topo (Sample.net []) "no-cache") Sample.world0 in
  getitem (Sample.net []) "samplingMethod"
  = inl (KeyError (VStr "samplingMethod")) /\
  result o = inl (KeyError (VStr "samplingMethod")) /\
  contentGenerator (self_after o) = None /\
  result (build (Sample.topo (Sample.net Sample.no_sampling) "no-cache")
                Sample.world0) = inr tt.
Proof. vm_compute. repeat split; reflexivity. Qed.


(** C1 (witness). [reconfig] on the built sample network: with one
    capacity for its one caching router, and with none. *)
Lemma reconfig_allocates_then_warms_run :
  let o := build (Sample.topo Sample.net1 "no-color") Sample.world0 in
  let t := self_after o in
  let w := world_after o in
  let stores := [(VStr "r1", LRUCache (fmul (float_of_Z 5) float_one))] in
  getitem (networkInfo t) "Routers" = inr (VList Sample.routers1) /\
  iter (VList Sample.routers1) = inr Sample.routers1 /\
  alpha t = Some float_one /\
  fresh_stores float_one Sample.routers1 [VInt 5] = Some stores /\
  reconfig [VInt 5] 3 t w
  = warmUp (set_cacheMemoryDict (assign_all [] stores) (set_parallel_idx 3 t)) w
  /\
  reconfig [] 3 t w
  = (inl IndexError, set_cacheMemoryDict [] (set_parallel_idx 3 t), w).
Proof.
  cbv zeta.
  assert (H1 : getitem
                 (networkInfo
                    (self_after
                       (build (Sample.topo Sample.net1 "no-color")
                              Sample.world0)))
                 "Routers" = inr (VList Sample.routers1))
    by (vm_compute; reflexivity).
  assert (H2 : iter (VList Sample.routers1) = inr Sample.routers1)
    by reflexivity.
  assert (H3 : alpha (self_after
                        (build (Sample.topo Sample.net1 "no-color")
                               Sample.world0)) = Some float_one)
    by (vm_compute; reflexivity).
  assert (H4 : fresh_stores float_one Sample.routers1 [VInt 5]
               = Some [(VStr "r1", LRUCache (fmul (float_of_Z 5) float_one))])
    by (vm_compute; reflexivity).
  split; [exact H1 | split; [exact H2 | split; [exact H3 | split; [exact H4|]]]].
  split.
  - exact (proj1 (proj1 (reconfig_allocates_then_warms _ _ [VInt 5] 3%Z
                           _ _ _ H1 H2 H3) _ H4)).
  - exact (proj2 (reconfig_allocates_then_warms _ _ [] 3%Z _ _ _ H1 H2 H3)
                 [Sample.router "mainServer" []]
                 (Sample.router "r1" (Sample.lru 2)) [] [] (VStr "r1")
                 eq_refl eq_refl eq_refl eq_refl eq_refl).
Defined.

(** C1 (counterexample). [reconfig] with an empty capacity list on the
    built sample network: router r1 has a "type" entry, yet the call
    raises [IndexError], the mapping stays empty and [warmUp] is not
    run: the world is untouched, where [warmUp] would have logged its
    calls. *)
Lemma reconfig_short_list_raises :
  let o := build (Sample.topo Sample.net1 "no-color") Sample.world0 in
  let o' := reconfig [] 7 (self_after o) (world_after o) in
  filter typed Sample.routers1 = [Sample.router "r1" (Sample.lru 2)] /\
  result o' = inl IndexError /\
  cacheMemoryDict (self_after o') = [] /\
  world_after o' = world_after o /\
  log (world_after (warmUp (self_after o') (world_after o)))
  <> log (world_after o).
Proof. vm_compute. repeat split; try reflexivity. discriminate. Qed.

(** C9 (counterexample). Two router entries named "mainServer":
    [build] returns, and "mainServer" is still among [routerIds]. *)
Lemma build_keeps_second_mainServer :
  let o := build (Sample.topo Sample.net_two_origins "no-cache") Sample.world0 in
  result o = inr tt /\
  routerIds (self_after o) = Some [VStr "r1"; VStr "mainServer"].
Proof. vm_compute. split; reflexivity. Qed.




(** C3 (witness). [warmUp] in a colouring mode on the sample network
    with a colour-partitioned store on r1, the colour list naming r1. *)
Lemma warmUp_colours_then_persists_run :
  let o := build (Sample.topo_colored Sample.net_hybrid "color" ["r1"])
                 Sample.world0 in
  let t := self_after o in
  let w := world_after o in
  let o' := warmUp t w in
  eq_str (mode t) "no-cache" = false /\
  eq_str (mode t) "no-color" = false /\
  serverToColorMap (self_after o') = [(VStr "r1", VInt 0)] /\
  colorRouteInfo (self_after o') = Some tt.
Proof.
  cbv zeta.
  set (t := self_after (build (Sample.topo_colored Sample.net_hybrid "color"
                                                   ["r1"]) Sample.world0)).
  set (w := world_after (build (Sample.topo_colored Sample.net_hybrid "color"
                                                    ["r1"]) Sample.world0)).
  assert (H1 : eq_str (mode t) "no-cache" = false) by (vm_compute; reflexivity).
  assert (H2 : eq_str (mode t) "no-color" = false) by (vm_compute; reflexivity).
  assert (H3 : getColoringInfo (graph t) (colorList t) (rng w)
               = (inr (tt, [(VStr "r1", VInt 0)]), rng w))
    by (vm_compute; reflexivity).
  assert (H4 : distinct_keys (dict_keys [(VStr "r1", VInt 0)]) = true)
    by reflexivity.
  assert (H5 : warmUp t w
               = (inr tt, self_after (warmUp t w), world_after (warmUp t w)))
    by (vm_compute; reflexivity).
  split; [exact H1 | split; [exact H2|]].
  destruct (proj2 (warmUp_colours_then_persists t w H1 H2) _ _ _ _ _ H3 H4 H5)
    as (A & B & _).
  split; [exact A | exact B].
Defined.

(** C10 (witness). The same run: r1 is coloured, has a store, and the
    store takes the colour. *)
Lemma warmUp_colouring_needs_stores_run :
  let o := build (Sample.topo_colored Sample.net_hybrid "color" ["r1"])
                 Sample.world0 in
  let t := self_after o in
  let w := world_after o in
  let o' := warmUp t w in
  eq_str (mode t) "no-cache" = false /\
  eq_str (mode t) "no-color" = false /\
  getColoringInfo (graph t) (colorList t) (rng w)
  = (inr (tt, [(VStr "r1", VInt 0)]), rng w) /\
  distinct_keys (dict_keys [(VStr "r1", VInt 0)]) = true /\
  exists c st st',
    dict_get (VStr "r1") [(VStr "r1", VInt 0)] = Some c /\
    dict_get (VStr "r1") (cacheMemoryDict t) = Some st /\
    setServerColor st c = inr st' /\
    In (EvSetServerColor (VStr "r1") c) (log (world_after o')).
Proof.
  cbv zeta.
  set (t := self_after (build (Sample.topo_colored Sample.net_hybrid "color"
                                                   ["r1"]) Sample.world0)).
  set (w := world_after (build (Sample.topo_colored Sample.net_hybrid "color"
                                                    ["r1"]) Sample.world0)).
  assert (H1 : eq_str (mode t) "no-cache" = false) by (vm_compute; reflexivity).
  assert (H2 : eq_str (mode t) "no-color" = false) by (vm_compute; reflexivity).
  assert (H3 : getColoringInfo (graph t) (colorList t) (rng w)
               = (inr (tt, [(VStr "r1", VInt 0)]), rng w))
    by (vm_compute; reflexivity).
  assert (H4 : distinct_keys (dict_keys [(VStr "r1", VInt 0)]) = true)
    by reflexivity.
  assert (H5 : warmUp t w
               = (inr tt, self_after (warmUp t w), world_after (warmUp t w)))
    by (vm_compute; reflexivity).
  split; [exact H1 | split; [exact H2 | split; [exact H3 | split; [exact H4|]]]].
  exact (proj1 (warmUp_colouring_needs_stores t w _ _ _ H1 H2 H3 H4) _ _ H5
               (VStr "r1") (or_introl eq_refl)).
Defined.

(** X20 (witness). Two instances of the sample network: one fresh from
    [build], the other after an earlier [reconfig] with another capacity
    and run index, in a world that already holds a snapshot file.
    [reconfig [5] 3] ends the same way in both. *)
Lemma reconfig_forgets_earlier_runs_run :
  let o := build (Sample.topo Sample.net1 "no-color") Sample.world0 in
  let t1 := self_after o in
  let w1 := Sample.world [] [] in
  let t2 := self_after (reconfig [VInt 9] 1 t1 w1) in
  let w2 := Sample.world [("/tmp/run/cacheDict1.pkl", [Byte.x80])] [] in
  let o1 := reconfig [VInt 5] 3 t1 w1 in
  let o2 := reconfig [VInt 5] 3 t2 w2 in
  same_inputs t1 t2 /\
  same_seed w1 w2 /\
  cacheMemoryDict t1 <> cacheMemoryDict t2 /\
  result o1 = result o2 /\
  cacheMemoryDict (self_after o1) = cacheMemoryDict (self_after o2) /\
  contentGenerator (self_after o1) = contentGenerator (self_after o2) /\
  rng (world_after o1) = rng (world_after o2).
Proof.
  cbv zeta.
  set (t1 := self_after (build (Sample.topo Sample.net1 "no-color")
                               Sample.world0)).
  set (w1 := Sample.world [] []).
  set (t2 := self_after (reconfig [VInt 9] 1 t1 w1)).
  set (w2 := Sample.world [("/tmp/run/cacheDict1.pkl", [Byte.x80])] []).
  assert (H1 : same_inputs t1 t2) by (vm_compute; repeat split; reflexivity).
  assert (H2 : same_seed w1 w2) by (split; reflexivity).
  assert (H3 : cacheMemoryDict t1 <> cacheMemoryDict t2)
    by (vm_compute; discriminate).
  split; [exact H1 | split; [exact H2 | split; [exact H3|]]].
  exact (reconfig_forgets_earlier_runs [VInt 5] 3 t1 t2 w1 w2 H1 H2).
Defined.

(** * Further runs on the sample network *)

(** X2 (witness). Mode "color" with a colouring that fails: [warmUp]
    raises its exception, with the instance as it was. *)
Lemma warmUp_colouring_failure_run :
  let t := Sample.topo_uncolourable Sample.net1 "color" in
  let w := Sample.world_uncolourable in
  eq_str (mode t) "no-cache" = false /\
  eq_str (mode t) "no-color" = false /\
  @warmUp Sample.uncolourable t w
  = (inl (External "coloring"), t,
     @set_rng Sample.uncolourable 1%nat
       (@set_log Sample.uncolourable (log w ++ [EvColoring]) w)).
Proof.
  cbv zeta.
  assert (H1 : eq_str (mode (Sample.topo_uncolourable Sample.net1 "color"))
                      "no-cache" = false) by reflexivity.
  assert (H2 : eq_str (mode (Sample.topo_uncolourable Sample.net1 "color"))
                      "no-color" = false) by reflexivity.
  split; [exact H1 | split; [exact H2|]].
  exact (@warmUp_colouring_failure Sample.uncolourable
           (Sample.topo_uncolourable Sample.net1 "color")
           Sample.world_uncolourable (External "coloring") 1%nat
           H1 H2 eq_refl).
Defined.

(** X3 (witness). The sample network with an empty [RequestModels]. *)
Lemma build_without_request_model_run :
  let t := Sample.topo Sample.net_no_model "no-cache" in
  getitem (networkInfo t) "RequestModels" = inr (VDict []) /\
  result (build t Sample.world0) = inl (UnboundLocalError "dist") /\
  contentGenerator (self_after (build t Sample.world0)) = contentGenerator t.
Proof.
  cbv zeta.
  assert (H : getitem (networkInfo (Sample.topo Sample.net_no_model "no-cache"))
                      "RequestModels" = inr (VDict [])) by reflexivity.
  split; [exact H|].
  exact (build_without_request_model
           (Sample.topo Sample.net_no_model "no-cache") Sample.world0
           None (VInt 1) (VDict [])
           eq_refl eq_refl H eq_refl eq_refl eq_refl).
Defined.

(** X4 (witness). [reconfig] on the sample instance before [build]. *)
Lemma reconfig_before_build_run :
  let t := Sample.topo Sample.net1 "no-cache" in
  alpha t = None /\
  reconfig [VInt 5] 3 t Sample.world0
  = (inl (AttributeError "alpha"),
     set_parallel_idx 3 (set_cacheMemoryDict [] t), Sample.world0).
Proof.
  cbv zeta.
  assert (H : alpha (Sample.topo Sample.net1 "no-cache") = None)
    by reflexivity.
  split; [exact H|].
  refine (reconfig_before_build
            (Sample.topo Sample.net1 "no-cache") Sample.world0 [VInt 5] 3
            (VList Sample.routers1) [Sample.router "mainServer" []] []
            (Sample.router "r1" (Sample.lru 2)) (VStr "r1") (VInt 5) (float_of_Z 5)
            H eq_refl eq_refl _ eq_refl eq_refl eq_refl eq_refl).
  intros p [<-|[]]. reflexivity.
Defined.

(** X5 (witness). Two capacities more than the built sample network
    has caching routers. *)
Lemma reconfig_ignores_surplus_run :
  let o := build (Sample.topo Sample.net1 "no-color") Sample.world0 in
  let t := self_after o in
  let w := world_after o in
  fresh_stores float_one Sample.routers1 [VInt 5]
  = Some [(VStr "r1", LRUCache (fmul (float_of_Z 5) float_one))] /\
  reconfig ([VInt 5] ++ [VInt 7; VInt 9]) 3 t w = reconfig [VInt 5] 3 t w.
Proof.
  cbv zeta.
  assert (H1 : getitem
                 (networkInfo
                    (self_after
                       (build (Sample.topo Sample.net1 "no-color")
                              Sample.world0)))
                 "Routers" = inr (VList Sample.routers1))
    by (vm_compute; reflexivity).
  assert (H2 : iter (VList Sample.routers1) = inr Sample.routers1)
    by reflexivity.
  assert (H3 : alpha (self_after
                        (build (Sample.topo Sample.net1 "no-color")
                               Sample.world0)) = Some float_one)
    by (vm_compute; reflexivity).
  assert (H4 : fresh_stores float_one Sample.routers1 [VInt 5]
               = Some [(VStr "r1", LRUCache (fmul (float_of_Z 5) float_one))])
    by (vm_compute; reflexivity).
  split; [exact H4|].
  exact (reconfig_ignores_surplus _ _ [VInt 5] [VInt 7; VInt 9] 3%Z
           _ _ _ _ H1 H2 H3 H4).
Defined.

(** X6 (witness). The client lists of the built sample network. *)
Lemma build_client_id_lists_run :
  let o := build (Sample.topo Sample.net1 "no-cache") Sample.world0 in
  build (Sample.topo Sample.net1 "no-cache") Sample.world0
  = (inr tt, self_after o, world_after o) /\
  exists entry clients ids temps,
    getitem Sample.net1 "Clients" = inr entry /\
    iter entry = inr clients /\
    client_ids clients = Some ids /\
    temp_client_ids clients = Some temps /\
    clientIds (self_after o) = Some ids /\
    tempClientIds (self_after o) = Some (VStr "mainClone" :: temps).
Proof.
  cbv zeta.
  assert (H : build (Sample.topo Sample.net1 "no-cache") Sample.world0
              = (inr tt,
                 self_after (build (Sample.topo Sample.net1 "no-cache")
                                   Sample.world0),
                 world_after (build (Sample.topo Sample.net1 "no-cache")
                                    Sample.world0)))
    by (vm_compute; reflexivity).
  split; [exact H|].
  exact (build_client_id_lists _ _ _ _ H).
Defined.

(** X7 (witness). The sample network with a capacity of 0.1 on r1 and
    the factor 3.0: the store of r1 has capacity 0.30000000000000004, the
    double that [0.1 * 3.0] is. *)
Lemma build_allocates_configured_stores_run :
  let o := build (Sample.topo Sample.net_custom "no-cache") Sample.world0 in
  build (Sample.topo Sample.net_custom "no-cache") Sample.world0
  = (inr tt, self_after o, world_after o) /\
  built_stores (float_of_Z 3) Sample.routers_tenth
  = Some [(VStr "r1", LRUCache (S754_finite false 5404319552844596 (-54)))] /\
  exists entry routers a t4 w4,
    getitem Sample.net_custom "Routers" = inr entry /\
    iter entry = inr routers /\
    alpha (self_after o) = Some a /\
    warmUp t4 w4 = (inr tt, self_after o, world_after o) /\
    forall stores,
      built_stores a routers = Some stores ->
      cacheMemoryDict t4 = assign_all [] stores /\
      (eq_str (VStr "no-cache") "no-cache" = true ->
       cacheMemoryDict (self_after o) = assign_all [] stores).
Proof.
  cbv zeta.
  assert (H : build (Sample.topo Sample.net_custom "no-cache") Sample.world0
              = (inr tt,
                 self_after (build (Sample.topo Sample.net_custom "no-cache")
                                   Sample.world0),
                 world_after (build (Sample.topo Sample.net_custom "no-cache")
                                    Sample.world0)))
    by (vm_compute; reflexivity).
  split; [exact H|].
  split; [vm_compute; reflexivity|].
  exact (build_allocates_configured_stores _ _ _ _ H).
Defined.

(** X8 (witness). The scaling factor of the built sample network, whose
    request model is a distribution. *)
Lemma build_sets_alpha_run :
  let o := build (Sample.topo Sample.net1 "no-cache") Sample.world0 in
  build (Sample.topo Sample.net1 "no-cache") Sample.world0
  = (inr tt, self_after o, world_after o) /\
  exists fs models custom,
    getitem Sample.net1 "FileSize" = inr fs /\
    getitem Sample.net1 "RequestModels" = inr models /\
    contains "custom" models = inr custom /\
    if custom && is_minus_one fs
    then exists x a, getitem2 models "custom" "alpha" = inr x /\
                     py_float x = inr a /\ alpha (self_after o) = Some a
    else alpha (self_after o) = Some float_one.
Proof.
  cbv zeta.
  assert (H : build (Sample.topo Sample.net1 "no-cache") Sample.world0
              = (inr tt,
                 self_after (build (Sample.topo Sample.net1 "no-cache")
                                   Sample.world0),
                 world_after (build (Sample.topo Sample.net1 "no-cache")
                                    Sample.world0)))
    by (vm_compute; reflexivity).
  split; [exact H|].
  exact (build_sets_alpha _ _ _ _ H).
Defined.

(** X9 (witness). [reconfig] with the configured capacity of the built
    sample network. *)
Lemma reconfig_with_configured_sizes_run :
  let o := build (Sample.topo Sample.net1 "no-cache") Sample.world0 in
  let t' := self_after o in
  configured_sizes Sample.routers1 = [VInt 2] /\
  built_stores float_one Sample.routers1 = Some [(VStr "r1", LRUCache (fmul (float_of_Z 2) float_one))] /\
  forall run_index w2,
    reconfig [VInt 2] run_index t' w2
    = (inr tt,
       set_cacheMemoryDict (cacheMemoryDict t') (set_parallel_idx run_index t'),
       w2).
Proof.
  cbv zeta.
  assert (H : build (Sample.topo Sample.net1 "no-cache") Sample.world0
              = (inr tt,
                 self_after (build (Sample.topo Sample.net1 "no-cache")
                                   Sample.world0),
                 world_after (build (Sample.topo Sample.net1 "no-cache")
                                    Sample.world0)))
    by (vm_compute; reflexivity).
  assert (H1 : eq_str (mode (Sample.topo Sample.net1 "no-cache")) "no-cache"
               = true) by reflexivity.
  assert (H2 : getitem (networkInfo (Sample.topo Sample.net1 "no-cache"))
                       "Routers" = inr (VList Sample.routers1))
    by reflexivity.
  assert (H3 : iter (VList Sample.routers1) = inr Sample.routers1)
    by reflexivity.
  assert (H4 : alpha (self_after
                        (build (Sample.topo Sample.net1 "no-cache")
                               Sample.world0)) = Some float_one)
    by (vm_compute; reflexivity).
  assert (H5 : built_stores float_one Sample.routers1
               = Some [(VStr "r1", LRUCache (fmul (float_of_Z 2) float_one))])
    by (vm_compute; reflexivity).
  split; [reflexivity | split; [exact H5|]].
  exact (reconfig_with_configured_sizes _ _ _ _ _ _ _ _ H H1 H2 H3 H4 H5).
Defined.

(** X10 (witness). The nodes of the built sample network. *)
Lemma build_graph_has_all_nodes_run :
  let o := build (Sample.topo Sample.net1 "no-cache") Sample.world0 in
  build (Sample.topo Sample.net1 "no-cache") Sample.world0
  = (inr tt, self_after o, world_after o) /\
  has_node (graph (self_after o)) (VStr "mainServer") = true /\
  has_node (graph (self_after o)) (VStr "r1") = true /\
  has_node (graph (self_after o)) (VStr "client1") = true.
Proof.
  cbv zeta.
  assert (H : build (Sample.topo Sample.net1 "no-cache") Sample.world0
              = (inr tt,
                 self_after (build (Sample.topo Sample.net1 "no-cache")
                                   Sample.world0),
                 world_after (build (Sample.topo Sample.net1 "no-cache")
                                    Sample.world0)))
    by (vm_compute; reflexivity).
  split; [exact H|].
  destruct (build_graph_has_all_nodes _ _ _ _ H) as (R & C & _ & Hm & _).
  split; [exact Hm | split].
  - refine (R (VList Sample.routers1) Sample.routers1
              (Sample.router "r1" (Sample.lru 2)) (VStr "r1")
              eq_refl eq_refl _ eq_refl).
    right. left. reflexivity.
  - refine (C (VList [Sample.client "client1"]) [Sample.client "client1"]
              (Sample.client "client1") (VStr "client1")
              eq_refl eq_refl _ eq_refl).
    left. reflexivity.
Defined.

(** X11 (witness). A link without [params2] whose address ends in
    ".9/30": as the first link it raises; after a link that derived a
    peer address it is built with that address. *)
Lemma build_link_unmatched_address_run :
  let l := Sample.link_one "r1/eth2" "x" "10.0.2.9/30" 10 in
  let t := Sample.topo Sample.net1 "no-cache" in
  let w := Sample.world0 in
  build_link None l t w
  = (inl (UnboundLocalError "ip_2"), t,
     set_log (log w ++ [EvPrint "error ip"]) w) /\
  (forall stale r t1 w1,
     build_link (Some stale) l t w = (inr r, t1, w1) ->
     r = Some stale /\
     exists d, get_edge (graph t1) (VStr "r1") (VStr "x") = Some d /\
               ip_2 d = stale /\ ip_1 d = VStr "10.0.2.9/30").
Proof.
  cbv zeta.
  exact (build_link_unmatched_address
           (Sample.link_one "r1/eth2" "x" "10.0.2.9/30" 10)
           (VList [VStr "r1/eth2"; VStr "x"]) (VStr "r1/eth2")
           (VDict [("ip", VStr "10.0.2.9/30"); ("bw", VInt 10)])
           (VStr "x") (VStr "10.0.2.9/30") ("r1", "eth2")%string
           (Sample.topo Sample.net1 "no-cache") Sample.world0
           eq_refl eq_refl eq_refl eq_refl eq_refl eq_refl eq_refl
           eq_refl eq_refl eq_refl eq_refl).
Defined.

(** X13 (witness). [reconfig] with run index 3 on the sample network
    built in mode "no-color". *)
Lemma reconfig_snapshot_under_new_index_run :
  let o := build (Sample.topo Sample.net1 "no-color") Sample.world0 in
  let o' := reconfig [VInt 5] 3 (self_after o) (world_after o) in
  reconfig [VInt 5] 3 (self_after o) (world_after o)
  = (inr tt, self_after o', world_after o') /\
  parallel_idx (self_after o') = 3%Z /\
  assoc "/tmp/run/cacheDict3.pkl" (files (world_after o'))
  = Some (pickle_cache (cacheMemoryDict (self_after o'))).
Proof.
  cbv zeta.
  set (t := self_after (build (Sample.topo Sample.net1 "no-color")
                              Sample.world0)).
  set (w := world_after (build (Sample.topo Sample.net1 "no-color")
                               Sample.world0)).
  assert (H1 : eq_str (mode t) "no-color" = true) by (vm_compute; reflexivity).
  assert (H2 : reconfig [VInt 5] 3 t w
               = (inr tt, self_after (reconfig [VInt 5] 3 t w),
                  world_after (reconfig [VInt 5] 3 t w)))
    by (vm_compute; reflexivity).
  split; [exact H2|].
  exact (reconfig_snapshot_under_new_index [VInt 5] 3 t w _ _ H1 H2).
Defined.

(** X14 (witness). [warmUp] in mode "color" on the sample network with
    a colour-partitioned store. *)
Lemma warmUp_colouring_keeps_store_keys_run :
  let o := build (Sample.topo_colored Sample.net_hybrid "color" ["r1"])
                 Sample.world0 in
  eq_str (mode (self_after o)) "no-color" = false /\
  dict_keys (cacheMemoryDict (self_after (warmUp (self_after o)
                                                 (world_after o))))
  = dict_keys (cacheMemoryDict (self_after o)).
Proof.
  cbv zeta.
  assert (H : eq_str (mode (self_after
                              (build (Sample.topo_colored Sample.net_hybrid
                                                          "color" ["r1"])
                                     Sample.world0))) "no-color" = false)
    by (vm_compute; reflexivity).
  split; [exact H|].
  exact (warmUp_colouring_keeps_store_keys _ _ H).
Defined.

(** X15 (witness). A colour map that names r1, then the origin, which
    has no store, then r2: r1 is tagged, the call raises for the origin,
    and r2 is not looked at. *)
Lemma assignColor_stops_at_missing_store_run :
  let t := Sample.topo_half_coloured in
  let o := assignColorForCacheMemory t Sample.world0 in
  result o = inl (KeyError (VStr "mainServer")) /\
  (forall s, In s [VStr "r1"] ->
     exists c' st st',
       dict_get s (serverToColorMap t) = Some c' /\
       dict_get s (cacheMemoryDict t) = Some st /\
       setServerColor st c' = inr st' /\
       dict_get s (cacheMemoryDict (self_after o)) = Some st') /\
  log (world_after o) = [EvSetServerColor (VStr "r1") (VInt 0)].
Proof.
  cbv zeta.
  refine (assignColor_stops_at_missing_store
            Sample.topo_half_coloured Sample.world0
            [(VStr "r1", VInt 0)] [(VStr "r2", VInt 0)]
            (VStr "mainServer") (VInt 1)
            eq_refl eq_refl _ eq_refl).
  intros s [<-|[]].
  exists (VInt 0), (ColorCache VNone (VFloat Sample.one_half) (float_of_Z 2)),
    (Sample.mkStore "Hybrid" (float_of_Z 2) (Some (VFloat Sample.one_half))
                    (Some (VInt 0))).
  split; [reflexivity | split; reflexivity].
Defined.

(** X16 (witness). [build] in mode "no-color" in a world that holds the
    snapshot of run 5: that file is as it was. *)
Lemma build_touches_own_files_run :
  let t := Sample.topo Sample.net1 "no-color" in
  let w := Sample.world [("/tmp/run/cacheDict5.pkl", [Byte.x80])] [] in
  assoc "/tmp/run/cacheDict5.pkl" (files (world_after (build t w)))
  = Some [Byte.x80].
Proof.
  cbv zeta.
  refine (build_touches_own_files
            (Sample.topo Sample.net1 "no-color")
            (Sample.world [("/tmp/run/cacheDict5.pkl", [Byte.x80])] [])
            "/tmp/run/cacheDict5.pkl" _ _).
  - vm_compute. discriminate.
  - vm_compute. discriminate.
Defined.

(** X17 (witness). [build] in mode "no-color" on a fresh sample
    instance writes the snapshot of run 0. *)
Lemma build_snapshot_under_current_index_run :
  let o := build (Sample.topo Sample.net1 "no-color") Sample.world0 in
  build (Sample.topo Sample.net1 "no-color") Sample.world0
  = (inr tt, self_after o, world_after o) /\
  parallel_idx (self_after o) = 0%Z /\
  assoc "/tmp/run/cacheDict0.pkl" (files (world_after o))
  = Some (pickle_cache (cacheMemoryDict (self_after o))).
Proof.
  cbv zeta.
  assert (H1 : eq_str (mode (Sample.topo Sample.net1 "no-color")) "no-color"
               = true) by reflexivity.
  assert (H2 : build (Sample.topo Sample.net1 "no-color") Sample.world0
               = (inr tt,
                  self_after (build (Sample.topo Sample.net1 "no-color")
                                    Sample.world0),
                  world_after (build (Sample.topo Sample.net1 "no-color")
                                     Sample.world0)))
    by (vm_compute; reflexivity).
  split; [exact H2|].
  exact (build_snapshot_under_current_index _ _ _ _ H1 H2).
Defined.

(** X18 (witness). A link without [params2] from r1/eth2 to the name
    "r2/eth0": the edge ends at a node called "r2/eth0". *)
Lemma build_link_second_end_unsplit_run :
  let l := Sample.link_one "r1/eth2" "r2/eth0" "10.0.2.1/30" 10 in
  let o := build_link None l (Sample.topo Sample.net1 "no-cache")
                      Sample.world0 in
  result o = inr (Some (VStr "10.0.2.2/30")) /\
  exists a b d,
    "r1/eth2"%string = (a ++ "/" ++ b)%string /\
    is_substring "/" a = false /\ is_substring "/" b = false /\
    get_edge (graph (self_after o)) (VStr a) (VStr "r2/eth0") = Some d /\
    id_1 d = a /\ interface_1 d = b /\ interface_2 d = "0"%string /\
    Some (VStr "10.0.2.2/30") = Some (ip_2 d) /\
    has_node (graph (self_after o)) (VStr a) = true /\
    has_node (graph (self_after o)) (VStr "r2/eth0") = true.
Proof.
  cbv zeta.
  set (l := Sample.link_one "r1/eth2" "r2/eth0" "10.0.2.1/30" 10).
  set (t := Sample.topo Sample.net1 "no-cache").
  assert (H : build_link None l t Sample.world0
              = (inr (Some (VStr "10.0.2.2/30")),
                 self_after (build_link None l t Sample.world0),
                 world_after (build_link None l t Sample.world0)))
    by (vm_compute; reflexivity).
  split; [vm_compute; reflexivity|].
  exact (build_link_second_end_unsplit l
           (VList [VStr "r1/eth2"; VStr "r2/eth0"]) (VStr "r2/eth0")
           "r1/eth2" None t Sample.world0 _ _ _
           eq_refl eq_refl eq_refl eq_refl H).
Defined.

(** X19 (witness). A link whose first endpoint is written "r1". *)
Lemma build_link_endpoint_without_interface_run :
  let l := Sample.link "r1" "mainServer/eth0" 10 in
  let t := Sample.topo Sample.net1 "no-cache" in
  is_substring "/" "r1" = false /\
  build_link None l t Sample.world0 = (inl ValueError, t, Sample.world0).
Proof.
  cbv zeta. split; [reflexivity|].
  exact (build_link_endpoint_without_interface
           (Sample.link "r1" "mainServer/eth0" 10)
           (VList [VStr "r1"; VStr "mainServer/eth0"]) "r1" None
           (Sample.topo Sample.net1 "no-cache") Sample.world0
           eq_refl eq_refl eq_refl).
Defined.
